(** * Quezon City COVID-19 case mapping: a model of [codes/utils.py]

    The pipeline is fetch -> parse -> join -> render, driven in a batch over
    day ranges.  This development embeds [download_data], [extract_table],
    [preprocess] and [batch_process] of [codes/utils.py] and the strings
    and numbers [create_map] computes, and proves properties of them; the
    drawing of [create_map] enters as the call [batch_process] makes.

    The first part holds the definitions, the second the properties.

    Conventions of the embedding:
    - a Python call that may raise returns a [result]; the exception is a
      value of [exn];
    - Python [str] values are byte strings holding the UTF-8 encoding of the
      text (equality of texts is equality of their encodings);
    - a data frame cell is a string, a number or the missing value NaN; the
      numbers of the reports are case counts, so the numeric cells are
      integers (pandas holds them as float64 once a column has a missing
      value: the properties that depend on the value of a count are stated
      for the whole numbers float64 holds exactly);
    - calls that leave the program (the PDF reader, the shapefile reader, the
      geometry library, the HTTP client, the file system, the renderer's
      drawing) are parameters of the definitions that use them, and return
      a [result] where the call can raise. *)

From Stdlib Require Import ZArith List String Ascii Bool Lia Sorted.
From Stdlib Require Import DecimalString DecimalPos DecimalZ.
Import ListNotations.
Open Scope string_scope.
Open Scope list_scope.
Open Scope Z_scope.

(** ** Exceptions and the result of a call *)

(** The exception classes the program meets by name; an exception of any
    other class (the [ConnectionError] of a request, the [DataSourceError]
    of the shapefile reader, a [PermissionError], ...) is [OtherError] with
    the name of its class.  [FileNotFoundError], the one class
    [batch_process] catches, has no subclass among them. *)
Inductive exn : Type :=
| FileNotFoundError
| IndexError
| KeyError
| ValueError
| TypeError
| AttributeError
| OverflowError
| InvalidIndexError
| OtherError (class_name : string).

Inductive result (A : Type) : Type :=
| Ok (a : A)
| Raise (e : exn).

Arguments Ok {A} a.
Arguments Raise {A} e.

Definition bind {A B : Type} (c : result A) (k : A -> result B) : result B :=
  match c with
  | Ok a => k a
  | Raise e => Raise e
  end.

Notation "x <- c ;; k" := (bind c (fun x => k))
  (at level 61, c at next level, right associativity).

(** A [for] loop whose body may raise: the first exception ends the loop. *)
Fixpoint mapM {A B : Type} (f : A -> result B) (l : list A) : result (list B) :=
  match l with
  | [] => Ok []
  | a :: l' => b <- f a ;; bs <- mapM f l' ;; Ok (b :: bs)
  end.

Fixpoint foldM {A S : Type} (f : S -> A -> result S) (l : list A) (s : S)
  : result S :=
  match l with
  | [] => Ok s
  | a :: l' => s' <- f s a ;; foldM f l' s'
  end.

Definition is_ok {A : Type} (r : result A) : bool :=
  match r with Ok _ => true | Raise _ => false end.

(** ** Data frames *)

Module Pandas.

(** A cell of an object column. *)
Inductive cell : Type :=
| Str (s : string)
| Num (z : Z)
| NaN.

Definition cell_eqb (a b : cell) : bool :=
  match a, b with
  | Str s, Str t => String.eqb s t
  | Num x, Num y => Z.eqb x y
  | NaN, NaN => true
  | _, _ => false
  end.

(** A frame: its column labels and its rows, each row holding one cell per
    column.  Labels are cells, since [extract_table] makes a row of cells
    the header. *)
Record DataFrame : Type := mkDataFrame {
  columns : list cell;
  rows : list (list cell)
}.

(** [df.iloc[0, :].values]: the first row; out of bounds on an empty
    frame. *)
Definition iloc_0 (df : DataFrame) : result (list cell) :=
  match rows df with
  | [] => Raise IndexError
  | r :: _ => Ok r
  end.

(** The slice [l[1:-1]]: positions 1 .. len-2. *)
Definition slice_1_m1 {A : Type} (l : list A) : list A :=
  firstn (List.length l - 2) (skipn 1 l).

(** [df.iloc[1:-1, :]] *)
Definition iloc_1_m1 (df : DataFrame) : DataFrame :=
  {| columns := columns df; rows := slice_1_m1 (rows df) |}.

Fixpoint index_of (c : cell) (l : list cell) : option nat :=
  match l with
  | [] => None
  | x :: l' => if cell_eqb c x then Some 0%nat
               else option_map S (index_of c l')
  end.

Definition mem (c : cell) (l : list cell) : bool :=
  existsb (cell_eqb c) l.

Fixpoint labels_eqb (a b : list cell) : bool :=
  match a, b with
  | [], [] => true
  | x :: a', y :: b' => cell_eqb x y && labels_eqb a' b'
  | _, _ => false
  end.

Fixpoint unique (l : list cell) : bool :=
  match l with
  | [] => true
  | x :: l' => negb (mem x l') && unique l'
  end.

(** The labels of several label lists, none of which repeats a label, in
    order of first appearance. *)
Definition union_labels (ls : list (list cell)) : list cell :=
  fold_left
    (fun acc l => acc ++ filter (fun c => negb (mem c acc)) l) ls [].

(** The columns of a concatenation ([join='outer'], [sort=False]). *)
Definition union_columns (objs : list DataFrame) : list cell :=
  union_labels (map columns objs).

(** One row moved to new columns: the cell under each label it has, NaN
    under the others. *)
Definition reindex_row (old new : list cell) (row : list cell) : list cell :=
  map (fun c => match index_of c old with
                | Some i => nth i row NaN
                | None => NaN
                end) new.

(** Rows moved from the columns [old] to the columns [new]: rows whose
    columns already are the new ones are taken as they are. *)
Definition align (old new : list cell) (rs : list (list cell))
  : list (list cell) :=
  if labels_eqb old new then rs else map (reindex_row old new) rs.

(** [pd.concat(objs)]: the rows of all frames in order; nothing to
    concatenate is a [ValueError].  Frames that all have the same columns
    are stacked as they are, repeated labels or not.  Otherwise every frame
    is moved to the union of the columns, which pandas refuses
    ([InvalidIndexError]) as soon as one of the frames repeats a label. *)
Definition concat (objs : list DataFrame) : result DataFrame :=
  match objs with
  | [] => Raise ValueError
  | first :: _ =>
      if forallb (fun df => labels_eqb (columns df) (columns first)) objs
      then Ok {| columns := columns first; rows := flat_map rows objs |}
      else if forallb (fun df => unique (columns df)) objs
      then let cols := union_columns objs in
           Ok {| columns := cols;
                 rows := flat_map (fun df => align (columns df) cols (rows df))
                                  objs |}
      else Raise InvalidIndexError
  end.

End Pandas.
Import Pandas.

(** ** Table Extractor: [extract_table] *)

Section Extractor.

(** [tabula.read_pdf(file, pages="all", multiple_tables=True)]: the tables
    of the PDF, or the exception the reader raises
    ([FileNotFoundError] when there is no such file). *)
Variable read_pdf : string -> result (list DataFrame).

(** The body of the loop over the tables:
    [df.columns = df.iloc[0, :].values; results.append(df.iloc[1:-1, :])]. *)
Definition promote_header (table : DataFrame) : result DataFrame :=
  header <- iloc_0 table ;;
  let df := {| columns := header; rows := rows table |} in
  Ok (iloc_1_m1 df).

Definition extract_tables (tables : list DataFrame) : result DataFrame :=
  results <- mapM promote_header tables ;;
  concat results.

Definition extract_table (file : string) : result DataFrame :=
  tables <- read_pdf file ;;
  extract_tables tables.

End Extractor.

(** ** Preprocessor: [preprocess] *)

(** One record of the day's report: the columns [preprocess] addresses by
    label.  Other columns of the extracted table ride along through the join
    untouched and are left out. *)
Record CaseRow : Type := mkCaseRow {
  Barangay : cell;
  Active : cell;
  Died : cell;
  Recovered : cell;
  Total : cell
}.

(** The four count columns, [['Active', 'Died', 'Recovered', 'Total']]. *)
Inductive count_column : Type :=
| ColActive
| ColDied
| ColRecovered
| ColTotal.

Definition features : list count_column :=
  [ColActive; ColDied; ColRecovered; ColTotal].

Definition get_count (f : count_column) (r : CaseRow) : cell :=
  match f with
  | ColActive => Active r
  | ColDied => Died r
  | ColRecovered => Recovered r
  | ColTotal => Total r
  end.

Definition set_count (f : count_column) (v : cell) (r : CaseRow) : CaseRow :=
  match f with
  | ColActive => mkCaseRow (Barangay r) v (Died r) (Recovered r) (Total r)
  | ColDied => mkCaseRow (Barangay r) (Active r) v (Recovered r) (Total r)
  | ColRecovered => mkCaseRow (Barangay r) (Active r) (Died r) v (Total r)
  | ColTotal => mkCaseRow (Barangay r) (Active r) (Died r) (Recovered r) v
  end.

Definition set_Barangay (v : cell) (r : CaseRow) : CaseRow :=
  mkCaseRow v (Active r) (Died r) (Recovered r) (Total r).

(** The position of the one column carrying a label: [KeyError] when the
    frame has no such column, the exception [several] when it has more than
    one. *)
Definition column_index (several : exn) (label : string) (df : DataFrame)
  : result nat :=
  match index_of (Str label) (columns df) with
  | None => Raise KeyError
  | Some i =>
      if mem (Str label) (skipn (S i) (columns df)) then Raise several
      else Ok i
  end.

(** The label of a count column. *)
Definition label_of (f : count_column) : string :=
  match f with
  | ColActive => "Active"
  | ColDied => "Died"
  | ColRecovered => "Recovered"
  | ColTotal => "Total"
  end.

(** [covid_data[feature]] as [pd.to_numeric] takes it: with several
    columns of the label the selection is a frame, which [pd.to_numeric]
    refuses ([TypeError]). *)
Definition count_index (f : count_column) (df : DataFrame) : result nat :=
  column_index TypeError (label_of f) df.

(** The key of the merge, [on='Barangay']: a label that is not unique is a
    [ValueError]. *)
Definition key_index (df : DataFrame) : result nat :=
  column_index ValueError "Barangay" df.

(** The rows of a frame read as case records, given the positions of the
    five columns. *)
Definition records_at (b a d r t : nat) (df : DataFrame) : list CaseRow :=
  map (fun row => mkCaseRow (nth b row NaN) (nth a row NaN) (nth d row NaN)
                            (nth r row NaN) (nth t row NaN))
      (rows df).

(** The case records of a frame that has each of the five columns once;
    [preprocess] on a frame looks the columns up one statement at a time
    ([preprocess_frame] below), here they are looked up together. *)
Definition frame_records (df : DataFrame) : result (list CaseRow) :=
  a <- count_index ColActive df ;;
  d <- count_index ColDied df ;;
  r <- count_index ColRecovered df ;;
  t <- count_index ColTotal df ;;
  b <- key_index df ;;
  Ok (records_at b a d r t df).

(** The alias table [rep] of [preprocess], keys and values as the UTF-8
    bytes of the source's literals: the keys of the hyphenated names hold
    U+2010, their values the ASCII hyphen. *)
Definition rep : list (string * string) :=
  [ ("Bagong Pag‐Asa", "Bagong Pag-Asa");
    ("Don_a Imelda", "Doña Imelda");
    ("Don_a Josefa", "Doña Josefa");
    ("Duyan‐Duyan", "Duyan-Duyan");
    ("Pag‐Ibig Sa Nayon", "Pag-Ibig Sa Nayon");
    ("Pasong Putik", "Pasong Putik Proper");
    ("Phil‐Am", "Phil-Am");
    ("Quirino 2‐A", "Quirino 2-A");
    ("Quirino 2‐B", "Quirino 2-B");
    ("Quirino 2‐C", "Quirino 2-C");
    ("Quirino 3‐A", "Quirino 3-A");
    ("San Isidro Galas", "San Isidro");
    ("San Martin De Porres", "San Martin de Porres");
    ("Santo Nin_o", "Santo Niño");
    ("Siena", "Sienna") ].

(** The alias table of the boundary side. *)
Definition qc_rep : list (string * string) :=
  [ ("Constitution Hills", "Commonwealth") ].

(** [d.get(k)] on a dict given by its items. *)
Fixpoint lookup (k : string) (d : list (string * string)) : option string :=
  match d with
  | [] => None
  | (k', v) :: d' => if String.eqb k k' then Some v else lookup k d'
  end.

(** [replace] of one value by a dict: a value equal to a key becomes that
    key's value, in one step; any other value stays. *)
Definition replace_string (d : list (string * string)) (s : string) : string :=
  match lookup s d with
  | Some v => v
  | None => s
  end.

Definition replace_value (d : list (string * string)) (c : cell) : cell :=
  match c with
  | Str s => Str (replace_string d s)
  | _ => c
  end.

(** [covid_data.replace({'Barangay': rep})] *)
Definition replace_Barangay (d : list (string * string)) (r : CaseRow)
  : CaseRow :=
  set_Barangay (replace_value d (Barangay r)) r.

Section Preprocessor.

(** A polygon of the boundary file and a coordinate pair, as the geometry
    library has them. *)
Variable Geometry : Type.
Variable Point : Type.

(** One feature of a boundary file that has the columns [preprocess]
    reads ([REGION], [NAME_2], [NAME_3] and [geometry]); the geometry of a
    feature can be missing ([None]). *)
Record Feature : Type := mkFeature {
  REGION : string;
  NAME_2 : string;
  NAME_3 : string;
  geometry : option Geometry
}.

(** A row of [qc_df] once [coords] and [Barangay] are added. *)
Record QcRow : Type := mkQcRow {
  boundary : Feature;
  coords : Point;
  qc_Barangay : string
}.

(** A row of the joined frame: the columns of [qc_df], then the count
    columns of the case records. *)
Record JoinedRow : Type := mkJoinedRow {
  qc : QcRow;
  merged_Active : cell;
  merged_Died : cell;
  merged_Recovered : cell;
  merged_Total : cell
}.

(** The number parser inside [pd.to_numeric]: [None] when the string is
    no number, [Some None] when it reads as NaN (the empty string, "nan"),
    [Some (Some z)] for a number. *)
Variable floatify : string -> option (option Z).

(** [gpd.read_file(shapefiles_location)] *)
Variable read_file : string -> result (list Feature).

(** [x.representative_point().coords[:]] on a geometry: the coordinates of
    a point inside it, none for an empty geometry. *)
Variable representative_point : Geometry -> list Point.

(** [pd.to_numeric] on one element, [errors='raise'] (the default). *)
Definition to_numeric (c : cell) : result cell :=
  match c with
  | Num z => Ok (Num z)
  | NaN => Ok NaN
  | Str s =>
      match floatify s with
      | Some (Some z) => Ok (Num z)
      | Some None => Ok NaN
      | None => Raise ValueError
      end
  end.

(** [covid_data[feature] = pd.to_numeric(covid_data[feature])] *)
Definition to_numeric_column (f : count_column) (covid_data : list CaseRow)
  : result (list CaseRow) :=
  mapM (fun r => v <- to_numeric (get_count f r) ;; Ok (set_count f v r))
       covid_data.

(** [fillna(0)] on one element. *)
Definition fillna_0 (c : cell) : cell :=
  match c with
  | NaN => Num 0
  | _ => c
  end.

(** [covid_data[feature] = covid_data[feature].fillna(0)] *)
Definition fillna_column (f : count_column) (covid_data : list CaseRow)
  : list CaseRow :=
  map (fun r => set_count f (fillna_0 (get_count f r)) r) covid_data.

(** The body of the loop over the four count columns. *)
Definition coerce_column (covid_data : list CaseRow) (f : count_column)
  : result (list CaseRow) :=
  covid_data <- to_numeric_column f covid_data ;;
  Ok (fillna_column f covid_data).

(** The filter on region and city, by exact string match. *)
Definition in_quezon_city (f : Feature) : bool :=
  String.eqb (REGION f) "Metropolitan Manila"
  && String.eqb (NAME_2 f) "Quezon City".

(** [lambda x: x.representative_point().coords[:]] on the geometry of a
    row: a missing geometry is [None], which has no such method. *)
Definition point_coords (f : Feature) : result (list Point) :=
  match geometry f with
  | None => Raise AttributeError
  | Some g => Ok (representative_point g)
  end.

(** [coords[0]] *)
Definition first_coords (coords : list Point) : result Point :=
  match coords with
  | [] => Raise IndexError
  | p :: _ => Ok p
  end.

(** The [Barangay] of a boundary row: [NAME_3] after the alias correction
    of the boundary side. *)
Definition boundary_name (f : Feature) : string :=
  replace_string qc_rep (NAME_3 f).

(** A row of [qc_df] with its [coords] and its [Barangay]. *)
Definition qc_row (f : Feature) (p : Point) : QcRow :=
  {| boundary := f; coords := p; qc_Barangay := boundary_name f |}.

(** The three assignments to [qc_df]: the coordinate lists of all rows
    first, then the first coordinates of each, then the names. *)
Definition qc_rows (qc_df : list Feature) : result (list QcRow) :=
  coords_lists <- mapM point_coords qc_df ;;
  coords <- mapM first_coords coords_lists ;;
  Ok (map (fun fp => qc_row (fst fp) (snd fp)) (combine qc_df coords)).

(** The join key compared: a boundary name against a case record's
    [Barangay] cell. *)
Definition key_match (name : string) (r : CaseRow) : bool :=
  cell_eqb (Str name) (Barangay r).

Definition matched (q : QcRow) (r : CaseRow) : JoinedRow :=
  {| qc := q; merged_Active := Active r; merged_Died := Died r;
     merged_Recovered := Recovered r; merged_Total := Total r |}.

Definition unmatched (q : QcRow) : JoinedRow :=
  {| qc := q; merged_Active := NaN; merged_Died := NaN;
     merged_Recovered := NaN; merged_Total := NaN |}.

(** [qc_df.merge(covid_data, how='left', on='Barangay')]: the left rows in
    order, each once per right row with its key, or once with missing
    right columns when no right row has it. *)
Definition merge_left (qc_df : list QcRow) (covid_data : list CaseRow)
  : list JoinedRow :=
  flat_map
    (fun q =>
       match filter (key_match (qc_Barangay q)) covid_data with
       | [] => [unmatched q]
       | ms => map (matched q) ms
       end)
    qc_df.

Definition preprocess (covid_data : list CaseRow)
           (shapefiles_location : string) : result (list JoinedRow) :=
  let covid_data := map (replace_Barangay rep) covid_data in
  covid_data <- foldM coerce_column features covid_data ;;
  map_df <- read_file shapefiles_location ;;
  let qc_df := filter in_quezon_city map_df in
  qc_df <- qc_rows qc_df ;;
  Ok (merge_left qc_df covid_data).

(** *** Notions the properties of [preprocess] are stated with *)

(** The name a case record is joined on: its [Barangay] after the alias
    table. *)
Definition normalized_name (r : CaseRow) : cell :=
  replace_value rep (Barangay r).

(** The case records of a report whose normalized name is [name]. *)
Definition reports_of (name : string) (covid_data : list CaseRow)
  : list CaseRow :=
  filter (fun r => cell_eqb (Str name) (normalized_name r)) covid_data.

(** All four count cells of a record convert to numbers. *)
Definition counts_parse (r : CaseRow) : bool :=
  forallb (fun f => is_ok (to_numeric (get_count f r))) features.

(** A count cell after conversion and zero fill. *)
Definition coerced (c : cell) : cell :=
  match to_numeric c with
  | Ok v => fillna_0 v
  | Raise _ => c
  end.

(** A case record as it enters the join. *)
Definition clean (r : CaseRow) : CaseRow :=
  {| Barangay := normalized_name r;
     Active := coerced (Active r);
     Died := coerced (Died r);
     Recovered := coerced (Recovered r);
     Total := coerced (Total r) |}.

Definition joined_count (f : count_column) (j : JoinedRow) : cell :=
  match f with
  | ColActive => merged_Active j
  | ColDied => merged_Died j
  | ColRecovered => merged_Recovered j
  | ColTotal => merged_Total j
  end.

(** The [Barangay] column of the joined frame. *)
Definition joined_name (j : JoinedRow) : string :=
  qc_Barangay (qc j).

(** A feature has a geometry with a representative point. *)
Definition has_point (f : Feature) : bool :=
  match geometry f with
  | Some g => match representative_point g with [] => false | _ :: _ => true end
  | None => false
  end.

(** *** [preprocess] on the frame [extract_table] returns

    The statements of [preprocess] address the columns of [covid_data] by
    label, each at its own statement: [replace] passes a frame without a
    [Barangay] column, the loop looks each count column up and converts
    it before it looks the next one up, and the merge looks [Barangay] up
    after the boundary file is read and filtered. *)

(** [pd.to_numeric(covid_data[feature])]: the column looked up, then its
    cells converted. *)
Definition numeric_column (covid_data : DataFrame) (f : count_column)
  : result nat :=
  i <- count_index f covid_data ;;
  _ <- mapM (fun row => to_numeric (nth i row NaN)) (rows covid_data) ;;
  Ok i.

Definition preprocess_frame (covid_data : DataFrame)
           (shapefiles_location : string) : result (list JoinedRow) :=
  a <- numeric_column covid_data ColActive ;;
  d <- numeric_column covid_data ColDied ;;
  r <- numeric_column covid_data ColRecovered ;;
  t <- numeric_column covid_data ColTotal ;;
  map_df <- read_file shapefiles_location ;;
  let qc_df := filter in_quezon_city map_df in
  qc_df <- qc_rows qc_df ;;
  b <- key_index covid_data ;;
  Ok (merge_left qc_df (map clean (records_at b a d r t covid_data))).

End Preprocessor.

Arguments REGION {Geometry} _.
Arguments NAME_2 {Geometry} _.
Arguments NAME_3 {Geometry} _.
Arguments geometry {Geometry} _.
Arguments mkFeature {Geometry} _ _ _ _.
Arguments boundary {Geometry Point} _.
Arguments coords {Geometry Point} _.
Arguments qc_Barangay {Geometry Point} _.
Arguments mkQcRow {Geometry Point} _ _ _.
Arguments qc {Geometry Point} _.
Arguments merged_Active {Geometry Point} _.
Arguments merged_Died {Geometry Point} _.
Arguments merged_Recovered {Geometry Point} _.
Arguments merged_Total {Geometry Point} _.
Arguments in_quezon_city {Geometry} _.
Arguments qc_row {Geometry Point} _ _.
Arguments qc_rows {Geometry Point} _ _.
Arguments point_coords {Geometry Point} _ _.
Arguments first_coords {Point} _.
Arguments has_point {Geometry Point} _ _.
Arguments matched {Geometry Point} _ _.
Arguments unmatched {Geometry Point} _.
Arguments merge_left {Geometry Point} _ _.
Arguments preprocess {Geometry Point} _ _ _ _ _.
Arguments preprocess_frame {Geometry Point} _ _ _ _ _.
Arguments boundary_name {Geometry} _.
Arguments joined_count {Geometry Point} _ _.
Arguments joined_name {Geometry Point} _.

(** ** Dates and their formatting *)

(** [str(n)] of a Python [int]. *)
Definition str_int (n : Z) : string :=
  NilZero.string_of_int (Z.to_int n).

Module Calendar.

(** A [datetime.date]. *)
Record date : Type := mkDate {
  year : Z;
  month : Z;
  day : Z
}.

Definition is_leap (y : Z) : bool :=
  (y mod 4 =? 0) && (negb (y mod 100 =? 0) || (y mod 400 =? 0)).

Definition days_in_month (y m : Z) : Z :=
  if m =? 2 then (if is_leap y then 29 else 28)
  else if (m =? 4) || (m =? 6) || (m =? 9) || (m =? 11) then 30
  else 31.

(** The dates [datetime.date] accepts: years 1 to 9999. *)
Definition valid (d : date) : bool :=
  (1 <=? year d) && (year d <=? 9999)
  && (1 <=? month d) && (month d <=? 12)
  && (1 <=? day d) && (day d <=? days_in_month (year d) (month d)).

(** The integers a C [int] holds. *)
Definition c_int (z : Z) : bool :=
  (- 2 ^ 31 <=? z) && (z <? 2 ^ 31).

(** [datetime.date(dt[0], dt[1], dt[2])]: the three arguments are read as
    C [int]s ([OverflowError] for one that does not fit), then checked
    against the calendar ([ValueError]). *)
Definition make_date (dt : Z * Z * Z) : result date :=
  let '(y, m, d) := dt in
  let x := {| year := y; month := m; day := d |} in
  if c_int y && c_int m && c_int d
  then (if valid x then Ok x else Raise ValueError)
  else Raise OverflowError.

(** [a <= b] on dates: the order of (year, month, day). *)
Definition date_leb (a b : date) : bool :=
  (year a <? year b)
  || ((year a =? year b)
      && ((month a <? month b)
          || ((month a =? month b) && (day a <=? day b)))).

(** [a < b] *)
Definition date_ltb (a b : date) : bool := negb (date_leb b a).

(** [d + datetime.timedelta(days=1)]: the next day of the calendar; past
    [date.max] it is an [OverflowError]. *)
Definition add_day (d : date) : result date :=
  if day d <? days_in_month (year d) (month d)
  then Ok {| year := year d; month := month d; day := day d + 1 |}
  else if month d <? 12
  then Ok {| year := year d; month := month d + 1; day := 1 |}
  else if year d <? 9999
  then Ok {| year := year d + 1; month := 1; day := 1 |}
  else Raise OverflowError.

(** A bound on the number of days from one date to another, used to
    bound the iterations of a loop over the days between them. *)
Definition day_number (d : date) : Z :=
  (year d * 12 + month d) * 31 + day d.

Definition digit (n : Z) : ascii :=
  ascii_of_nat (48 + Z.to_nat n).

Definition two_digits (n : Z) : string :=
  String (digit (n / 10)) (String (digit (n mod 10)) EmptyString).

Definition month_names : list string :=
  [ "January"; "February"; "March"; "April"; "May"; "June"; "July";
    "August"; "September"; "October"; "November"; "December" ].

(** [strftime] directives, in the C locale and with the C library of
    Linux: [%B] the month's full name, [%d] and [%m] the day and the month
    on two digits, [%Y] the year in decimal, which is four digits from the
    year 1000 on and fewer before (the year is not padded). *)
Definition fmt_B (d : date) : string :=
  nth (Z.to_nat (month d - 1)) month_names "".
Definition fmt_d (d : date) : string := two_digits (day d).
Definition fmt_m (d : date) : string := two_digits (month d).
Definition fmt_Y (d : date) : string := str_int (year d).

End Calendar.
Import Calendar.

(** ** Effects on the world outside the program *)

(** What a run does to the world, in order: a directory made, a URL
    requested, a file written, a line printed. *)
Inductive effect : Type :=
| MakeDirs (directory : string)
| Request (url : string)
| WriteFile (path : string) (data : string)
| PrintLine (text : string).

(** How a loop run on a bound of iterations ended. *)
Inductive outcome : Type :=
| Returned
| Raised (e : exn)
| OutOfFuel.

(** ** Fetcher: [download_data] *)

Section Fetcher.

(** A [requests.Response]: its status code and its body. *)
Record Response : Type := mkResponse {
  status_code : Z;
  content : string
}.

(** [os.makedirs(directory, exist_ok=True)]: the directory made (or found),
    or the exception of the file system. *)
Variable makedirs : string -> result unit.

(** [requests.get(url)]: the response of the server, or the exception of
    the HTTP client (no connection, a time-out, ...). *)
Variable requests_get : string -> result Response.

(** [with open(path, 'wb') as fd: for chunk in chunks: fd.write(chunk)] as
    the file system answers it: the file opened, written and closed, or
    the exception raised on the way (what the file then holds is left
    open). *)
Variable save : string -> list string -> result unit.

(** [str(response)] *)
Definition response_str (r : Response) : string :=
  ("<Response [" ++ str_int (status_code r) ++ "]>")%string.

Definition indicates_success (r : Response) : bool :=
  String.eqb (response_str r) "<Response [200]>".

(** [f'{start_date.strftime("%B-%d-%Y")}-Cases.pdf'] *)
Definition filename (d : date) : string :=
  (fmt_B d ++ "-" ++ fmt_d d ++ "-" ++ fmt_Y d ++ "-Cases.pdf")%string.

Definition url (d : date) : string :=
  ("https://quezoncity.gov.ph/wp-content/uploads/2021/"
     ++ fmt_m d ++ "/" ++ filename d)%string.

Definition saved_path (directory : string) (d : date) : string :=
  (directory ++ "/" ++ filename d)%string.

(** [f'No data extracted on {start_date.strftime("%B %d, %Y")}'] *)
Definition no_data_message (d : date) : string :=
  ("No data extracted on "
     ++ fmt_B d ++ " " ++ fmt_d d ++ ", " ++ fmt_Y d)%string.

(** [response.iter_content(chunk_size=100)]: the body in successive pieces
    of [chunk_size] bytes, the last one shorter when the length asks for
    it.  The recursion is bounded by the length of the body. *)
Fixpoint iter_slices (fuel : nat) (chunk_size : nat) (body : string)
  : list string :=
  match fuel with
  | O => []
  | S fuel' =>
      match body with
      | EmptyString => []
      | String _ _ =>
          substring 0 chunk_size body
            :: iter_slices fuel' chunk_size
                           (substring chunk_size
                                      (String.length body - chunk_size) body)
      end
  end.

Definition iter_content (chunk_size : nat) (r : Response) : list string :=
  iter_slices (String.length (content r)) chunk_size (content r).

(** A file written: its data are the chunks one after the other. *)
Definition write_chunks (path : string) (chunks : list string) : effect :=
  WriteFile path (fold_left String.append chunks "").

(** The body of the [while] loop up to the increment: the request, then
    either the file written or the line printed.  An exception of the
    request or of the writing leaves the body, and nothing in
    [download_data] catches it. *)
Definition fetch (directory : string) (start_date : date)
  : list effect * result unit :=
  let u := url start_date in
  match requests_get u with
  | Raise e => ([Request u], Raise e)
  | Ok response =>
      if indicates_success response
      then let path := saved_path directory start_date in
           let chunks := iter_content 100 response in
           match save path chunks with
           | Ok _ => ([Request u; write_chunks path chunks], Ok tt)
           | Raise e => ([Request u], Raise e)
           end
      else ([Request u; PrintLine (no_data_message start_date)], Ok tt)
  end.

(** [while start_date <= end_date: ...; start_date += delta], on at most
    [fuel] iterations. *)
Fixpoint download_loop (fuel : nat) (directory : string)
         (start_date end_date : date) : list effect * outcome :=
  match fuel with
  | O => ([], OutOfFuel)
  | S fuel' =>
      if date_leb start_date end_date then
        match fetch directory start_date with
        | (done, Raise e) => (done, Raised e)
        | (done, Ok _) =>
            match add_day start_date with
            | Ok next =>
                let (later, o) :=
                  download_loop fuel' directory next end_date in
                (done ++ later, o)
            | Raise e => (done, Raised e)
            end
        end
      else ([], Returned)
  end.

(** Iterations that suffice for the days from one date to another. *)
Definition enough_fuel (start_date end_date : date) : nat :=
  S (Z.to_nat (day_number end_date - day_number start_date + 1)).

Definition download_data (start_dt end_dt : Z * Z * Z) (directory : string)
  : list effect * outcome :=
  match makedirs directory with
  | Raise e => ([], Raised e)
  | Ok _ =>
      match make_date start_dt with
      | Raise e => ([MakeDirs directory], Raised e)
      | Ok start_date =>
          match make_date end_dt with
          | Raise e => ([MakeDirs directory], Raised e)
          | Ok end_date =>
              let (tr, o) :=
                download_loop (enough_fuel start_date end_date) directory
                              start_date end_date in
              (MakeDirs directory :: tr, o)
          end
      end
  end.

End Fetcher.

(** ** Batch Driver: [batch_process] *)

Section BatchDriver.

Variable Geometry : Type.
Variable Point : Type.
Variable read_pdf : string -> result (list DataFrame).
Variable floatify : string -> option (option Z).
Variable read_file : string -> result (list (Feature Geometry)).
Variable representative_point : Geometry -> list Point.

(** [create_map(df, filename, total_counts_file, vmax=vmax,
    show_plot=False, save_fig=True, output_dir=output_dir)]: the figure
    drawn and saved, or the exception raised on the way. *)
Variable create_map :
  list (JoinedRow Geometry Point) -> string -> result unit.

Variable data_dir : string.
Variable shapefiles_location : string.

(** The expected file of a day: the day on two digits by the branch on
    [day < 10], the year the literal 2021. *)
Definition downloaded_file (month_ : string) (day_ : Z) : string :=
  if day_ <? 10
  then (data_dir ++ "/" ++ month_ ++ "-0" ++ str_int day_
          ++ "-2021-Cases.pdf")%string
  else (data_dir ++ "/" ++ month_ ++ "-" ++ str_int day_
          ++ "-2021-Cases.pdf")%string.

(** The body of the [try]. *)
Definition process_day (file : string) : result unit :=
  downloaded_data_df <- extract_table read_pdf file ;;
  preprocessed_data <-
    preprocess_frame floatify read_file representative_point
                     downloaded_data_df shapefiles_location ;;
  create_map preprocessed_data file.

(** [range(1, n + 1)] *)
Definition range_from_1 (n : Z) : list Z :=
  map Z.of_nat (seq 1 (Z.to_nat n)).

(** The loop over the days of one range, [except FileNotFoundError:
    continue] around its body: the files whose map was made, and how the
    loop ended. *)
Fixpoint process_days (month_ : string) (days : list Z)
  : list string * result unit :=
  match days with
  | [] => ([], Ok tt)
  | day_ :: rest =>
      let file := downloaded_file month_ day_ in
      match process_day file with
      | Ok _ =>
          let (made, r) := process_days month_ rest in (file :: made, r)
      | Raise FileNotFoundError => process_days month_ rest
      | Raise e => ([], Raise e)
      end
  end.

(** The loop over the ranges; an exception that leaves the inner loop
    leaves this one too. *)
Fixpoint batch_process (dt : list (string * Z))
  : list string * result unit :=
  match dt with
  | [] => ([], Ok tt)
  | date_range :: rest =>
      let month_ := fst date_range in
      match process_days month_ (range_from_1 (snd date_range)) with
      | (made, Ok _) =>
          let (later, r) := batch_process rest in (made ++ later, r)
      | (made, Raise e) => (made, Raise e)
      end
  end.

(** The files the driver looks for, in the order of its two loops. *)
Definition expected_files (dt : list (string * Z)) : list string :=
  flat_map
    (fun date_range =>
       map (downloaded_file (fst date_range))
           (range_from_1 (snd date_range)))
    dt.

End BatchDriver.

Arguments process_day {Geometry Point} _ _ _ _ _ _ _.
Arguments process_days {Geometry Point} _ _ _ _ _ _ _ _ _.
Arguments batch_process {Geometry Point} _ _ _ _ _ _ _ _.

(** ** Further notions of the extractor, the fetcher and the driver *)

(** The frame [extract_table] appends to [results] for a table that has
    rows: the first row as labels, the rows between the first and the
    last. *)
Definition promoted (table : DataFrame) : DataFrame :=
  {| columns := hd [] (rows table); rows := slice_1_m1 (rows table) |}.

(** The cells rows hold under a label of their columns, NaN for rows whose
    columns lack the label. *)
Definition cells_under (label : cell) (cols : list cell)
           (rs : list (list cell)) : list cell :=
  map (fun r => match index_of label cols with
                | Some i => nth i r NaN
                | None => NaN
                end) rs.

(** [datetime.date.max] *)
Definition date_max : date := {| year := 9999; month := 12; day := 31 |}.

Section DriverLoop.

Variable Geometry : Type.
Variable Point : Type.
Variable read_pdf : string -> result (list DataFrame).
Variable floatify : string -> option (option Z).
Variable read_file : string -> result (list (Feature Geometry)).
Variable representative_point : Geometry -> list Point.
Variable create_map :
  list (JoinedRow Geometry Point) -> string -> result unit.
Variable shapefiles_location : string.

(** The body of [batch_process] run on a list of files, one after the
    other: what its two loops do on the files they build, in order. *)
Fixpoint process_files (files : list string) : list string * result unit :=
  match files with
  | [] => ([], Ok tt)
  | file :: rest =>
      match process_day read_pdf floatify read_file representative_point
                        create_map shapefiles_location file with
      | Ok _ => let (made, r) := process_files rest in (file :: made, r)
      | Raise FileNotFoundError => process_files rest
      | Raise e => ([], Raise e)
      end
  end.

(** A day of the batch ends without an exception that would stop it. *)
Definition day_passes (file : string) : bool :=
  match process_day read_pdf floatify read_file representative_point
                    create_map shapefiles_location file with
  | Ok _ => true
  | Raise FileNotFoundError => true
  | Raise _ => false
  end.

Definition day_is_made (file : string) : bool :=
  is_ok (process_day read_pdf floatify read_file representative_point
                     create_map shapefiles_location file).

End DriverLoop.

Arguments process_files {Geometry Point} _ _ _ _ _ _ _.
Arguments day_passes {Geometry Point} _ _ _ _ _ _ _.
Arguments day_is_made {Geometry Point} _ _ _ _ _ _ _.

(** ** Map Renderer: what [create_map] reads from its arguments

    The drawing of [create_map] is left to the plotting library; the
    strings and numbers it draws are computed from the file name, the
    totals file and the joined frame by the expressions below. *)

(** [s.split(sep)] for a separator of one character. *)
Fixpoint split (sep : ascii) (s : string) : list string :=
  match s with
  | EmptyString => [EmptyString]
  | String c s' =>
      if Ascii.eqb c sep then EmptyString :: split sep s'
      else match split sep s' with
           | [] => [String c EmptyString]
           | w :: ws => String c w :: ws
           end
  end.

(** [s.replace(old, new)] for a non-empty [old]: the occurrences of [old]
    from the left, none overlapping another; [skip] counts the characters
    of an occurrence still to pass. *)
Fixpoint replace_from (old new : string) (skip : nat) (s : string) : string :=
  match s with
  | EmptyString => EmptyString
  | String c s' =>
      match skip with
      | S k => replace_from old new k s'
      | O =>
          if String.prefix old s
          then (new ++ replace_from old new (String.length old - 1) s')%string
          else String c (replace_from old new 0 s')
      end
  end.

Definition str_replace (old new s : string) : string :=
  replace_from old new 0 s.

(** The character [c] does not occur in [s]. *)
Fixpoint avoids (c : ascii) (s : string) : bool :=
  match s with
  | EmptyString => true
  | String x s' => negb (Ascii.eqb x c) && avoids c s'
  end.

(** A text without the characters [create_map] cuts file names at ('/',
    '-' and the space) and without the 'C' that begins "Cases". *)
Definition plain (s : string) : bool :=
  avoids "/" s && avoids "-" s && avoids " " s && avoids "C" s.

(** [filename.split('/')[-1].replace('-Cases.pdf', '')]; [split] returns at
    least one string, so [[-1]] is in bounds. *)
Definition source_name (filename : string) : string :=
  str_replace "-Cases.pdf" "" (List.last (split "/" filename) "").

(** [dt = ... .replace('-', ' ').split(' ')] *)
Definition date_words (filename : string) : list string :=
  split " " (str_replace "-" " " (source_name filename)).

(** [" ".join(dt)], the key looked up in the totals. *)
Definition totals_key (filename : string) : string :=
  String.concat " " (date_words filename).

(** [dt[1] = f'{dt[1]},'; dt = " ".join(dt)]: the date of the title. *)
Definition title_date (filename : string) : result string :=
  match date_words filename with
  | w0 :: w1 :: ws => Ok (String.concat " " (w0 :: (w1 ++ ",")%string :: ws))
  | _ => Raise IndexError
  end.

(** [f"{output_dir}/{filename.split('/')[-1].replace('-Cases.pdf', '')}.png"] *)
Definition figure_path (output_dir filename : string) : string :=
  (output_dir ++ "/" ++ source_name filename ++ ".png")%string.

(** [int(x)] of a cell of a numeric column: NaN cannot be converted.  The
    columns read this way are numeric (the counts after [pd.to_numeric]
    and the merge, the totals as [read_csv] types them) and hold numbers
    or NaN; the case of a string is not reached by them. *)
Definition int_of (c : cell) : result Z :=
  match c with
  | Num z => Ok z
  | _ => Raise ValueError
  end.

Module Totals.

(** A row of the totals file once [Date] is parsed. *)
Record row : Type := mkRow {
  Date : date;
  Active : cell;
  Deaths : cell;
  Recoveries : cell;
  Total : cell
}.

End Totals.

(** [x.strftime('%B %d %Y')] *)
Definition fmt_totals (d : date) : string :=
  (fmt_B d ++ " " ++ fmt_d d ++ " " ++ fmt_Y d)%string.

(** [total_counts[total_counts.Date == " ".join(dt)]] *)
Definition total_counts_df (filename : string)
           (total_counts : list Totals.row) : list Totals.row :=
  filter (fun t => String.eqb (fmt_totals (Totals.Date t))
                              (totals_key filename))
         total_counts.

(** The four numbers of the headline, each
    [int(total_counts_df.<column>.values[0])], in the order the source
    evaluates them. *)
Definition headline (filename : string) (total_counts : list Totals.row)
  : result (Z * Z * Z * Z) :=
  match total_counts_df filename total_counts with
  | [] => Raise IndexError
  | t :: _ =>
      tot_active <- int_of (Totals.Active t) ;;
      tot_died <- int_of (Totals.Deaths t) ;;
      tot_recov <- int_of (Totals.Recoveries t) ;;
      tot <- int_of (Totals.Total t) ;;
      Ok (tot_active, tot_died, tot_recov, tot)
  end.

(** A count cell whose value the figure shows exactly: a missing value, or
    a whole number from 0 to 2^53 (the whole numbers up to which float64,
    the type of a count column with a missing value, holds every one),
    written as its decimal numeral and read by the parser as that
    number. *)
Definition exact_count (floatify : string -> option (option Z)) (c : cell)
  : bool :=
  match c with
  | NaN => true
  | Num z => (0 <=? z) && (z <=? 2 ^ 53)
  | Str s =>
      match floatify s with
      | Some (Some z) =>
          (0 <=? z) && (z <=? 2 ^ 53) && String.eqb s (str_int z)
      | Some None => true
      | None => false
      end
  end.

Section Annotations.

Variable Geometry : Type.
Variable Point : Type.

(** [df[df.Barangay == name]] *)
Definition rows_named (name : string) (df : list (JoinedRow Geometry Point))
  : list (JoinedRow Geometry Point) :=
  filter (fun j => String.eqb (joined_name j) name) df.

(** [int(df[df.Barangay == name].<column>.values[0])], the annotation of
    Commonwealth. *)
Definition first_value (name : string) (c : count_column)
           (df : list (JoinedRow Geometry Point)) : result Z :=
  match rows_named name df with
  | [] => Raise IndexError
  | j :: _ => int_of (joined_count c j)
  end.

(** A cell as [sum()] adds it: NaN is skipped. *)
Definition summand (c : cell) : Z :=
  match c with
  | Num z => z
  | _ => 0
  end.

(** [int(df[df.Barangay == name].<column>.sum())], the annotation of
    Fairview, Batasan Hills, Holy Spirit and Pasong Tamo. *)
Definition barangay_sum (name : string) (c : count_column)
           (df : list (JoinedRow Geometry Point)) : Z :=
  fold_right Z.add 0 (map (fun j => summand (joined_count c j))
                          (rows_named name df)).

End Annotations.

Arguments rows_named {Geometry Point} _ _.
Arguments first_value {Geometry Point} _ _ _.
Arguments barangay_sum {Geometry Point} _ _ _.


(** ** Sample inputs

    Concrete instances of the parameters and small inputs, on which the
    definitions above are run. *)

Module Sample.

(** The number parser on reports whose counts are integer numerals: the
    empty string reads as NaN, a decimal integer as its value, and
    nothing else is a number. *)
Definition floatify (s : string) : option (option Z) :=
  if String.eqb s "" then Some None
  else match NilZero.int_of_string s with
       | Some i => Some (Some (Z.of_int i))
       | None => None
       end.

(** Geometries are left opaque and every one has the same point. *)
Definition representative_point (g : unit) : list (Z * Z) := [(0, 0)].

Definition quezon_city (name : string) : Feature unit :=
  mkFeature "Metropolitan Manila" "Quezon City" name (Some tt).

Definition manila (name : string) : Feature unit :=
  mkFeature "Metropolitan Manila" "Manila" name (Some tt).

(** Two boundary files: [qc_shp] has three subdivisions of Quezon City and
    one of Manila, [other_shp] has no feature that passes the filter. *)
Definition qc_shp : list (Feature unit) :=
  [ quezon_city "Bagumbayan"; quezon_city "Constitution Hills";
    manila "Ermita"; quezon_city "Pasong Putik Proper" ].

Definition other_shp : list (Feature unit) := [ manila "Ermita" ].

Definition read_file (location : string) : result (list (Feature unit)) :=
  if String.eqb location "shapefiles/qc.shp" then Ok qc_shp
  else if String.eqb location "shapefiles/other.shp" then Ok other_shp
  else Raise ValueError.

Definition case_row (name : string) (a d r t : cell) : CaseRow :=
  mkCaseRow (Str name) a d r t.

(** A report that names two of the three subdivisions, one of them by an
    alias, and a place the boundary file does not have. *)
Definition nowhere : CaseRow :=
  case_row "Nowhere" (Str "2") (Str "0") (Str "5") (Str "7").

Definition report : list CaseRow :=
  [ case_row "Bagumbayan" (Str "12") (Str "1") (Str "30") (Str "43");
    case_row "Pasong Putik" (Str "7") NaN (Str "9") (Str "16");
    nowhere ].

(** The same report with one subdivision on two rows. *)
Definition report_with_duplicate : list CaseRow :=
  report
  ++ [ case_row "Bagumbayan" (Str "12") (Str "1") (Str "30") (Str "43") ].

(** A report with a count cell that is no number. *)
Definition report_with_token : list CaseRow :=
  [ case_row "Bagumbayan" (Str "abc") (Str "1") (Str "30") (Str "43") ].

(** [preprocess] on these instances. *)
Definition run_preprocess (covid_data : list CaseRow) (location : string)
  : result (list (JoinedRow unit (Z * Z))) :=
  preprocess floatify read_file representative_point covid_data location.

(** A report of two pages: a header row, data rows and a footer row on
    each. *)
Definition page_1 : DataFrame :=
  {| columns := [Num 0; Num 1; Num 2; Num 3; Num 4];
     rows := [ [Str "Barangay"; Str "Active"; Str "Died"; Str "Recovered";
                Str "Total"];
               [Str "Bagumbayan"; Str "12"; Str "1"; Str "30"; Str "43"];
               [Str "Pasong Putik"; Str "7"; NaN; Str "9"; Str "16"];
               [Str "Total"; Str "19"; Str "1"; Str "39"; Str "59"] ] |}.

Definition page_2 : DataFrame :=
  {| columns := [Num 0; Num 1; Num 2; Num 3; Num 4];
     rows := [ [Str "Barangay"; Str "Active"; Str "Died"; Str "Recovered";
                Str "Total"];
               [Str "Nowhere"; Str "2"; Str "0"; Str "5"; Str "7"];
               [Str "Total"; Str "2"; Str "0"; Str "5"; Str "7"] ] |}.

(** The download directory: January 2021 with the fifth missing. *)
Definition downloaded : list string :=
  [ "data/January-01-2021-Cases.pdf"; "data/January-02-2021-Cases.pdf";
    "data/January-03-2021-Cases.pdf"; "data/January-04-2021-Cases.pdf";
    "data/January-06-2021-Cases.pdf" ].

Definition file_exists (file : string) : bool :=
  existsb (String.eqb file) downloaded.

Definition read_pdf (file : string) : result (list DataFrame) :=
  if file_exists file then Ok [page_1; page_2]
  else Raise FileNotFoundError.

(** A renderer that draws every frame. *)
Definition create_map (df : list (JoinedRow unit (Z * Z))) (file : string)
  : result unit := Ok tt.

Definition run_batch (dt : list (string * Z)) : list string * result unit :=
  batch_process read_pdf floatify read_file representative_point
                create_map "data" "shapefiles/qc.shp" dt.

(** A server that has the report of 1 March 2021 only. *)
Definition requests_get (u : string) : result Response :=
  if String.eqb u
       "https://quezoncity.gov.ph/wp-content/uploads/2021/03/March-01-2021-Cases.pdf"
  then Ok (mkResponse 200 "%PDF")
  else Ok (mkResponse 404 "").

(** A file system that makes every directory and writes every file. *)
Definition makedirs (directory : string) : result unit := Ok tt.

Definition save (path : string) (chunks : list string) : result unit :=
  Ok tt.

End Sample.

(** ** Further sample inputs *)

Module Trial.

(** A table that holds a header row only, as a page break leaves one. *)
Definition header_only : DataFrame :=
  {| columns := [Num 0; Num 1; Num 2; Num 3; Num 4];
     rows := [ [Str "Barangay"; Str "Active"; Str "Died"; Str "Recovered";
                Str "Total"] ] |}.

(** A reader for which the report of 3 January holds no table and one
    report has a page with a header only. *)
Definition read_pdf (file : string) : result (list DataFrame) :=
  if String.eqb file "data/January-03-2021-Cases.pdf" then Ok []
  else if String.eqb file "data/short.pdf"
       then Ok [Sample.page_1; header_only; Sample.page_2]
       else Sample.read_pdf file.

(** A boundary reader that finds no file at the location. *)
Definition read_file (location : string) : result (list (Feature unit)) :=
  Raise (OtherError "DataSourceError").

(** A boundary file in which two features bear the same name. *)
Definition twin_shp : list (Feature unit) :=
  [ Sample.quezon_city "Fairview"; Sample.quezon_city "Fairview";
    Sample.quezon_city "Bagumbayan" ].

Definition read_twin (location : string) : result (list (Feature unit)) :=
  Ok twin_shp.

Definition fairview : CaseRow :=
  Sample.case_row "Fairview" (Str "3") (Str "0") (Str "4") (Str "7").

(** A renderer that does not find the totals file. *)
Definition create_map (df : list (JoinedRow unit (Z * Z))) (file : string)
  : result unit := Raise FileNotFoundError.

Definition jan_4 : date := {| year := 2021; month := 1; day := 4 |}.
Definition jan_5 : date := {| year := 2021; month := 1; day := 5 |}.
Definition mar_1 : date := {| year := 2021; month := 3; day := 1 |}.

(** A server that has the report of 1 March and cannot be reached on
    2 March. *)
Definition requests_get (u : string) : result Response :=
  if String.eqb u
       "https://quezoncity.gov.ph/wp-content/uploads/2021/03/March-02-2021-Cases.pdf"
  then Raise (OtherError "ConnectionError")
  else Sample.requests_get u.

(** A totals file with two rows for 5 January. *)
Definition total_counts : list Totals.row :=
  [ Totals.mkRow jan_4 (Num 950) (Num 700) (Num 24000) (Num 25650);
    Totals.mkRow jan_5 (Num 975) (Num 702) (Num 24100) (Num 25777);
    Totals.mkRow jan_5 (Num 0) (Num 0) (Num 0) (Num 0) ].

End Trial.
(** * Properties *)

(** ** Calls that may raise *)

Lemma mapM_ok_map {A B : Type} (f : A -> result B) (g : A -> B) (l : list A) :
  (forall a, In a l -> f a = Ok (g a)) -> mapM f l = Ok (map g l).
Proof.
  induction l as [|a l IH]; intros H; simpl.
  - reflexivity.
  - rewrite (H a (or_introl eq_refl)). simpl.
    rewrite IH by (intros; apply H; now right). reflexivity.
Qed.

Lemma mapM_ok_inv {A B : Type} (f : A -> result B) (l : list A) (bs : list B) :
  mapM f l = Ok bs -> Forall2 (fun a b => f a = Ok b) l bs.
Proof.
  revert bs. induction l as [|a l IH]; simpl; intros bs H.
  - injection H as <-. constructor.
  - destruct (f a) as [b|e] eqn:Ea; simpl in H; [|discriminate].
    destruct (mapM f l) as [bs'|e] eqn:El; simpl in H; [|discriminate].
    injection H as <-. constructor; auto.
Qed.

Lemma mapM_raise {A B : Type} (f : A -> result B) (l : list A) (e : exn) :
  mapM f l = Raise e -> exists a, In a l /\ f a = Raise e.
Proof.
  induction l as [|a l IH]; simpl; intros H; [discriminate|].
  destruct (f a) as [b|e'] eqn:Ea; simpl in H.
  - destruct (mapM f l) as [bs|e''] eqn:El; simpl in H; [discriminate|].
    injection H as <-. destruct (IH eq_refl) as (x & Hx & Hfx).
    exists x. split; [now right|assumption].
  - injection H as <-. exists a. split; [now left|assumption].
Qed.

(** ** Cells and labels *)

Lemma cell_eqb_eq (a b : cell) : cell_eqb a b = true <-> a = b.
Proof.
  destruct a, b; simpl; split; intros H; try discriminate; try reflexivity.
  - apply String.eqb_eq in H. now subst.
  - injection H as <-. apply String.eqb_refl.
  - apply Z.eqb_eq in H. now subst.
  - injection H as <-. apply Z.eqb_refl.
Qed.

Lemma cell_eqb_refl (a : cell) : cell_eqb a a = true.
Proof. now apply cell_eqb_eq. Qed.

Lemma labels_eqb_refl (l : list cell) : labels_eqb l l = true.
Proof.
  induction l as [|x l IH]; simpl; [reflexivity|].
  now rewrite cell_eqb_refl, IH.
Qed.

Lemma labels_eqb_eq (a b : list cell) : labels_eqb a b = true <-> a = b.
Proof.
  split.
  - revert b. induction a as [|x a IH]; destruct b as [|y b]; simpl;
      intros H; try discriminate; [reflexivity|].
    apply andb_true_iff in H as [Hx Hl].
    apply cell_eqb_eq in Hx. apply IH in Hl. now subst.
  - intros <-. apply labels_eqb_refl.
Qed.

Lemma mem_In (c : cell) (l : list cell) : mem c l = true <-> In c l.
Proof.
  unfold mem. rewrite existsb_exists. split.
  - intros (x & Hx & E). apply cell_eqb_eq in E. now subst.
  - intros H. exists c. split; [assumption|apply cell_eqb_refl].
Qed.

(** ** The slice [[1:-1]] *)

Lemma slice_1_m1_length {A : Type} (l : list A) :
  List.length (slice_1_m1 l) = (List.length l - 2)%nat.
Proof.
  unfold slice_1_m1. rewrite length_firstn, length_skipn. lia.
Qed.

(** The slice drops the first and the last element and keeps the ones
    between them, in order. *)
Lemma slice_1_m1_middle {A : Type} (first last : A) (middle : list A) :
  slice_1_m1 (first :: middle ++ [last]) = middle.
Proof.
  unfold slice_1_m1. simpl skipn.
  replace (List.length (first :: middle ++ [last]) - 2)%nat
    with (List.length middle) by (simpl; rewrite length_app; simpl; lia).
  rewrite firstn_app, firstn_all, Nat.sub_diag. simpl. apply app_nil_r.
Qed.

(** ** Concatenation *)

Lemma flat_map_ext_in {A B : Type} (f g : A -> list B) (l : list A) :
  (forall a, In a l -> f a = g a) -> flat_map f l = flat_map g l.
Proof.
  induction l as [|a l IH]; intros H; simpl; [reflexivity|].
  rewrite (H a (or_introl eq_refl)), IH; [reflexivity|].
  intros; apply H; now right.
Qed.

Lemma align_length (old new : list cell) (rs : list (list cell)) :
  List.length (align old new rs) = List.length rs.
Proof.
  unfold align. destruct (labels_eqb old new); [reflexivity|apply length_map].
Qed.

Lemma index_of_Some (c : cell) (l : list cell) (i : nat) :
  index_of c l = Some i -> nth_error l i = Some c.
Proof.
  revert i. induction l as [|x l IH]; simpl; intros i H; [discriminate|].
  destruct (cell_eqb c x) eqn:E.
  - injection H as <-. apply cell_eqb_eq in E. now subst.
  - destruct (index_of c l) as [j|]; simpl in H; [|discriminate].
    injection H as <-. simpl. now apply IH.
Qed.

Lemma index_of_In (c : cell) (l : list cell) :
  In c l -> exists i, index_of c l = Some i.
Proof.
  induction l as [|x l IH]; simpl; intros H; [contradiction|].
  destruct (cell_eqb c x) eqn:E; [now exists 0%nat|].
  destruct H as [->|H]; [now rewrite cell_eqb_refl in E|].
  destruct (IH H) as (i & ->). now exists (S i).
Qed.

(** Reindexing keeps the cell a row has under each of its labels: it is
    found under the same label of the new columns. *)
Lemma reindex_row_cell (old new row : list cell) (c : cell) (i j : nat) :
  index_of c old = Some i -> index_of c new = Some j ->
  nth j (reindex_row old new row) NaN = nth i row NaN.
Proof.
  intros Hi Hj. unfold reindex_row.
  apply index_of_Some in Hj.
  apply nth_error_nth.
  rewrite nth_error_map, Hj. simpl. now rewrite Hi.
Qed.

Lemma unique_NoDup (l : list cell) : unique l = true <-> NoDup l.
Proof.
  induction l as [|x l IH]; simpl.
  - split; [constructor|reflexivity].
  - rewrite andb_true_iff, negb_true_iff, IH. split.
    + intros [Hx Hl]. constructor; [|assumption].
      intros Hin. apply mem_In in Hin. congruence.
    + intros H. inversion H as [|? ? Hx Hl]; subst. split; [|assumption].
      destruct (mem x l) eqn:E; [|reflexivity].
      apply mem_In in E. contradiction.
Qed.

(** The union of label lists, started from the labels [acc]. *)
Lemma union_from_spec (ls : list (list cell)) (acc : list cell) :
  let u := fold_left (fun acc l => acc ++ filter (fun c => negb (mem c acc)) l)
                     ls acc in
  (exists more, u = acc ++ more)
  /\ (forall c, In c u <-> In c acc \/ exists l, In l ls /\ In c l)
  /\ (NoDup acc -> (forall l, In l ls -> NoDup l) -> NoDup u).
Proof.
  revert acc. induction ls as [|l ls IH]; intros acc; simpl.
  - split; [exists []; now rewrite app_nil_r|]. split; [|auto].
    intros c. split; [auto|]. intros [H|(l & [] & _)]. exact H.
  - destruct (IH (acc ++ filter (fun c => negb (mem c acc)) l))
      as ((more & Hmore) & Hin & Hnd).
    split; [|split].
    + rewrite Hmore, <- app_assoc. eauto.
    + intros c. rewrite Hin, in_app_iff, filter_In. split.
      * intros [[H|[H _]]|(l' & Hl' & H)]; eauto.
      * intros [H|(l' & [<-|Hl'] & H)]; eauto.
        destruct (mem c acc) eqn:E.
        -- apply mem_In in E. auto.
        -- left. right. now split.
    + intros Hacc Hls. apply Hnd; [|intros; apply Hls; now right].
      assert (Hl : NoDup l) by (apply Hls; now left).
      clear - Hacc Hl. induction l as [|x l IHl]; simpl.
      * now rewrite app_nil_r.
      * inversion Hl as [|? ? Hx Hl']; subst.
        destruct (mem x acc) eqn:E; simpl; [now apply IHl|].
        apply NoDup_Add with (a := x) (l := acc ++ filter (fun c => negb (mem c acc)) l).
        -- apply Add_app.
        -- split; [now apply IHl|].
           rewrite in_app_iff, filter_In. intros [H|[H _]]; [|contradiction].
           apply mem_In in H. congruence.
Qed.

Lemma union_labels_spec (ls : list (list cell)) :
  (forall l, In l ls -> unique l = true) ->
  (forall c, In c (union_labels ls) <-> exists l, In l ls /\ In c l)
  /\ unique (union_labels ls) = true
  /\ (forall l rest, ls = l :: rest -> exists more, union_labels ls = l ++ more).
Proof.
  intros Hu. unfold union_labels.
  destruct (union_from_spec ls []) as (_ & Hin & Hnd). split; [|split].
  - intros c. rewrite Hin. split; [intros [[]|H]; exact H|auto].
  - apply unique_NoDup. apply Hnd; [constructor|].
    intros l Hl. now apply unique_NoDup, Hu.
  - intros l rest ->. cbn [fold_left app].
    assert (E : filter (fun c => negb (mem c [])) l = l).
    { clear. induction l as [|x l IH]; simpl; [reflexivity|now f_equal]. }
    rewrite E. destruct (union_from_spec rest l) as (Hmore & _). exact Hmore.
Qed.

Lemma union_labels_same (header : list cell) (ls : list (list cell)) :
  ls <> [] -> (forall l, In l ls -> l = header) -> union_labels ls = header.
Proof.
  intros Hne Hall. unfold union_labels.
  assert (Hstep : forall ls acc,
             (forall l, In l ls -> l = header) -> acc = header ->
             fold_left (fun acc l =>
                          acc ++ filter (fun c => negb (mem c acc)) l)
                       ls acc = header).
  { clear. induction ls as [|l ls IH]; intros acc Hall Hacc; [exact Hacc|].
    simpl. apply IH; [intros; apply Hall; now right|].
    rewrite (Hall l (or_introl eq_refl)), Hacc.
    assert (Hnone : forall l', incl l' header ->
               filter (fun c => negb (mem c header)) l' = []).
    { induction l' as [|c l' IHl]; intros Hincl; simpl; [reflexivity|].
      rewrite (proj2 (mem_In c header)) by (apply Hincl; now left).
      simpl. apply IHl. intros x Hx. apply Hincl. now right. }
    specialize (Hnone header (incl_refl header)).
    now rewrite Hnone, app_nil_r. }
  destruct ls as [|l ls]; [congruence|]. simpl.
  apply Hstep; [intros; apply Hall; now right|].
  rewrite (Hall l (or_introl eq_refl)).
  clear. induction header as [|c h IH]; simpl; [reflexivity|now f_equal].
Qed.

(** Frames of the same columns are stacked as they are. *)
Lemma concat_same_columns (objs : list DataFrame) (header : list cell) :
  objs <> [] ->
  (forall df, In df objs -> columns df = header) ->
  concat objs = Ok {| columns := header; rows := flat_map rows objs |}.
Proof.
  intros Hne Hall. unfold concat. destruct objs as [|o objs]; [congruence|].
  set (all := o :: objs) in *.
  assert (Hsame : forallb (fun df => labels_eqb (columns df) (columns o)) all
                  = true).
  { apply forallb_forall. intros df Hdf. apply labels_eqb_eq.
    rewrite (Hall df Hdf). symmetry. apply Hall. now left. }
  rewrite Hsame. now rewrite (Hall o (or_introl eq_refl)).
Qed.

(** Frames without repeated labels are moved to the union of their
    columns. *)
Lemma concat_frames (objs : list DataFrame) :
  objs <> [] ->
  (forall df, In df objs -> unique (columns df) = true) ->
  concat objs =
    Ok {| columns := union_columns objs;
          rows := flat_map (fun df => align (columns df) (union_columns objs)
                                            (rows df)) objs |}.
Proof.
  intros Hne Hu. unfold concat. destruct objs as [|o objs]; [congruence|].
  set (all := o :: objs) in *.
  destruct (forallb (fun df => labels_eqb (columns df) (columns o)) all)
    eqn:Hsame.
  - rewrite forallb_forall in Hsame.
    assert (Hcols : union_columns all = columns o).
    { unfold union_columns. apply union_labels_same; [discriminate|].
      intros l Hl. apply in_map_iff in Hl as (df & <- & Hdf).
      now apply labels_eqb_eq, Hsame. }
    rewrite Hcols. do 2 f_equal. apply flat_map_ext_in.
    intros df Hdf. unfold align. now rewrite (Hsame df Hdf).
  - assert (Huniq : forallb (fun df => unique (columns df)) all = true)
      by (apply forallb_forall; exact Hu).
    now rewrite Huniq.
Qed.

(** A frame that repeats a label is refused next to a frame of other
    columns. *)
Lemma concat_repeated_label (objs : list DataFrame) (a b c : DataFrame) :
  In a objs -> In b objs -> columns a <> columns b ->
  In c objs -> unique (columns c) = false ->
  concat objs = Raise InvalidIndexError.
Proof.
  intros Ha Hb Hab Hc Hrep. unfold concat.
  destruct objs as [|o objs]; [contradiction|].
  set (all := o :: objs) in *.
  destruct (forallb (fun df => labels_eqb (columns df) (columns o)) all)
    eqn:Hsame.
  - rewrite forallb_forall in Hsame. exfalso. apply Hab.
    apply Hsame, labels_eqb_eq in Ha. apply Hsame, labels_eqb_eq in Hb.
    congruence.
  - destruct (forallb (fun df => unique (columns df)) all) eqn:Hu;
      [|reflexivity].
    rewrite forallb_forall in Hu. rewrite (Hu c Hc) in Hrep. discriminate.
Qed.

(** ** Table Extractor *)

Lemma flat_map_map {A B C : Type} (g : A -> B) (f : B -> list C)
      (l : list A) :
  flat_map f (map g l) = flat_map (fun a => f (g a)) l.
Proof.
  induction l as [|a l IH]; simpl; [reflexivity|now rewrite IH].
Qed.

Lemma flat_map_length_sum {A B : Type} (f : A -> list B) (l : list A) :
  List.length (flat_map f l) = list_sum (map (fun a => List.length (f a)) l).
Proof.
  induction l as [|a l IH]; simpl; [reflexivity|].
  now rewrite length_app, IH.
Qed.

Lemma map_of_flat_map {A B C : Type} (g : B -> C) (f : A -> list B)
      (l : list A) :
  map g (flat_map f l) = flat_map (fun a => map g (f a)) l.
Proof.
  induction l as [|a l IH]; simpl; [reflexivity|].
  now rewrite map_app, IH.
Qed.

Lemma flat_map_filter_nonempty {A B : Type} (f : A -> list B)
      (keep : A -> bool) (l : list A) :
  (forall a, In a l -> keep a = false -> f a = []) ->
  flat_map f (filter keep l) = flat_map f l.
Proof.
  induction l as [|a l IH]; intros H; simpl; [reflexivity|].
  rewrite <- IH by (intros; apply H; [now right|assumption]).
  destruct (keep a) eqn:E; simpl; [reflexivity|].
  now rewrite (H a (or_introl eq_refl) E).
Qed.

Lemma sum_of_middles (tables : list DataFrame) :
  (forall t, In t tables -> (2 <= List.length (rows t))%nat) ->
  (list_sum (map (fun t => List.length (rows t) - 2) tables)
   + 2 * List.length tables
   = list_sum (map (fun t => List.length (rows t)) tables))%nat.
Proof.
  induction tables as [|t ts IH]; intros H; simpl; [reflexivity|].
  specialize (IH (fun t' Ht' => H t' (or_intror Ht'))).
  specialize (H t (or_introl eq_refl)). lia.
Qed.

Lemma slice_1_m1_short {A : Type} (l : list A) :
  (List.length l <= 2)%nat -> slice_1_m1 l = [].
Proof.
  intros H. unfold slice_1_m1.
  replace (List.length l - 2)%nat with 0%nat by lia. reflexivity.
Qed.

Lemma promote_header_promoted (t : DataFrame) :
  rows t <> [] -> promote_header t = Ok (promoted t).
Proof.
  intros H. unfold promote_header, promoted, iloc_0.
  destruct (rows t) as [|r rs]; [congruence|reflexivity].
Qed.

Lemma promote_header_no_rows (t : DataFrame) :
  rows t = [] -> promote_header t = Raise IndexError.
Proof. intros H. unfold promote_header, iloc_0. now rewrite H. Qed.

Lemma mapM_promote_raises (tables : list DataFrame) (t : DataFrame) :
  In t tables -> rows t = [] ->
  mapM promote_header tables = Raise IndexError.
Proof.
  intros Hin Hrows. induction tables as [|x xs IH]; [contradiction|].
  simpl. destruct (rows x) as [|r rs] eqn:E.
  - now rewrite (promote_header_no_rows x E).
  - rewrite (promote_header_promoted x) by congruence. simpl.
    destruct Hin as [->|Hin]; [congruence|].
    now rewrite (IH Hin).
Qed.

Lemma extract_tables_promoted (tables : list DataFrame) :
  (forall t, In t tables -> rows t <> []) ->
  extract_tables tables = concat (map promoted tables).
Proof.
  intros H. unfold extract_tables.
  rewrite (mapM_ok_map _ promoted)
    by (intros t Ht; now apply promote_header_promoted, H).
  reflexivity.
Qed.

(** The frame [extract_table] returns for tables that have a first row
    each, none with a repeated label. *)
Lemma extract_table_aligned
      (read_pdf : string -> result (list DataFrame))
      (file : string) (tables : list DataFrame) :
  read_pdf file = Ok tables ->
  tables <> [] ->
  (forall t, In t tables -> rows t <> []) ->
  (forall t, In t tables -> unique (hd [] (rows t)) = true) ->
  extract_table read_pdf file =
    Ok {| columns := union_columns (map promoted tables);
          rows := flat_map (fun t => align (hd [] (rows t))
                                           (union_columns (map promoted tables))
                                           (slice_1_m1 (rows t))) tables |}.
Proof.
  intros Hread Hne Hrows Huniq. unfold extract_table. rewrite Hread. simpl.
  rewrite (extract_tables_promoted tables Hrows), concat_frames.
  - now rewrite flat_map_map.
  - destruct tables; [congruence|discriminate].
  - intros df Hdf. apply in_map_iff in Hdf as (t & <- & Ht). now apply Huniq.
Qed.

(** Its columns: the labels of the first rows, each once, those of the
    first table first. *)
Lemma extract_table_columns (tables : list DataFrame) :
  (forall t, In t tables -> unique (hd [] (rows t)) = true) ->
  (forall label,
     In label (union_columns (map promoted tables))
     <-> exists t, In t tables /\ In label (hd [] (rows t)))
  /\ unique (union_columns (map promoted tables)) = true
  /\ (forall t rest, tables = t :: rest ->
        exists more,
          union_columns (map promoted tables) = hd [] (rows t) ++ more).
Proof.
  intros Huniq. unfold union_columns. rewrite map_map.
  change (map (fun x => columns (promoted x)) tables)
    with (map (fun t => hd [] (rows t)) tables).
  destruct (union_labels_spec (map (fun t => hd [] (rows t)) tables))
    as (Hin & Hu & Hfirst).
  { intros l Hl. apply in_map_iff in Hl as (t & <- & Ht). now apply Huniq. }
  split; [|split].
  - intros label. rewrite Hin. split.
    + intros (l & Hl & Hc). apply in_map_iff in Hl as (t & <- & Ht). eauto.
    + intros (t & Ht & Hc). exists (hd [] (rows t)).
      split; [|assumption].
      apply in_map_iff. exists t. now split.
  - exact Hu.
  - intros t rest ->.
    now apply (Hfirst (hd [] (rows t))
                      (map (fun t => hd [] (rows t)) rest)).
Qed.

Lemma cells_under_align (label : cell) (old new : list cell)
      (rs : list (list cell)) :
  In label new ->
  cells_under label new (align old new rs) = cells_under label old rs.
Proof.
  intros Hin. unfold align.
  destruct (labels_eqb old new) eqn:E.
  - apply labels_eqb_eq in E. now subst.
  - unfold cells_under. rewrite map_map. apply map_ext. intros r.
    destruct (index_of_In label new Hin) as (j & Hj). rewrite Hj.
    apply index_of_Some in Hj. unfold reindex_row.
    apply nth_error_nth. now rewrite nth_error_map, Hj.
Qed.

Lemma cells_under_aligned (label : cell) (cols : list cell)
      (tables : list DataFrame) :
  In label cols ->
  cells_under label cols
    (flat_map (fun t => align (hd [] (rows t)) cols (slice_1_m1 (rows t)))
              tables)
  = flat_map (fun t => cells_under label (hd [] (rows t))
                                   (slice_1_m1 (rows t))) tables.
Proof.
  intros Hin. unfold cells_under at 1. rewrite map_of_flat_map.
  apply flat_map_ext. intros t. now apply (cells_under_align label).
Qed.

(** C5 (amended). For the tables read from a file, at least one, each with
    a first row and none with a repeated label in it, [extract_table]
    returns a frame whose columns are the labels of the tables' first
    rows, each once and those of the first table first, and whose rows are
    the rows strictly between the first and the last row of each table, in
    their order within and across tables: under each label the cells are
    those the tables' middle rows hold under it (NaN where a table lacks
    the label).  Their number is the sum of the tables' row counts less
    two, a table of one row counting for none; it is (sum of the row
    counts) - 2 N when each of the N tables has two rows or more. *)
Theorem extract_table_data_rows
        (read_pdf : string -> result (list DataFrame))
        (file : string) (tables : list DataFrame) :
  read_pdf file = Ok tables ->
  tables <> [] ->
  (forall t, In t tables -> rows t <> []) ->
  (forall t, In t tables -> unique (hd [] (rows t)) = true) ->
  exists df,
    extract_table read_pdf file = Ok df
    /\ (forall label,
          In label (columns df)
          <-> exists t, In t tables /\ In label (hd [] (rows t)))
    /\ unique (columns df) = true
    /\ (forall t rest, tables = t :: rest ->
          exists more, columns df = hd [] (rows t) ++ more)
    /\ (forall label, In label (columns df) ->
          cells_under label (columns df) (rows df)
          = flat_map (fun t => cells_under label (hd [] (rows t))
                                           (slice_1_m1 (rows t))) tables)
    /\ List.length (rows df)
       = list_sum (map (fun t => (List.length (rows t) - 2)%nat) tables)
    /\ ((forall t, In t tables -> (2 <= List.length (rows t))%nat) ->
        (List.length (rows df) + 2 * List.length tables
         = list_sum (map (fun t => List.length (rows t)) tables))%nat).
Proof.
  intros Hread Hne Hrows Huniq.
  destruct (extract_table_columns tables Huniq) as (Hin & Hu & Hfirst).
  assert (Hlen :
    List.length
      (flat_map (fun t => align (hd [] (rows t))
                                (union_columns (map promoted tables))
                                (slice_1_m1 (rows t))) tables)
    = list_sum (map (fun t => (List.length (rows t) - 2)%nat) tables)).
  { rewrite flat_map_length_sum. f_equal. apply map_ext. intros t.
    now rewrite align_length, slice_1_m1_length. }
  eexists. split;
    [apply (extract_table_aligned read_pdf file tables); assumption|].
  cbn [columns rows].
  split; [exact Hin|]. split; [exact Hu|]. split; [exact Hfirst|].
  split; [intros label Hl; now apply cells_under_aligned|].
  split; [exact Hlen|].
  intros Htwo. rewrite Hlen. now apply sum_of_middles.
Qed.

(** X1. [extract_table] passes on the exception of the PDF reader, raises
    [ValueError] when the reader finds no table (there is nothing to
    concatenate) and [IndexError] when one of the tables has no row to take
    the labels from. *)
Theorem extract_table_failures
        (read_pdf : string -> result (list DataFrame)) (file : string) :
  (forall e, read_pdf file = Raise e -> extract_table read_pdf file = Raise e)
  /\ (read_pdf file = Ok [] -> extract_table read_pdf file = Raise ValueError)
  /\ (forall tables t,
        read_pdf file = Ok tables -> In t tables -> rows t = [] ->
        extract_table read_pdf file = Raise IndexError).
Proof.
  unfold extract_table. repeat split.
  - intros e H. now rewrite H.
  - intros H. now rewrite H.
  - intros tables t H Hin Hrows. rewrite H. simpl. unfold extract_tables.
    now rewrite (mapM_promote_raises tables t Hin Hrows).
Qed.

(** X2. A table of one or two rows adds its labels to the columns and no
    row: for tables that have a first row each, none with a repeated
    label, every label of every table, short or not, is a column of the
    frame [extract_table] returns; the number of its rows is the sum over
    the tables of (row count - 2), cut at zero; and under each label the
    cells are those of the tables of more than two rows. *)
Theorem extract_table_short_tables
        (read_pdf : string -> result (list DataFrame))
        (file : string) (tables : list DataFrame) :
  read_pdf file = Ok tables ->
  tables <> [] ->
  (forall t, In t tables -> rows t <> []) ->
  (forall t, In t tables -> unique (hd [] (rows t)) = true) ->
  exists df,
    extract_table read_pdf file = Ok df
    /\ (forall t label,
          In t tables -> In label (hd [] (rows t)) -> In label (columns df))
    /\ List.length (rows df)
       = list_sum (map (fun t => (List.length (rows t) - 2)%nat) tables)
    /\ (forall label, In label (columns df) ->
          cells_under label (columns df) (rows df)
          = flat_map (fun t => cells_under label (hd [] (rows t))
                                           (slice_1_m1 (rows t)))
                     (filter (fun t => (2 <? List.length (rows t))%nat)
                             tables)).
Proof.
  intros Hread Hne Hrows Huniq.
  destruct (extract_table_columns tables Huniq) as (Hin & _ & _).
  eexists. split;
    [apply (extract_table_aligned read_pdf file tables); assumption|].
  cbn [columns rows]. split; [|split].
  - intros t label Ht Hl. apply Hin. eauto.
  - rewrite flat_map_length_sum. f_equal. apply map_ext. intros t.
    now rewrite align_length, slice_1_m1_length.
  - intros label Hl. rewrite (cells_under_aligned label _ tables Hl).
    symmetry. apply flat_map_filter_nonempty. intros t _ Hshort.
    apply Nat.ltb_ge in Hshort. now rewrite (slice_1_m1_short _ Hshort).
Qed.

(** X3. Concatenation keeps the columns: under every label of the frame
    [extract_table] returns, the cells are those the tables' data rows hold
    under that label, table after table in order, with NaN for the rows of
    a table whose header lacks the label. *)
Theorem extract_table_keeps_columns
        (read_pdf : string -> result (list DataFrame))
        (file : string) (tables : list DataFrame) :
  read_pdf file = Ok tables ->
  tables <> [] ->
  (forall t, In t tables -> rows t <> []) ->
  (forall t, In t tables -> unique (hd [] (rows t)) = true) ->
  exists df,
    extract_table read_pdf file = Ok df
    /\ forall label, In label (columns df) ->
         cells_under label (columns df) (rows df)
         = flat_map (fun t => cells_under label (hd [] (rows t))
                                          (slice_1_m1 (rows t))) tables.
Proof.
  intros Hread Hne Hrows Huniq.
  eexists.
  split; [apply (extract_table_aligned read_pdf file tables); assumption|].
  cbn [columns rows]. intros label Hin. now apply cells_under_aligned.
Qed.

(** X4. Tables that all begin with the same header row need no alignment,
    whether or not labels repeat in it: [extract_table] returns the frame
    of that header whose rows are the tables' rows between the first and
    the last, table after table. *)
Theorem extract_table_same_header
        (read_pdf : string -> result (list DataFrame))
        (file : string) (tables : list DataFrame) (header : list cell) :
  read_pdf file = Ok tables ->
  tables <> [] ->
  (forall t, In t tables -> exists rest, rows t = header :: rest) ->
  extract_table read_pdf file =
    Ok {| columns := header;
          rows := flat_map (fun t => slice_1_m1 (rows t)) tables |}.
Proof.
  intros Hread Hne Hhead.
  assert (Hrows : forall t, In t tables -> rows t <> []).
  { intros t Ht. destruct (Hhead t Ht) as (rest & ->). discriminate. }
  unfold extract_table. rewrite Hread. simpl.
  rewrite (extract_tables_promoted tables Hrows).
  rewrite (concat_same_columns (map promoted tables) header).
  - now rewrite flat_map_map.
  - destruct tables; [congruence|discriminate].
  - intros df Hdf. apply in_map_iff in Hdf as (t & <- & Ht).
    destruct (Hhead t Ht) as (rest & E). simpl. now rewrite E.
Qed.

(** ** Preprocessor *)

Lemma forallb_map_ext {A B : Type} (p : B -> bool) (q : A -> bool)
      (g : A -> B) (l : list A) :
  (forall a, p (g a) = q a) -> forallb p (map g l) = forallb q l.
Proof.
  intros H. induction l as [|a l IH]; simpl; [reflexivity|].
  now rewrite H, IH.
Qed.

Lemma filter_map_swap {A B : Type} (p : B -> bool) (g : A -> B) (l : list A) :
  filter p (map g l) = map g (filter (fun a => p (g a)) l).
Proof.
  induction l as [|a l IH]; simpl; [reflexivity|].
  destruct (p (g a)); simpl; now rewrite IH.
Qed.

Lemma lookup_In (k v : string) (d : list (string * string)) :
  lookup k d = Some v -> In (k, v) d.
Proof.
  induction d as [|[k' v'] d IH]; simpl; [discriminate|].
  destruct (String.eqb k k') eqn:E.
  - intros [= <-]. apply String.eqb_eq in E. subst. now left.
  - intros H. right. now apply IH.
Qed.

(** No value of the alias table is one of its keys. *)
Lemma rep_values_are_no_keys (k v : string) :
  In (k, v) rep -> lookup v rep = None.
Proof.
  intros H. unfold rep in H. simpl in H.
  repeat (destruct H as [H|H]; [injection H as <- <-; reflexivity|]).
  contradiction.
Qed.

Lemma replace_string_rep_idempotent (s : string) :
  replace_string rep (replace_string rep s) = replace_string rep s.
Proof.
  unfold replace_string at 2 3.
  destruct (lookup s rep) as [v|] eqn:E.
  - unfold replace_string.
    now rewrite (rep_values_are_no_keys s v (lookup_In s v rep E)).
  - unfold replace_string. now rewrite E.
Qed.

Lemma boundary_name_not_constitution_hills
      {Geometry : Type} (f : Feature Geometry) :
  boundary_name f <> "Constitution Hills".
Proof.
  unfold boundary_name, replace_string, qc_rep, lookup.
  destruct (String.eqb (NAME_3 f) "Constitution Hills") eqn:E.
  - discriminate.
  - now apply String.eqb_neq in E.
Qed.

Section PreprocessorFacts.

Variable Geometry : Type.
Variable Point : Type.
Variable floatify : string -> option (option Z).
Variable read_file : string -> result (list (Feature Geometry)).
Variable representative_point : Geometry -> list Point.

Lemma to_numeric_raises (c : cell) (e : exn) :
  to_numeric floatify c = Raise e -> e = ValueError.
Proof.
  destruct c as [s| |]; simpl; try discriminate.
  destruct (floatify s) as [[z|]|]; try discriminate. now intros [= <-].
Qed.

Lemma coerced_number (c : cell) :
  is_ok (to_numeric floatify c) = true ->
  exists z, coerced floatify c = Num z.
Proof.
  unfold coerced. destruct c as [s| |]; simpl.
  - destruct (floatify s) as [[z|]|]; simpl; try discriminate; eauto.
  - eauto.
  - eauto.
Qed.

Lemma to_numeric_column_spec (f : count_column) (covid_data : list CaseRow) :
  to_numeric_column floatify f covid_data =
    if forallb (fun r => is_ok (to_numeric floatify (get_count f r)))
               covid_data
    then Ok (map (fun r =>
                    set_count f
                      match to_numeric floatify (get_count f r) with
                      | Ok v => v
                      | Raise _ => get_count f r
                      end r) covid_data)
    else Raise ValueError.
Proof.
  unfold to_numeric_column.
  induction covid_data as [|r rs IH]; simpl; [reflexivity|].
  destruct (to_numeric floatify (get_count f r)) as [v|e] eqn:E; simpl.
  - rewrite IH. now destruct (forallb _ rs).
  - now rewrite (to_numeric_raises _ _ E).
Qed.

Lemma coerce_column_spec (f : count_column) (covid_data : list CaseRow) :
  coerce_column floatify covid_data f =
    if forallb (fun r => is_ok (to_numeric floatify (get_count f r)))
               covid_data
    then Ok (map (fun r => set_count f (coerced floatify (get_count f r)) r)
                 covid_data)
    else Raise ValueError.
Proof.
  unfold coerce_column. rewrite to_numeric_column_spec.
  destruct (forallb _ covid_data); simpl; [|reflexivity].
  unfold fillna_column. rewrite map_map. f_equal. apply map_ext.
  intros r. unfold coerced.
  destruct f, r as [b a d rc t]; simpl;
    match goal with
    | |- context [to_numeric floatify ?c] =>
        destruct c as [s| |]; simpl; try reflexivity;
        destruct (floatify s) as [[z|]|]; reflexivity
    end.
Qed.

(** The cells of the count columns after the loop over [features]. *)
Lemma coerce_columns_spec (covid_data : list CaseRow) :
  foldM (coerce_column floatify) features covid_data =
    if forallb (counts_parse floatify) covid_data
    then Ok (map (fun r =>
                    {| Barangay := Barangay r;
                       Active := coerced floatify (Active r);
                       Died := coerced floatify (Died r);
                       Recovered := coerced floatify (Recovered r);
                       Total := coerced floatify (Total r) |}) covid_data)
    else Raise ValueError.
Proof.
  assert (Hall : forallb (counts_parse floatify) covid_data =
                 forallb (fun r => is_ok (to_numeric floatify (Active r)))
                         covid_data
                 && (forallb (fun r => is_ok (to_numeric floatify (Died r)))
                             covid_data
                 && (forallb (fun r => is_ok (to_numeric floatify
                                                         (Recovered r)))
                             covid_data
                 && forallb (fun r => is_ok (to_numeric floatify (Total r)))
                            covid_data))).
  { induction covid_data as [|r rs IH]; simpl; [reflexivity|].
    rewrite IH. unfold counts_parse. simpl.
    destruct (is_ok (to_numeric floatify (Active r))),
             (is_ok (to_numeric floatify (Died r))),
             (is_ok (to_numeric floatify (Recovered r))),
             (is_ok (to_numeric floatify (Total r))); simpl;
      rewrite ?andb_true_r, ?andb_false_r; reflexivity. }
  rewrite Hall. unfold features, foldM.
  rewrite coerce_column_spec. simpl get_count.
  destruct (forallb (fun r => is_ok (to_numeric floatify (Active r)))
                    covid_data); simpl; [|reflexivity].
  rewrite coerce_column_spec.
  rewrite (forallb_map_ext _
             (fun r => is_ok (to_numeric floatify (Died r))))
    by (intros []; reflexivity).
  destruct (forallb (fun r => is_ok (to_numeric floatify (Died r)))
                    covid_data); simpl; [|reflexivity].
  rewrite coerce_column_spec, !map_map.
  rewrite (forallb_map_ext _
             (fun r => is_ok (to_numeric floatify (Recovered r))))
    by (intros []; reflexivity).
  destruct (forallb (fun r => is_ok (to_numeric floatify (Recovered r)))
                    covid_data); simpl; [|reflexivity].
  rewrite coerce_column_spec, !map_map.
  rewrite (forallb_map_ext _
             (fun r => is_ok (to_numeric floatify (Total r))))
    by (intros []; reflexivity).
  destruct (forallb (fun r => is_ok (to_numeric floatify (Total r)))
                    covid_data); simpl; [|reflexivity].
  reflexivity.
Qed.

Lemma counts_parse_replace (d : list (string * string)) (r : CaseRow) :
  counts_parse floatify (replace_Barangay d r) = counts_parse floatify r.
Proof. destruct r. reflexivity. Qed.

(** [preprocess], statement by statement: the count columns are converted
    first, so a cell that is no number ends the call before the boundary
    file is read. *)
Lemma preprocess_unfold (covid_data : list CaseRow) (location : string) :
  preprocess floatify read_file representative_point covid_data location =
    if forallb (counts_parse floatify) covid_data
    then map_df <- read_file location ;;
         qc_df <- qc_rows representative_point
                       (filter in_quezon_city map_df) ;;
         Ok (merge_left qc_df (map (clean floatify) covid_data))
    else Raise ValueError.
Proof.
  unfold preprocess. rewrite coerce_columns_spec.
  rewrite (forallb_map_ext _ (counts_parse floatify))
    by (intros r; apply counts_parse_replace).
  destruct (forallb (counts_parse floatify) covid_data); [|reflexivity].
  simpl. rewrite map_map. reflexivity.
Qed.

(** *** The boundary rows *)

Lemma mapM_length {A B : Type} (f : A -> result B) (l : list A)
      (bs : list B) :
  mapM f l = Ok bs -> List.length bs = List.length l.
Proof.
  intros H. apply mapM_ok_inv in H.
  induction H; simpl; [reflexivity|now f_equal].
Qed.

Lemma map_fst_combine {A B : Type} (l : list A) (l' : list B) :
  List.length l' = List.length l -> map fst (combine l l') = l.
Proof.
  revert l'. induction l as [|a l IH]; intros [|b l'] H; simpl in *;
    try reflexivity; try discriminate.
  f_equal. apply IH. now injection H.
Qed.

Lemma qc_rows_inv (fs : list (Feature Geometry))
      (qs : list (QcRow Geometry Point)) :
  qc_rows representative_point fs = Ok qs ->
  map boundary qs = fs
  /\ forall q, In q qs -> qc_Barangay q = boundary_name (boundary q).
Proof.
  unfold qc_rows. intros H.
  destruct (mapM (point_coords representative_point) fs) as [cls|e] eqn:E1;
    simpl in H; [|discriminate].
  destruct (mapM first_coords cls) as [ps|e] eqn:E2; simpl in H;
    [|discriminate].
  injection H as <-. apply mapM_length in E1, E2. split.
  - rewrite map_map. simpl.
    apply (map_fst_combine fs ps). congruence.
  - intros q Hq. apply in_map_iff in Hq as (fp & <- & _). reflexivity.
Qed.

Lemma first_coords_ok (cls : list (list Point)) :
  (forall c, In c cls -> c <> []) -> exists ps, mapM first_coords cls = Ok ps.
Proof.
  induction cls as [|c cls IH]; intros H; simpl; [now exists []|].
  destruct IH as (ps & ->); [intros; apply H; now right|].
  specialize (H c (or_introl eq_refl)).
  destruct c as [|p c]; [congruence|]. simpl. eauto.
Qed.

Lemma has_point_spec (f : Feature Geometry) :
  has_point representative_point f = true
  <-> exists c, point_coords representative_point f = Ok c /\ c <> [].
Proof.
  unfold has_point, point_coords. destruct (geometry f) as [g|].
  - destruct (representative_point g) as [|p ps] eqn:E; split.
    + discriminate.
    + intros (c & [= <-] & Hc). congruence.
    + intros _. eexists. split; [reflexivity|discriminate].
    + reflexivity.
  - split; [discriminate|]. intros (c & H & _). discriminate.
Qed.

Lemma qc_rows_ok (fs : list (Feature Geometry)) :
  (forall f, In f fs -> has_point representative_point f = true) ->
  exists qs, qc_rows representative_point fs = Ok qs.
Proof.
  intros H. unfold qc_rows.
  assert (Hc : exists cls,
             mapM (point_coords representative_point) fs = Ok cls
             /\ forall c, In c cls -> c <> []).
  { induction fs as [|f fs IH]; simpl.
    - exists []. split; [reflexivity|intros c []].
    - destruct IH as (cls & -> & Hcls); [intros; apply H; now right|].
      destruct (proj1 (has_point_spec f) (H f (or_introl eq_refl)))
        as (c & -> & Hne).
      simpl. exists (c :: cls). split; [reflexivity|].
      intros c' [<-|Hc']; [assumption|now apply Hcls]. }
  destruct Hc as (cls & -> & Hcls). simpl.
  destruct (first_coords_ok cls Hcls) as (ps & ->). simpl. eauto.
Qed.

(** The coordinate lists of all rows are taken before the first
    coordinates of any: a missing geometry is met first. *)
Lemma qc_rows_no_geometry (fs : list (Feature Geometry))
      (f : Feature Geometry) :
  In f fs -> geometry f = None ->
  qc_rows representative_point fs = Raise AttributeError.
Proof.
  intros Hin Hnone. unfold qc_rows.
  assert (E : mapM (point_coords representative_point) fs
              = Raise AttributeError).
  { induction fs as [|x xs IH]; [contradiction|]. simpl.
    unfold point_coords at 1. destruct (geometry x) as [g|] eqn:G;
      [|reflexivity].
    simpl. destruct Hin as [->|Hin]; [congruence|].
    now rewrite (IH Hin). }
  now rewrite E.
Qed.

Lemma qc_rows_no_point (fs : list (Feature Geometry))
      (f : Feature Geometry) :
  (forall f', In f' fs -> geometry f' <> None) ->
  In f fs -> has_point representative_point f = false ->
  qc_rows representative_point fs = Raise IndexError.
Proof.
  intros Hgeo Hin Hnone. unfold qc_rows.
  assert (Hc : exists cls,
             mapM (point_coords representative_point) fs = Ok cls
             /\ In [] cls).
  { induction fs as [|x xs IH]; [contradiction|]. simpl.
    pose proof (Hgeo x (or_introl eq_refl)) as Hx.
    unfold point_coords at 1. destruct (geometry x) as [g|] eqn:G;
      [|congruence].
    simpl. destruct Hin as [->|Hin].
    - unfold has_point in Hnone. rewrite G in Hnone.
      destruct (representative_point g) as [|p ps] eqn:R; [|discriminate].
      destruct (mapM (point_coords representative_point) xs) as [cls|e] eqn:E.
      + simpl. exists ([] :: cls). split; [reflexivity|now left].
      + exfalso. apply mapM_raise in E as (y & Hy & Ey).
        unfold point_coords in Ey.
        pose proof (Hgeo y (or_intror Hy)) as Gy.
        destruct (geometry y); [discriminate|congruence].
    - destruct IH as (cls & -> & Hcls);
        [intros; apply Hgeo; now right|assumption|].
      simpl. exists (representative_point g :: cls).
      split; [reflexivity|now right]. }
  destruct Hc as (cls & -> & Hcls). simpl.
  assert (E : mapM first_coords cls = Raise IndexError).
  { clear - Hcls. induction cls as [|c cls IH]; [contradiction|]. simpl.
    destruct c as [|p c]; [reflexivity|]. simpl.
    destruct Hcls as [Hc|Hc]; [discriminate|]. now rewrite (IH Hc). }
  now rewrite E.
Qed.

Lemma qc_rows_points (fs : list (Feature Geometry))
      (qs : list (QcRow Geometry Point)) :
  qc_rows representative_point fs = Ok qs ->
  forall f, In f fs -> has_point representative_point f = true.
Proof.
  intros H f Hin.
  destruct (has_point representative_point f) eqn:E; [reflexivity|].
  exfalso.
  destruct (geometry f) as [g|] eqn:G.
  - assert (Hall : (forall f', In f' fs -> geometry f' <> None)
                   \/ exists f', In f' fs /\ geometry f' = None).
    { clear. induction fs as [|x xs [IH|(y & Hy & Gy)]].
      - left. intros f' [].
      - destruct (geometry x) as [g|] eqn:G.
        + left. intros f' [<-|Hf']; [congruence|now apply IH].
        + right. exists x. split; [now left|assumption].
      - right. exists y. split; [now right|assumption]. }
    destruct Hall as [Hall|(y & Hy & Gy)].
    + now rewrite (qc_rows_no_point fs f Hall Hin E) in H.
    + now rewrite (qc_rows_no_geometry fs y Hy Gy) in H.
  - now rewrite (qc_rows_no_geometry fs f Hin G) in H.
Qed.

(** *** The left join *)

Lemma merge_left_length (qs : list (QcRow Geometry Point))
      (cs : list CaseRow) :
  List.length (merge_left qs cs) =
    list_sum (map (fun q =>
                     Nat.max 1 (List.length
                                  (filter (key_match (qc_Barangay q)) cs)))
                  qs).
Proof.
  unfold merge_left. rewrite flat_map_length_sum. f_equal.
  apply map_ext. intros q.
  destruct (filter (key_match (qc_Barangay q)) cs) as [|m ms];
    [reflexivity|].
  rewrite length_map. simpl. reflexivity.
Qed.

Lemma merge_left_In (j : JoinedRow Geometry Point)
      (qs : list (QcRow Geometry Point)) (cs : list CaseRow) :
  In j (merge_left qs cs) <->
  exists q, In q qs
    /\ ((filter (key_match (qc_Barangay q)) cs = [] /\ j = unmatched q)
        \/ (exists r, In r cs /\ key_match (qc_Barangay q) r = true
                      /\ j = matched q r)).
Proof.
  unfold merge_left. rewrite in_flat_map. split.
  - intros (q & Hq & Hj). exists q. split; [assumption|].
    destruct (filter (key_match (qc_Barangay q)) cs) as [|m ms] eqn:E.
    + left. destruct Hj as [<-|[]]. now split.
    + right. apply in_map_iff in Hj as (r & <- & Hr).
      rewrite <- E in Hr. apply filter_In in Hr as [Hr Hk]. eauto.
  - intros (q & Hq & [[E ->]|(r & Hr & Hk & ->)]); exists q;
      (split; [assumption|]).
    + rewrite E. now left.
    + assert (Hin : In r (filter (key_match (qc_Barangay q)) cs))
        by (apply filter_In; now split).
      destruct (filter (key_match (qc_Barangay q)) cs) as [|m ms];
        [contradiction|].
      now apply in_map.
Qed.

(** The records joined to a boundary name are the cleaned reports of that
    name. *)
Lemma matches_of_clean (name : string) (covid_data : list CaseRow) :
  filter (key_match name) (map (clean floatify) covid_data) =
    map (clean floatify) (reports_of name covid_data).
Proof. unfold reports_of. now rewrite filter_map_swap. Qed.

Lemma preprocess_ok_inv (covid_data : list CaseRow) (location : string)
      (df : list (JoinedRow Geometry Point)) :
  preprocess floatify read_file representative_point covid_data location
    = Ok df ->
  forallb (counts_parse floatify) covid_data = true
  /\ exists map_df qs,
       read_file location = Ok map_df
       /\ qc_rows representative_point
               (filter in_quezon_city map_df) = Ok qs
       /\ df = merge_left qs (map (clean floatify) covid_data).
Proof.
  rewrite preprocess_unfold.
  destruct (forallb (counts_parse floatify) covid_data); [|discriminate].
  destruct (read_file location) as [map_df|e]; simpl; [|discriminate].
  destruct (qc_rows representative_point
                 (filter in_quezon_city map_df)) as [qs|e] eqn:E; simpl;
    [|discriminate].
  intros [= <-]. split; [reflexivity|]. exists map_df, qs. auto.
Qed.

Lemma preprocess_ok (covid_data : list CaseRow) (location : string)
      (map_df : list (Feature Geometry)) :
  forallb (counts_parse floatify) covid_data = true ->
  read_file location = Ok map_df ->
  (forall f, In f map_df -> in_quezon_city f = true ->
             has_point representative_point f = true) ->
  exists qs,
    qc_rows representative_point (filter in_quezon_city map_df)
      = Ok qs
    /\ preprocess floatify read_file representative_point covid_data
                  location
       = Ok (merge_left qs (map (clean floatify) covid_data)).
Proof.
  intros Hp Hr Hpt. rewrite preprocess_unfold, Hp, Hr. simpl.
  destruct (qc_rows_ok (filter in_quezon_city map_df)) as (qs & Hqs).
  { intros f Hf. apply filter_In in Hf as [Hf Hq]. now apply Hpt. }
  exists qs. rewrite Hqs. now split.
Qed.

(** A joined row belongs to a boundary row of the filtered set. *)
Lemma joined_row_boundary (map_df : list (Feature Geometry))
      (qs : list (QcRow Geometry Point)) (cs : list CaseRow)
      (j : JoinedRow Geometry Point) :
  qc_rows representative_point (filter in_quezon_city map_df)
    = Ok qs ->
  In j (merge_left qs cs) ->
  In (boundary (qc j)) map_df
  /\ in_quezon_city (boundary (qc j)) = true
  /\ joined_name j = boundary_name (boundary (qc j)).
Proof.
  intros Hqs Hj. apply qc_rows_inv in Hqs as [Hb Hn].
  apply merge_left_In in Hj as (q & Hq & Hcase).
  assert (Hqc : qc j = q)
    by (destruct Hcase as [[_ ->]|(r & _ & _ & ->)]; reflexivity).
  unfold joined_name. rewrite Hqc.
  assert (Hf : In (boundary q) (filter in_quezon_city map_df))
    by (rewrite <- Hb; now apply in_map).
  apply filter_In in Hf as [Hf Hin]. auto.
Qed.

Lemma sum_of_ones {A : Type} (g : A -> nat) (l : list A) :
  (forall a, In a l -> g a = 1%nat) ->
  list_sum (map g l) = List.length l.
Proof.
  induction l as [|a l IH]; intros H; simpl; [reflexivity|].
  rewrite (H a (or_introl eq_refl)), IH; [reflexivity|].
  intros; apply H; now right.
Qed.

Lemma sum_with_filter {A : Type} (p : A -> bool) (g h : A -> nat)
      (l : list A) :
  (forall a, In a l -> g a = (h a + if p a then 1 else 0)%nat) ->
  list_sum (map g l) = (list_sum (map h l) + List.length (filter p l))%nat.
Proof.
  induction l as [|a l IH]; intros H; simpl; [reflexivity|].
  rewrite (H a (or_introl eq_refl)), IH by (intros; apply H; now right).
  destruct (p a); simpl; lia.
Qed.

Lemma reports_of_insert (name : string) (before after : list CaseRow)
      (r : CaseRow) :
  List.length (reports_of name (before ++ r :: after))
  = (List.length (reports_of name (before ++ after))
     + if cell_eqb (Str name) (normalized_name r) then 1 else 0)%nat.
Proof.
  unfold reports_of. rewrite !filter_app, !length_app. cbn [filter].
  destruct (cell_eqb (Str name) (normalized_name r)); cbn [List.length]; lia.
Qed.

(** The number of rows of the frame [preprocess] returns. *)
Lemma preprocess_length (covid_data : list CaseRow) (location : string)
      (map_df : list (Feature Geometry))
      (df : list (JoinedRow Geometry Point)) :
  read_file location = Ok map_df ->
  preprocess floatify read_file representative_point covid_data location
    = Ok df ->
  List.length df =
    list_sum
      (map (fun f =>
              Nat.max 1 (List.length
                           (reports_of (boundary_name f) covid_data)))
           (filter in_quezon_city map_df)).
Proof.
  intros Hr Hpre.
  apply preprocess_ok_inv in Hpre as (_ & map_df' & qs & Hr' & Hqs & ->).
  rewrite Hr in Hr'. injection Hr' as <-.
  destruct (qc_rows_inv _ _ Hqs) as [Hb Hn].
  rewrite merge_left_length, <- Hb, map_map. f_equal.
  apply map_ext_in. intros q Hq.
  now rewrite matches_of_clean, length_map, (Hn q Hq).
Qed.

(** *** Row count *)

(** C1 (amended). When the count cells convert, the boundary file loads and
    the filtered features have a point, [preprocess] returns one row per
    filtered boundary feature that has at most one report, and as many
    rows as reports for a feature reported several times.  So the row
    count is the number of filtered boundary features whenever none is
    reported twice, whatever subdivisions the report misses or adds; and
    one more report of a name already reported adds one row for every
    filtered feature that bears the name. *)
Theorem preprocess_row_count (covid_data : list CaseRow) (location : string)
        (map_df : list (Feature Geometry)) :
  forallb (counts_parse floatify) covid_data = true ->
  read_file location = Ok map_df ->
  (forall f, In f map_df -> in_quezon_city f = true ->
             has_point representative_point f = true) ->
  exists df,
    preprocess floatify read_file representative_point covid_data location
      = Ok df
    /\ List.length df =
         list_sum
           (map (fun f =>
                   Nat.max 1 (List.length
                                (reports_of (boundary_name f) covid_data)))
                (filter in_quezon_city map_df))
    /\ ((forall f, In f map_df -> in_quezon_city f = true ->
           (List.length (reports_of (boundary_name f) covid_data) <= 1)%nat)
        -> List.length df = List.length (filter in_quezon_city map_df))
    /\ (forall before r after name df',
          covid_data = before ++ r :: after ->
          normalized_name r = Str name ->
          reports_of name (before ++ after) <> [] ->
          preprocess floatify read_file representative_point
                     (before ++ after) location = Ok df' ->
          List.length df
          = (List.length df'
             + List.length
                 (filter (fun f => String.eqb (boundary_name f) name)
                         (filter in_quezon_city map_df)))%nat).
Proof.
  intros Hp Hr Hpt.
  destruct (preprocess_ok covid_data location map_df Hp Hr Hpt)
    as (qs & Hqs & Hpre).
  exists (merge_left qs (map (clean floatify) covid_data)).
  split; [exact Hpre|].
  pose proof (preprocess_length _ _ _ _ Hr Hpre) as Hlen.
  split; [exact Hlen|]. split.
  - intros Hone. rewrite Hlen. apply sum_of_ones.
    intros f Hf. apply filter_In in Hf as [Hf Hin].
    specialize (Hone f Hf Hin). lia.
  - intros before r after name df' -> Hname Hsome Hpre'.
    rewrite Hlen, (preprocess_length _ _ _ _ Hr Hpre').
    apply sum_with_filter. intros f _.
    rewrite reports_of_insert, Hname. simpl cell_eqb.
    destruct (String.eqb (boundary_name f) name) eqn:E; [|lia].
    apply String.eqb_eq in E. subst name.
    destruct (reports_of (boundary_name f) (before ++ after));
      [congruence|simpl; lia].
Qed.

(** *** Subdivisions without a report *)


(** *** Reports of unknown subdivisions *)

(** C4. A case record whose normalized name is the name of no filtered
    boundary subdivision leaves no trace: [preprocess] returns (or raises)
    exactly what it does on the report without that record, and no row of
    the frame it returns bears the record's name. *)
Theorem unmatched_report_dropped (before after : list CaseRow)
        (r : CaseRow) (location : string)
        (map_df : list (Feature Geometry)) :
  read_file location = Ok map_df ->
  counts_parse floatify r = true ->
  (forall f, In f map_df -> in_quezon_city f = true ->
             normalized_name r <> Str (boundary_name f)) ->
  preprocess floatify read_file representative_point
             (before ++ r :: after) location
  = preprocess floatify read_file representative_point
               (before ++ after) location
  /\ forall df,
       preprocess floatify read_file representative_point
                  (before ++ r :: after) location = Ok df ->
       forall j, In j df -> Str (joined_name j) <> normalized_name r.
Proof.
  intros Hr Hp Hno.
  assert (Hkey : forall qs q,
             qc_rows representative_point
                  (filter in_quezon_city map_df) = Ok qs ->
             In q qs -> key_match (qc_Barangay q) (clean floatify r) = false).
  { intros qs q Hqs Hq. destruct (qc_rows_inv _ _ Hqs) as [Hb Hn].
    assert (Hf : In (boundary q) (filter in_quezon_city map_df))
      by (rewrite <- Hb; now apply in_map).
    apply filter_In in Hf as [Hf Hin].
    change (cell_eqb (Str (qc_Barangay q)) (normalized_name r) = false).
    destruct (cell_eqb (Str (qc_Barangay q)) (normalized_name r)) eqn:E;
      [|reflexivity].
    apply cell_eqb_eq in E. rewrite (Hn q Hq) in E.
    exfalso. now apply (Hno (boundary q) Hf Hin). }
  split.
  - rewrite !preprocess_unfold, !forallb_app. simpl. rewrite Hp. simpl.
    destruct (forallb (counts_parse floatify) before
              && forallb (counts_parse floatify) after); [|reflexivity].
    rewrite Hr. simpl.
    destruct (qc_rows representative_point
                   (filter in_quezon_city map_df)) as [qs|e] eqn:Hqs;
      simpl; [|reflexivity].
    f_equal. unfold merge_left. apply flat_map_ext_in. intros q Hq.
    rewrite !map_app, !filter_app. simpl.
    now rewrite (Hkey qs q eq_refl Hq).
  - intros df Hpre j Hj E.
    apply preprocess_ok_inv in Hpre as (_ & map_df' & qs & Hr' & Hqs & ->).
    rewrite Hr in Hr'. injection Hr' as <-.
    destruct (joined_row_boundary _ _ _ _ Hqs Hj) as (Hf & Hin & Hname).
    rewrite Hname in E. symmetry in E. now apply (Hno _ Hf Hin).
Qed.

(** *** A boundary file without the city *)

(** C6 (amended). When no feature of the boundary file passes the filter on
    region and city, [preprocess] returns the empty frame: nothing in it
    checks the number of filtered rows, and an exception is raised only
    for a count cell that is no number. *)
Theorem empty_filter_gives_empty_frame (covid_data : list CaseRow)
        (location : string) (map_df : list (Feature Geometry)) :
  read_file location = Ok map_df ->
  filter in_quezon_city map_df = [] ->
  preprocess floatify read_file representative_point covid_data location
  = if forallb (counts_parse floatify) covid_data then Ok []
    else Raise ValueError.
Proof.
  intros Hr He. rewrite preprocess_unfold, Hr. simpl. rewrite He.
  reflexivity.
Qed.

(** *** Numeric coercion *)

Lemma in_features (f : count_column) : In f features.
Proof. destruct f; simpl; auto. Qed.

Lemma joined_count_matched (c : count_column) (q : QcRow Geometry Point)
      (r : CaseRow) :
  joined_count c (matched q (clean floatify r))
  = coerced floatify (get_count c r).
Proof. now destruct c. Qed.

(** C2 (amended). A count cell holding a string that is no number makes
    [preprocess] raise [ValueError] ([pd.to_numeric] is called with its
    default [errors='raise']); nothing is returned for any record.  In a
    frame that is returned, each row of a reported subdivision carries the
    counts of one of its reports, converted, a missing value (NaN, or a
    string read as NaN) having become zero. *)
Theorem unparsable_count_raises (covid_data : list CaseRow)
        (location : string) :
  (forall r f s,
      In r covid_data -> get_count f r = Str s -> floatify s = None ->
      preprocess floatify read_file representative_point covid_data
                 location = Raise ValueError)
  /\ (forall df,
        preprocess floatify read_file representative_point covid_data
                   location = Ok df ->
        forall j, In j df ->
          reports_of (joined_name j) covid_data <> [] ->
          exists r,
            In r covid_data
            /\ normalized_name r = Str (joined_name j)
            /\ forall c,
                 joined_count c j = coerced floatify (get_count c r)
                 /\ (to_numeric floatify (get_count c r) = Ok NaN ->
                     joined_count c j = Num 0)).
Proof.
  split.
  - intros r f s Hin Hget Hflo. rewrite preprocess_unfold.
    destruct (forallb (counts_parse floatify) covid_data) eqn:E;
      [|reflexivity].
    exfalso. rewrite forallb_forall in E. specialize (E r Hin).
    unfold counts_parse in E. rewrite forallb_forall in E.
    specialize (E f (in_features f)). rewrite Hget in E. simpl in E.
    rewrite Hflo in E. discriminate.
  - intros df Hpre j Hj Hsome.
    apply preprocess_ok_inv in Hpre as (_ & map_df & qs & _ & _ & ->).
    apply merge_left_In in Hj as (q & Hq & [[E ->]|(r' & Hr' & Hk & ->)]).
    + exfalso. apply Hsome. unfold joined_name. simpl.
      rewrite matches_of_clean in E.
      destruct (reports_of (qc_Barangay q) covid_data); [reflexivity|].
      discriminate.
    + apply in_map_iff in Hr' as (r & <- & Hr).
      exists r. split; [assumption|]. split.
      * change (cell_eqb (Str (qc_Barangay q)) (normalized_name r) = true)
          in Hk.
        apply cell_eqb_eq in Hk. now symmetry.
      * intros c. rewrite joined_count_matched. split; [reflexivity|].
        intros Hnan. unfold coerced. now rewrite Hnan.
Qed.

(** *** Name normalization *)


(** X5. On case records and a boundary file with the columns [preprocess]
    reads, [preprocess] returns a frame exactly when every count cell
    converts to a number, the boundary file loads and every feature that
    passes the filter has a geometry with a representative point.
    Otherwise it raises, in the order of its statements: [ValueError] for
    a count cell that is no number; else the exception of the boundary
    reader; else [AttributeError] when a filtered feature has no geometry;
    else [IndexError] when the geometry of one has no point. *)
Theorem preprocess_returns_iff (covid_data : list CaseRow)
        (location : string) :
  (is_ok (preprocess floatify read_file representative_point covid_data
                     location) = true
   <-> forallb (counts_parse floatify) covid_data = true
       /\ exists map_df,
            read_file location = Ok map_df
            /\ forall f, In f map_df -> in_quezon_city f = true ->
                         has_point representative_point f = true)
  /\ (forallb (counts_parse floatify) covid_data = false ->
      preprocess floatify read_file representative_point covid_data
                 location = Raise ValueError)
  /\ (forall e,
        forallb (counts_parse floatify) covid_data = true ->
        read_file location = Raise e ->
        preprocess floatify read_file representative_point covid_data
                   location = Raise e)
  /\ (forall map_df f,
        forallb (counts_parse floatify) covid_data = true ->
        read_file location = Ok map_df ->
        In f map_df -> in_quezon_city f = true ->
        geometry f = None ->
        preprocess floatify read_file representative_point covid_data
                   location = Raise AttributeError)
  /\ (forall map_df f,
        forallb (counts_parse floatify) covid_data = true ->
        read_file location = Ok map_df ->
        (forall f', In f' map_df -> in_quezon_city f' = true ->
                    geometry f' <> None) ->
        In f map_df -> in_quezon_city f = true ->
        has_point representative_point f = false ->
        preprocess floatify read_file representative_point covid_data
                   location = Raise IndexError).
Proof.
  rewrite preprocess_unfold. repeat split.
  - destruct (forallb (counts_parse floatify) covid_data);
      [reflexivity|discriminate].
  - destruct (forallb (counts_parse floatify) covid_data); [|discriminate].
    destruct (read_file location) as [map_df|e]; [|discriminate].
    simpl in H. exists map_df. split; [reflexivity|].
    intros f Hf Hin.
    destruct (qc_rows representative_point
                      (filter in_quezon_city map_df)) as [qs|e] eqn:E;
      [|discriminate].
    apply (qc_rows_points _ _ E). apply filter_In. now split.
  - intros (Hp & map_df & Hr & Hpt). rewrite Hp, Hr. simpl.
    destruct (qc_rows_ok (filter in_quezon_city map_df)) as (qs & ->);
      [|reflexivity].
    intros f Hf. apply filter_In in Hf as [Hf Hin]. now apply Hpt.
  - intros Hp. now rewrite Hp.
  - intros e Hp Hr. now rewrite Hp, Hr.
  - intros map_df f Hp Hr Hf Hin Hnone. rewrite Hp, Hr. simpl.
    rewrite (qc_rows_no_geometry (filter in_quezon_city map_df) f);
      [reflexivity| |assumption].
    apply filter_In. now split.
  - intros map_df f Hp Hr Hgeo Hf Hin Hnone. rewrite Hp, Hr. simpl.
    rewrite (qc_rows_no_point (filter in_quezon_city map_df) f);
      [reflexivity| | |assumption].
    + intros f' Hf'. apply filter_In in Hf' as [Hf' Hin']. now apply Hgeo.
    + apply filter_In. now split.
Qed.

Lemma joined_boundaries (q : QcRow Geometry Point) (cs : list CaseRow) :
  map (fun j => boundary (qc j))
      match filter (key_match (qc_Barangay q)) cs with
      | [] => [unmatched q]
      | _ :: _ => map (matched q) (filter (key_match (qc_Barangay q)) cs)
      end
  = repeat (boundary q)
           (Nat.max 1 (List.length (filter (key_match (qc_Barangay q)) cs))).
Proof.
  destruct (filter (key_match (qc_Barangay q)) cs) as [|m ms];
    [reflexivity|].
  rewrite map_map. simpl. f_equal.
  induction ms as [|x l IH]; simpl; [reflexivity|now f_equal].
Qed.

(** X6. The rows of the frame [preprocess] returns follow the boundary
    file: they belong to the features that pass the filter, in the order
    of the file, each feature once when at most one case record bears its
    name and once per such record otherwise. *)
Theorem preprocess_rows_follow_boundary (covid_data : list CaseRow)
        (location : string) (map_df : list (Feature Geometry))
        (df : list (JoinedRow Geometry Point)) :
  read_file location = Ok map_df ->
  preprocess floatify read_file representative_point covid_data location
    = Ok df ->
  map (fun j => boundary (qc j)) df
  = flat_map (fun f =>
                repeat f (Nat.max 1 (List.length
                                       (reports_of (boundary_name f)
                                                   covid_data))))
             (filter in_quezon_city map_df).
Proof.
  intros Hr Hpre.
  apply preprocess_ok_inv in Hpre as (_ & map_df' & qs & Hr' & Hqs & ->).
  rewrite Hr in Hr'. injection Hr' as <-.
  destruct (qc_rows_inv _ _ Hqs) as [Hb Hn].
  rewrite <- Hb, flat_map_map. unfold merge_left.
  rewrite map_of_flat_map. apply flat_map_ext_in. intros q Hq.
  rewrite <- (Hn q Hq), <- (length_map (clean floatify)),
    <- matches_of_clean.
  rewrite <- joined_boundaries.
  now destruct (filter (key_match (qc_Barangay q))
                       (map (clean floatify) covid_data)).
Qed.

(** X7. In the frame [preprocess] returns a count is missing exactly in the
    rows of the subdivisions no case record names; in every other row each
    of the four counts is a number. *)
Theorem count_missing_iff_unreported (covid_data : list CaseRow)
        (location : string) (df : list (JoinedRow Geometry Point))
        (j : JoinedRow Geometry Point) (c : count_column) :
  preprocess floatify read_file representative_point covid_data location
    = Ok df ->
  In j df ->
  (joined_count c j = NaN <-> reports_of (joined_name j) covid_data = [])
  /\ (reports_of (joined_name j) covid_data <> [] ->
      exists z, joined_count c j = Num z).
Proof.
  intros Hpre Hj.
  apply preprocess_ok_inv in Hpre as (Hp & map_df & qs & _ & _ & ->).
  apply merge_left_In in Hj as (q & Hq & [[E ->]|(r' & Hr' & Hk & ->)]).
  - rewrite matches_of_clean in E.
    assert (Hnone : reports_of (qc_Barangay q) covid_data = [])
      by (destruct (reports_of (qc_Barangay q) covid_data);
          [reflexivity|discriminate]).
    unfold joined_name. simpl qc. rewrite Hnone. split.
    + split; [reflexivity|now destruct c].
    + congruence.
  - assert (Hin : In r' (filter (key_match (qc_Barangay q))
                                (map (clean floatify) covid_data)))
      by (apply filter_In; now split).
    rewrite matches_of_clean in Hin.
    apply in_map_iff in Hr' as (r & <- & Hr).
    rewrite forallb_forall in Hp. specialize (Hp r Hr).
    unfold counts_parse in Hp. rewrite forallb_forall in Hp.
    destruct (coerced_number _ (Hp c (in_features c))) as (z & Hz).
    rewrite joined_count_matched, Hz. unfold joined_name. simpl qc.
    split.
    + split; [discriminate|].
      intros Hnone. rewrite Hnone in Hin. contradiction.
    + intros _. now exists z.
Qed.

Lemma clean_replace (r : CaseRow) :
  clean floatify (replace_Barangay rep r) = clean floatify r.
Proof.
  destruct r as [b a d rc t]. unfold clean, normalized_name. simpl.
  f_equal. destruct b as [s| |]; simpl; [|reflexivity|reflexivity].
  now rewrite replace_string_rep_idempotent.
Qed.

(** X8. Normalizing the names of a report beforehand changes nothing: no
    canonical name of the alias table is itself an alias, so [preprocess]
    on a report whose names were already replaced returns (or raises) what
    it does on the report. *)
Theorem preprocess_on_normalized_report (covid_data : list CaseRow)
        (location : string) :
  preprocess floatify read_file representative_point
             (map (replace_Barangay rep) covid_data) location
  = preprocess floatify read_file representative_point covid_data location.
Proof.
  rewrite !preprocess_unfold.
  rewrite (forallb_map_ext _ (counts_parse floatify))
    by (intros r; apply counts_parse_replace).
  rewrite map_map. rewrite (map_ext _ (clean floatify) clean_replace).
  reflexivity.
Qed.

Lemma preprocess_without_record (before after : list CaseRow) (r : CaseRow)
      (location : string) :
  counts_parse floatify r = true ->
  (forall f : Feature Geometry, Str (boundary_name f) <> normalized_name r) ->
  preprocess floatify read_file representative_point
             (before ++ r :: after) location
  = preprocess floatify read_file representative_point
               (before ++ after) location.
Proof.
  intros Hp Hno. rewrite !preprocess_unfold, !forallb_app. simpl.
  rewrite Hp. simpl.
  destruct (forallb (counts_parse floatify) before
            && forallb (counts_parse floatify) after); [|reflexivity].
  destruct (read_file location) as [map_df|e]; [|reflexivity]. simpl.
  destruct (qc_rows representative_point
                 (filter in_quezon_city map_df)) as [qs|e] eqn:Hqs;
    simpl; [|reflexivity].
  destruct (qc_rows_inv _ _ Hqs) as [_ Hn].
  f_equal. unfold merge_left. apply flat_map_ext_in. intros q Hq.
  rewrite !map_app, !filter_app. simpl.
  change (key_match (qc_Barangay q) (clean floatify r))
    with (cell_eqb (Str (qc_Barangay q)) (normalized_name r)).
  destruct (cell_eqb (Str (qc_Barangay q)) (normalized_name r)) eqn:E;
    [|reflexivity].
  apply cell_eqb_eq in E. rewrite (Hn q Hq) in E. now apply Hno in E.
Qed.

(** X9. The boundary side renames Constitution Hills to Commonwealth and
    the alias table of the case records does not: no row of the frame
    [preprocess] returns is named Constitution Hills, and a case record of
    that name is dropped, the call returning (or raising) what it does
    without the record. *)
Theorem constitution_hills_report_dropped :
  (forall covid_data location df j,
      preprocess floatify read_file representative_point covid_data location
        = Ok df ->
      In j df -> joined_name j <> "Constitution Hills")
  /\ (forall before after r location,
        Barangay r = Str "Constitution Hills" ->
        counts_parse floatify r = true ->
        preprocess floatify read_file representative_point
                   (before ++ r :: after) location
        = preprocess floatify read_file representative_point
                     (before ++ after) location).
Proof.
  split.
  - intros covid_data location df j Hpre Hj.
    apply preprocess_ok_inv in Hpre as (_ & map_df & qs & _ & Hqs & ->).
    destruct (joined_row_boundary _ _ _ _ Hqs Hj) as (_ & _ & ->).
    apply boundary_name_not_constitution_hills.
  - intros before after r location Hname Hp.
    apply preprocess_without_record; [assumption|].
    intros f. unfold normalized_name. rewrite Hname. simpl.
    intros [= E]. now apply (boundary_name_not_constitution_hills f).
Qed.

(** *** [preprocess] on a frame *)

Lemma to_numeric_cells (g : list cell -> cell) (rs : list (list cell)) :
  mapM (fun row => to_numeric floatify (g row)) rs
  = if forallb (fun row => is_ok (to_numeric floatify (g row))) rs
    then Ok (map (fun row => match to_numeric floatify (g row) with
                             | Ok v => v
                             | Raise _ => NaN
                             end) rs)
    else Raise ValueError.
Proof.
  induction rs as [|row rs IH]; simpl; [reflexivity|].
  destruct (to_numeric floatify (g row)) as [v|e] eqn:E; simpl.
  - rewrite IH. now destruct (forallb _ rs).
  - now rewrite (to_numeric_raises _ _ E).
Qed.

Lemma numeric_column_spec (df : DataFrame) (f : count_column) (i : nat) :
  count_index f df = Ok i ->
  numeric_column floatify df f
  = if forallb (fun row => is_ok (to_numeric floatify (nth i row NaN)))
               (rows df)
    then Ok i else Raise ValueError.
Proof.
  intros H. unfold numeric_column. rewrite H. simpl.
  rewrite (to_numeric_cells (fun row => nth i row NaN)).
  now destruct (forallb _ (rows df)).
Qed.

Lemma counts_parse_records (b a d r t : nat) (df : DataFrame) :
  forallb (counts_parse floatify) (records_at b a d r t df)
  = forallb (fun row => is_ok (to_numeric floatify (nth a row NaN))) (rows df)
    && (forallb (fun row => is_ok (to_numeric floatify (nth d row NaN)))
                (rows df)
    && (forallb (fun row => is_ok (to_numeric floatify (nth r row NaN)))
                (rows df)
    && forallb (fun row => is_ok (to_numeric floatify (nth t row NaN)))
               (rows df))).
Proof.
  unfold records_at. induction (rows df) as [|row rs IH]; simpl;
    [reflexivity|].
  rewrite IH. unfold counts_parse. simpl.
  destruct (is_ok (to_numeric floatify (nth a row NaN))),
           (is_ok (to_numeric floatify (nth d row NaN))),
           (is_ok (to_numeric floatify (nth r row NaN))),
           (is_ok (to_numeric floatify (nth t row NaN))); simpl;
    rewrite ?andb_true_r, ?andb_false_r; reflexivity.
Qed.

(** On a frame that has each of the five columns once, [preprocess] is
    [preprocess] on its case records. *)
Lemma preprocess_frame_records (df : DataFrame) (records : list CaseRow)
      (location : string) :
  frame_records df = Ok records ->
  preprocess_frame floatify read_file representative_point df location
  = preprocess floatify read_file representative_point records location.
Proof.
  unfold frame_records. intros H.
  destruct (count_index ColActive df) as [a|e] eqn:Ea; simpl in H;
    [|discriminate].
  destruct (count_index ColDied df) as [d|e] eqn:Ed; simpl in H;
    [|discriminate].
  destruct (count_index ColRecovered df) as [r|e] eqn:Er; simpl in H;
    [|discriminate].
  destruct (count_index ColTotal df) as [t|e] eqn:Et; simpl in H;
    [|discriminate].
  destruct (key_index df) as [b|e] eqn:Eb; simpl in H; [|discriminate].
  injection H as <-.
  rewrite preprocess_unfold, counts_parse_records. unfold preprocess_frame.
  rewrite (numeric_column_spec df ColActive a Ea).
  destruct (forallb (fun row => is_ok (to_numeric floatify (nth a row NaN)))
                    (rows df)); [|reflexivity].
  cbn [bind andb]. rewrite (numeric_column_spec df ColDied d Ed).
  destruct (forallb (fun row => is_ok (to_numeric floatify (nth d row NaN)))
                    (rows df)); [|reflexivity].
  cbn [bind andb]. rewrite (numeric_column_spec df ColRecovered r Er).
  destruct (forallb (fun row => is_ok (to_numeric floatify (nth r row NaN)))
                    (rows df)); [|reflexivity].
  cbn [bind andb]. rewrite (numeric_column_spec df ColTotal t Et).
  destruct (forallb (fun row => is_ok (to_numeric floatify (nth t row NaN)))
                    (rows df)); [|reflexivity].
  cbn [bind andb]. rewrite Eb.
  destruct (read_file location) as [map_df|e]; [|reflexivity].
  cbn [bind].
  now destruct (qc_rows representative_point
                        (filter in_quezon_city map_df)).
Qed.

End PreprocessorFacts.

(** ** Dates *)

Lemma days_in_month_bounds (y m : Z) : 28 <= days_in_month y m <= 31.
Proof.
  unfold days_in_month.
  destruct (m =? 2); [destruct (is_leap y)|destruct (_ || _)]; lia.
Qed.

Lemma valid_spec (d : date) :
  valid d = true <->
  1 <= year d <= 9999 /\ 1 <= month d <= 12
  /\ 1 <= day d <= days_in_month (year d) (month d).
Proof.
  unfold valid. rewrite !andb_true_iff, !Z.leb_le. tauto.
Qed.

Lemma date_leb_spec (a b : date) :
  date_leb a b = true <->
  year a < year b
  \/ (year a = year b
      /\ (month a < month b \/ (month a = month b /\ day a <= day b))).
Proof.
  unfold date_leb.
  rewrite orb_true_iff, andb_true_iff, orb_true_iff, andb_true_iff.
  rewrite !Z.ltb_lt, !Z.eqb_eq, Z.leb_le. tauto.
Qed.

Lemma date_leb_refl (a : date) : date_leb a a = true.
Proof. apply date_leb_spec. lia. Qed.

Lemma date_leb_trans (a b c : date) :
  date_leb a b = true -> date_leb b c = true -> date_leb a c = true.
Proof. rewrite !date_leb_spec. lia. Qed.

Lemma day_number_mono (a b : date) :
  valid a = true -> valid b = true -> date_leb a b = true ->
  day_number a <= day_number b.
Proof.
  rewrite !valid_spec, date_leb_spec. unfold day_number.
  pose proof (days_in_month_bounds (year a) (month a)).
  pose proof (days_in_month_bounds (year b) (month b)). lia.
Qed.

Lemma date_eq (a b : date) :
  year a = year b -> month a = month b -> day a = day b -> a = b.
Proof. destruct a, b; simpl; intros; now subst. Qed.

(** The three ways a date has a next day (within the month, into the next
    month, into the next year), each closed by linear arithmetic. *)
Ltac by_next_day_cases H :=
  destruct H as [[? ->]|[(? & ? & ->)|(? & ? & -> & ?)]]; simpl; lia.

(** The day after a date is the least date above it. *)
Lemma add_day_next (d n : date) :
  valid d = true -> add_day d = Ok n ->
  valid n = true
  /\ day_number d < day_number n
  /\ date_leb d n = true
  /\ date_leb n d = false
  /\ forall x, valid x = true -> date_leb d x = true ->
               x = d \/ date_leb n x = true.
Proof.
  intros Hv Ha. apply valid_spec in Hv.
  pose proof (days_in_month_bounds (year d) (month d)) as Hb.
  pose proof (days_in_month_bounds (year d) (month d + 1)) as Hb1.
  pose proof (days_in_month_bounds (year d + 1) 1) as Hb2.
  assert (Hcases :
    (day d < days_in_month (year d) (month d)
     /\ n = {| year := year d; month := month d; day := day d + 1 |})
    \/ (day d = days_in_month (year d) (month d) /\ month d < 12
        /\ n = {| year := year d; month := month d + 1; day := 1 |})
    \/ (day d = days_in_month (year d) (month d) /\ month d = 12
        /\ n = {| year := year d + 1; month := 1; day := 1 |}
        /\ year d < 9999)).
  { unfold add_day in Ha.
    destruct (day d <? days_in_month (year d) (month d)) eqn:E1.
    - apply Z.ltb_lt in E1. injection Ha as <-. auto.
    - apply Z.ltb_ge in E1. destruct (month d <? 12) eqn:E2.
      + apply Z.ltb_lt in E2. injection Ha as <-. right. left.
        repeat split; lia.
      + apply Z.ltb_ge in E2. destruct (year d <? 9999) eqn:E3;
          [|discriminate].
        apply Z.ltb_lt in E3. injection Ha as <-. right. right.
        repeat split; lia. }
  assert (Hnle : date_leb n d = true -> False).
  { rewrite date_leb_spec. by_next_day_cases Hcases. }
  repeat split.
  - apply valid_spec. by_next_day_cases Hcases.
  - unfold day_number. by_next_day_cases Hcases.
  - apply date_leb_spec. by_next_day_cases Hcases.
  - destruct (date_leb n d); [now exfalso; apply Hnle|reflexivity].
  - intros x Hx Hle. apply valid_spec in Hx. apply date_leb_spec in Hle.
    destruct (Z.eq_dec (year x) (year d)) as [Ey|Ey];
      [destruct (Z.eq_dec (month x) (month d)) as [Em|Em];
       [destruct (Z.eq_dec (day x) (day d)) as [Ed|Ed]|]|].
    + left. now apply date_eq.
    + right. apply date_leb_spec. rewrite Ey, Em in Hx. by_next_day_cases Hcases.
    + right. apply date_leb_spec. by_next_day_cases Hcases.
    + right. apply date_leb_spec. by_next_day_cases Hcases.
Qed.

(** Only the last date has no next day. *)
Lemma add_day_overflow (d : date) (e : exn) :
  valid d = true -> add_day d = Raise e ->
  e = OverflowError
  /\ forall x, valid x = true -> date_leb d x = true -> x = d.
Proof.
  intros Hv Ha. apply valid_spec in Hv. unfold add_day in Ha.
  destruct (day d <? days_in_month (year d) (month d)) eqn:E1;
    [discriminate|].
  destruct (month d <? 12) eqn:E2; [discriminate|].
  destruct (year d <? 9999) eqn:E3; [discriminate|].
  apply Z.ltb_ge in E1, E2, E3. injection Ha as <-.
  split; [reflexivity|].
  intros x Hx Hle. apply valid_spec in Hx. apply date_leb_spec in Hle.
  assert (Ey : year x = year d) by lia.
  assert (Em : month x = month d) by lia.
  rewrite Ey, Em in Hx. apply date_eq; lia.
Qed.

(** ** Strings *)

Lemma append_cancel_l (s a b : string) :
  (s ++ a)%string = (s ++ b)%string -> a = b.
Proof.
  induction s as [|c s IH]; simpl; intros H; [assumption|].
  injection H as H. now apply IH.
Qed.

Lemma length_append (a b : string) :
  String.length (a ++ b) = (String.length a + String.length b)%nat.
Proof.
  induction a as [|c a IH]; simpl; [reflexivity|now rewrite IH].
Qed.

Lemma append_cancel_r (a b t : string) :
  (a ++ t)%string = (b ++ t)%string -> a = b.
Proof.
  revert b. induction a as [|c a IH]; intros [|c' b] H; simpl in H.
  - reflexivity.
  - apply (f_equal String.length) in H. simpl in H.
    rewrite length_append in H. lia.
  - apply (f_equal String.length) in H. simpl in H.
    rewrite length_append in H. lia.
  - injection H as -> H. f_equal. now apply IH.
Qed.

(** [str] of an integer determines the integer. *)
Lemma str_int_inj (a b : Z) : str_int a = str_int b -> a = b.
Proof.
  unfold str_int. intros H.
  assert (Hread : forall z,
             NilZero.int_of_string (NilZero.string_of_int (Z.to_int z))
             = Some (Z.to_int z)).
  { intros z. apply NilZero.isi; destruct z; simpl; intros [= E];
      now apply DecimalPos.Unsigned.to_uint_nonnil in E. }
  pose proof (Hread a) as Ha. rewrite H, Hread in Ha.
  injection Ha as Ha. apply (f_equal Z.of_int) in Ha.
  now rewrite !DecimalZ.of_to in Ha.
Qed.

(** ** Fetcher *)

(** The test on [str(response)] holds exactly for status 200. *)
Lemma indicates_success_200 (r : Response) :
  indicates_success r = true <-> status_code r = 200.
Proof.
  unfold indicates_success, response_str. rewrite String.eqb_eq. split.
  - intros H.
    change "<Response [200]>"
      with ("<Response [" ++ str_int 200 ++ "]>")%string in H.
    apply append_cancel_l, append_cancel_r in H. now apply str_int_inj.
  - intros ->. reflexivity.
Qed.

(** The chunks of a body, one after the other, are the body. *)
Lemma substring_all (s : string) : substring 0 (String.length s) s = s.
Proof. induction s as [|c s IH]; simpl; [reflexivity|now f_equal]. Qed.

Lemma substring_split (n : nat) (s : string) :
  (substring 0 n s ++ substring n (String.length s - n) s)%string = s.
Proof.
  revert n. induction s as [|c s IH]; intros [|n]; simpl; try reflexivity.
  - now rewrite substring_all.
  - f_equal. apply IH.
Qed.

Lemma substring_rest_length (n : nat) (s : string) :
  String.length (substring n (String.length s - n) s)
  = (String.length s - n)%nat.
Proof.
  revert n. induction s as [|c s IH]; intros [|n]; simpl; try reflexivity.
  - now rewrite substring_all.
  - apply IH.
Qed.

Lemma append_assoc (a b c : string) :
  ((a ++ b) ++ c)%string = (a ++ (b ++ c))%string.
Proof. induction a as [|x a IH]; simpl; [reflexivity|now f_equal]. Qed.

Lemma fold_append (chunks : list string) (acc : string) :
  fold_left String.append chunks acc
  = (acc ++ fold_left String.append chunks "")%string.
Proof.
  revert acc. induction chunks as [|c cs IH]; intros acc; simpl.
  - clear. induction acc as [|a acc IH]; simpl; [reflexivity|now f_equal].
  - now rewrite (IH (acc ++ c)%string), (IH c), append_assoc.
Qed.

Lemma iter_slices_whole (fuel chunk_size : nat) (body : string) :
  (0 < chunk_size)%nat -> (String.length body <= fuel)%nat ->
  fold_left String.append (iter_slices fuel chunk_size body) "" = body.
Proof.
  intros Hpos. revert body.
  induction fuel as [|fuel IH]; intros body Hlen.
  - destruct body; simpl in *; [reflexivity|lia].
  - destruct body as [|c body]; [reflexivity|].
    cbn [iter_slices fold_left]. rewrite fold_append, IH.
    + apply substring_split.
    + rewrite substring_rest_length.
      change (String.length (String c body))
        with (S (String.length body)) in *.
      lia.
Qed.

Lemma write_chunks_content (path : string) (r : Response) :
  write_chunks path (iter_content 100 r) = WriteFile path (content r).
Proof.
  unfold write_chunks, iter_content. f_equal.
  apply iter_slices_whole; lia.
Qed.

Lemma valid_le_max (d : date) : valid d = true -> date_leb d date_max = true.
Proof.
  intros H. apply valid_spec in H. apply date_leb_spec. simpl.
  pose proof (days_in_month_bounds (year d) (month d)). lia.
Qed.

Lemma add_day_raises_at_max (d : date) (e : exn) :
  valid d = true -> add_day d = Raise e -> d = date_max.
Proof.
  intros Hv Ha.
  pose proof (proj2 (add_day_overflow d e Hv Ha) date_max eq_refl
                    (valid_le_max d Hv)) as H.
  now symmetry.
Qed.

Lemma date_leb_antisym (a b : date) :
  date_leb a b = true -> date_leb b a = true -> a = b.
Proof.
  rewrite !date_leb_spec. intros H1 H2. apply date_eq; lia.
Qed.

Lemma make_date_valid (dt : Z * Z * Z) (d : date) :
  make_date dt = Ok d -> valid d = true.
Proof.
  destruct dt as [[y m] dd]. unfold make_date.
  destruct (c_int y && c_int m && c_int dd); [|discriminate].
  destruct (valid {| year := y; month := m; day := dd |}) eqn:V;
    [|discriminate].
  now intros [= <-].
Qed.

Section FetcherFacts.

Variable makedirs : string -> result unit.
Variable requests_get : string -> result Response.
Variable save : string -> list string -> result unit.
Variable directory : string.

Abbreviation fetched := (fetch requests_get save directory).
Abbreviation looped := (download_loop requests_get save).
Abbreviation downloaded :=
  (download_data makedirs requests_get save).

(** The body of the loop, case by case, with the names written out. *)
Lemma fetch_cases (d : date) :
  let name := (fmt_B d ++ "-" ++ fmt_d d ++ "-" ++ fmt_Y d ++ "-Cases.pdf")
              %string in
  let u := ("https://quezoncity.gov.ph/wp-content/uploads/2021/"
              ++ fmt_m d ++ "/" ++ name)%string in
  let path := (directory ++ "/" ++ name)%string in
  (forall e, requests_get u = Raise e -> fetched d = ([Request u], Raise e))
  /\ (forall response,
        requests_get u = Ok response -> status_code response = 200 ->
        (forall x, save path (iter_content 100 response) = Ok x ->
           fetched d
           = ([Request u; WriteFile path (content response)], Ok tt))
        /\ (forall e, save path (iter_content 100 response) = Raise e ->
              fetched d = ([Request u], Raise e)))
  /\ (forall response,
        requests_get u = Ok response -> status_code response <> 200 ->
        fetched d
        = ([Request u;
            PrintLine ("No data extracted on "
                         ++ fmt_B d ++ " " ++ fmt_d d ++ ", " ++ fmt_Y d)],
           Ok tt)).
Proof.
  cbv zeta. unfold fetch, url, saved_path, filename, no_data_message.
  split; [|split].
  - intros e ->. reflexivity.
  - intros response -> S. apply indicates_success_200 in S. rewrite S.
    split.
    + intros x ->. now rewrite write_chunks_content.
    + intros e ->. reflexivity.
  - intros response -> S.
    destruct (indicates_success response) eqn:I; [|reflexivity].
    apply indicates_success_200 in I. congruence.
Qed.

(** The loop requests the dates from the start on, each once and in
    order; it goes through the range unless a request or a writing
    raises, and stops at the first date where one does. *)
Lemma download_loop_spec (fuel : nat) :
  forall start_date end_date,
    valid start_date = true -> valid end_date = true ->
    (0 < fuel)%nat ->
    day_number end_date - day_number start_date + 1 < Z.of_nat fuel ->
    exists days,
      fst (looped fuel directory start_date end_date)
        = flat_map (fun d => fst (fetched d)) days
      /\ StronglySorted (fun a b => date_ltb a b = true) days
      /\ (forall d, In d days ->
            valid d = true /\ date_leb start_date d = true
            /\ date_leb d end_date = true)
      /\ (forall d x, In d days ->
            valid x = true -> date_leb start_date x = true ->
            date_leb x d = true -> In x days)
      /\ (((forall d, In d days -> snd (fetched d) = Ok tt)
           /\ (forall d, valid d = true -> date_leb start_date d = true ->
                         date_leb d end_date = true -> In d days)
           /\ ((snd (looped fuel directory start_date end_date) = Returned
                /\ ~ (date_leb start_date end_date = true
                      /\ end_date = date_max))
               \/ (snd (looped fuel directory start_date end_date)
                     = Raised OverflowError
                   /\ date_leb start_date end_date = true
                   /\ end_date = date_max)))
          \/ exists before d e,
               days = before ++ [d]
               /\ (forall x, In x before -> snd (fetched x) = Ok tt)
               /\ snd (fetched d) = Raise e
               /\ snd (looped fuel directory start_date end_date)
                  = Raised e).
Proof.
  induction fuel as [|fuel IH]; intros start_date end_date Hs He Hpos Hfuel;
    [lia|].
  cbn [download_loop]. destruct (date_leb start_date end_date) eqn:L.
  - pose proof (day_number_mono _ _ Hs He L) as Hmono.
    destruct (fetched start_date) as [done r] eqn:F.
    assert (Hone : forall d x, In d [start_date] ->
              valid x = true -> date_leb start_date x = true ->
              date_leb x d = true -> In x [start_date]).
    { intros d x [<-|[]] _ H1 H2. left. now apply date_leb_antisym. }
    assert (Hin1 : forall d, In d [start_date] ->
              valid d = true /\ date_leb start_date d = true
              /\ date_leb d end_date = true).
    { intros d [<-|[]]. auto using date_leb_refl. }
    destruct r as [u|e].
    + destruct (add_day start_date) as [next|e] eqn:A.
      * destruct (add_day_next _ _ Hs A) as (Hn & Hlt & Hle & Hnle & Hnext).
        destruct (IH next end_date Hn He ltac:(lia) ltac:(lia))
          as (days & Htr & Hsort & Hin & Hdown & Hout).
        destruct (looped fuel directory next end_date) as [later o].
        cbn [fst snd] in *. exists (start_date :: days).
        cbn [flat_map]. rewrite F. cbn [fst].
        split; [now rewrite Htr|].
        assert (Hafter : forall d, In d days -> date_ltb start_date d = true).
        { intros d Hd. apply Hin in Hd as (_ & Hd & _). unfold date_ltb.
          destruct (date_leb d start_date) eqn:E; [|reflexivity].
          rewrite (date_leb_trans _ _ _ Hd E) in Hnle. discriminate. }
        split; [|split; [|split]].
        -- constructor; [assumption|]. now apply Forall_forall.
        -- intros d [<-|Hd]; [auto using date_leb_refl|].
           apply Hin in Hd as (Hv & Hd & Hde).
           eauto using date_leb_trans.
        -- intros d x Hd Hx Hsx Hxd.
           destruct (Hnext x Hx Hsx) as [->|Hnx]; [now left|]. right.
           destruct Hd as [<-|Hd].
           ++ rewrite (date_leb_trans _ _ _ Hnx Hxd) in Hnle. discriminate.
           ++ now apply (Hdown d x).
        -- destruct Hout as [(Hok & Hcov & Ho)|(before & d & e & -> & Hb & Hd & Ho)].
           ++ left. split; [|split].
              ** intros d [<-|Hd]; [|now apply Hok].
                 rewrite F. simpl. now destruct u.
              ** intros d Hv Hsd Hde.
                 destruct (Hnext d Hv Hsd) as [->|Hnd]; [now left|].
                 right. now apply Hcov.
              ** destruct Ho as [(Ho & Hnot)|(Ho & _ & Hmax)]; [left|right].
                 --- split; [assumption|]. intros [_ Hmax]. apply Hnot.
                     split; [|assumption]. rewrite Hmax.
                     now apply valid_le_max.
                 --- repeat split; assumption.
           ++ right. exists (start_date :: before), d, e.
              split; [reflexivity|]. split; [|now split].
              intros x [<-|Hx]; [|now apply Hb].
              rewrite F. simpl. now destruct u.
      * pose proof (add_day_raises_at_max _ _ Hs A) as Hmax.
        destruct (add_day_overflow _ _ Hs A) as (-> & Hlast).
        exists [start_date]. cbn [flat_map fst snd]. rewrite F, app_nil_r.
        split; [reflexivity|]. split; [repeat constructor|].
        split; [exact Hin1|]. split; [exact Hone|]. left.
        split; [|split].
        -- intros d [<-|[]]. rewrite F. simpl. now destruct u.
        -- intros d Hv Hsd _. left. symmetry. now apply Hlast.
        -- right. split; [reflexivity|]. split; [reflexivity|].
           rewrite <- Hmax. apply Hlast; assumption.
    + exists [start_date]. cbn [flat_map fst snd]. rewrite F, app_nil_r.
      split; [reflexivity|]. split; [repeat constructor|].
      split; [exact Hin1|]. split; [exact Hone|]. right.
      exists [], start_date, e. rewrite F. repeat split.
      intros x [].
  - exists []. cbn [flat_map fst snd]. split; [reflexivity|].
    split; [constructor|]. split; [intros d []|]. split; [intros d x []|].
    left. split; [intros d []|]. split.
    + intros d _ Hsd Hde.
      rewrite (date_leb_trans _ _ _ Hsd Hde) in L. discriminate.
    + left. split; [reflexivity|]. intros [? _]. discriminate.
Qed.

(** C9 (amended). Once the directory is made, [download_data] requests the
    dates of the range from the start on, each once and in order.  For a
    date whose request returns a response of status 200 it writes the body
    to [directory/Month-DD-YYYY-Cases.pdf], the name made of the date's
    month name, day on two digits and year, and prints nothing; for a
    response of another status it writes nothing and prints that no data
    were extracted on that date.  An exception of the request or of the
    writing is not caught: it ends the run at that date, the later dates
    of the range being neither requested, written nor reported.  Without
    such an exception every date of the range is gone through and the run
    returns or, past the last date of the calendar, ends with the overflow
    of the date. *)
Theorem download_data_each_date (start_dt end_dt : Z * Z * Z)
        (start_date end_date : date) :
  makedirs directory = Ok tt ->
  make_date start_dt = Ok start_date ->
  make_date end_dt = Ok end_date ->
  exists days,
    fst (downloaded start_dt end_dt directory)
      = MakeDirs directory :: flat_map (fun d => fst (fetched d)) days
    /\ StronglySorted (fun a b => date_ltb a b = true) days
    /\ (forall d, In d days ->
          valid d = true /\ date_leb start_date d = true
          /\ date_leb d end_date = true)
    /\ (forall d x, In d days ->
          valid x = true -> date_leb start_date x = true ->
          date_leb x d = true -> In x days)
    /\ (forall d,
          let name :=
            (fmt_B d ++ "-" ++ fmt_d d ++ "-" ++ fmt_Y d ++ "-Cases.pdf")
            %string in
          let u := ("https://quezoncity.gov.ph/wp-content/uploads/2021/"
                      ++ fmt_m d ++ "/" ++ name)%string in
          let path := (directory ++ "/" ++ name)%string in
          (forall e, requests_get u = Raise e ->
                     fetched d = ([Request u], Raise e))
          /\ (forall response,
                requests_get u = Ok response -> status_code response = 200 ->
                (forall x, save path (iter_content 100 response) = Ok x ->
                   fetched d
                   = ([Request u; WriteFile path (content response)], Ok tt))
                /\ (forall e,
                      save path (iter_content 100 response) = Raise e ->
                      fetched d = ([Request u], Raise e)))
          /\ (forall response,
                requests_get u = Ok response ->
                status_code response <> 200 ->
                fetched d
                = ([Request u;
                    PrintLine ("No data extracted on "
                                 ++ fmt_B d ++ " " ++ fmt_d d ++ ", "
                                 ++ fmt_Y d)],
                   Ok tt)))
    /\ (((forall d, In d days -> snd (fetched d) = Ok tt)
         /\ (forall d, valid d = true -> date_leb start_date d = true ->
                       date_leb d end_date = true -> In d days)
         /\ (snd (downloaded start_dt end_dt directory) = Returned
             \/ snd (downloaded start_dt end_dt directory)
                = Raised OverflowError))
        \/ exists before d e,
             days = before ++ [d]
             /\ (forall x, In x before -> snd (fetched x) = Ok tt)
             /\ snd (fetched d) = Raise e
             /\ snd (downloaded start_dt end_dt directory) = Raised e).
Proof.
  intros Hm Hs He.
  pose proof (make_date_valid _ _ Hs) as Hvs.
  pose proof (make_date_valid _ _ He) as Hve.
  unfold download_data. rewrite Hm, Hs, He.
  destruct (download_loop_spec (enough_fuel start_date end_date)
              start_date end_date Hvs Hve)
    as (days & Htr & Hsort & Hin & Hdown & Hout).
  { unfold enough_fuel. lia. }
  { unfold enough_fuel. lia. }
  destruct (looped (enough_fuel start_date end_date) directory start_date
                   end_date) as [tr o].
  cbn [fst snd] in *. exists days.
  split; [now rewrite Htr|]. split; [exact Hsort|]. split; [exact Hin|].
  split; [exact Hdown|]. split; [intros d; apply fetch_cases|].
  destruct Hout as [(Hok & Hcov & Ho)|Hstop]; [left|now right].
  split; [exact Hok|]. split; [exact Hcov|].
  destruct Ho as [(Ho & _)|(Ho & _)]; [now left|now right].
Qed.

(** X10. When the directory is made and no request or writing of the
    range raises, [download_data] given two dates of the calendar ends
    with [OverflowError] exactly when the range is not empty and ends on
    the last date of the calendar, 31 December 9999 (the increment after
    the last request overflows), and returns in every other case. *)
Theorem download_data_overflow_iff (start_dt end_dt : Z * Z * Z)
        (start_date end_date : date) :
  makedirs directory = Ok tt ->
  make_date start_dt = Ok start_date ->
  make_date end_dt = Ok end_date ->
  (forall d, valid d = true -> date_leb start_date d = true ->
             date_leb d end_date = true -> snd (fetched d) = Ok tt) ->
  (snd (downloaded start_dt end_dt directory) = Raised OverflowError
   <-> date_leb start_date end_date = true /\ end_date = date_max)
  /\ (snd (downloaded start_dt end_dt directory) = Returned
      <-> ~ (date_leb start_date end_date = true /\ end_date = date_max)).
Proof.
  intros Hm Hs He Hall.
  pose proof (make_date_valid _ _ Hs) as Hvs.
  pose proof (make_date_valid _ _ He) as Hve.
  unfold download_data. rewrite Hm, Hs, He.
  destruct (download_loop_spec (enough_fuel start_date end_date)
              start_date end_date Hvs Hve)
    as (days & Htr & Hsort & Hin & Hdown & Hout).
  { unfold enough_fuel. lia. }
  { unfold enough_fuel. lia. }
  destruct (looped (enough_fuel start_date end_date) directory start_date
                   end_date) as [tr o].
  cbn [fst snd] in *.
  destruct Hout as [(_ & _ & Ho)|(before & d & e & -> & _ & Hd & _)].
  - destruct Ho as [(-> & Hnot)|(-> & L & Hmax)].
    + split; split; try discriminate; auto.
      intros Hc. now exfalso.
    + split; split; try discriminate; auto.
      intros Hnot. exfalso. now apply Hnot.
  - exfalso. assert (Hd' : In d (before ++ [d]))
      by (apply in_or_app; right; now left).
    apply Hin in Hd' as (Hv & Hsd & Hde).
    rewrite (Hall d Hv Hsd Hde) in Hd. discriminate.
Qed.

(** X11. The directory comes first: when [os.makedirs] raises, nothing
    else is done.  Once it is made, a start or an end that is no date of
    the calendar ends the run before any request, with the exception of
    [datetime.date]: [OverflowError] for a component that does not fit a
    C [int], [ValueError] otherwise; and with a start after the end the
    run returns having requested nothing. *)
Theorem download_data_nothing_to_fetch (start_dt end_dt : Z * Z * Z) :
  (forall e, makedirs directory = Raise e ->
             downloaded start_dt end_dt directory = ([], Raised e))
  /\ (forall u, makedirs directory = Ok u ->
        (forall e, make_date start_dt = Raise e ->
           downloaded start_dt end_dt directory
           = ([MakeDirs directory], Raised e))
        /\ (forall start_date e,
              make_date start_dt = Ok start_date ->
              make_date end_dt = Raise e ->
              downloaded start_dt end_dt directory
              = ([MakeDirs directory], Raised e))
        /\ (forall start_date end_date,
              make_date start_dt = Ok start_date ->
              make_date end_dt = Ok end_date ->
              date_leb start_date end_date = false ->
              downloaded start_dt end_dt directory
              = ([MakeDirs directory], Returned)))
  /\ (forall y m d e,
        make_date (y, m, d) = Raise e ->
        (e = OverflowError
         /\ ~ (- 2 ^ 31 <= y < 2 ^ 31 /\ - 2 ^ 31 <= m < 2 ^ 31
               /\ - 2 ^ 31 <= d < 2 ^ 31))
        \/ (e = ValueError
            /\ - 2 ^ 31 <= y < 2 ^ 31 /\ - 2 ^ 31 <= m < 2 ^ 31
            /\ - 2 ^ 31 <= d < 2 ^ 31
            /\ valid {| year := y; month := m; day := d |} = false)).
Proof.
  unfold download_data. split; [|split].
  - intros e ->. reflexivity.
  - intros u ->. split; [|split].
    + intros e ->. reflexivity.
    + intros start_date e -> ->. reflexivity.
    + intros start_date end_date -> -> L. unfold enough_fuel.
      cbn [download_loop]. now rewrite L.
  - intros y m d e. unfold make_date, c_int.
    destruct (_ && _ && _) eqn:C.
    + destruct (valid _) eqn:V; [discriminate|]. intros [= <-]. right.
      rewrite !andb_true_iff, !Z.leb_le, !Z.ltb_lt in C. tauto.
    + intros [= <-]. left. split; [reflexivity|]. intros H.
      assert (C' : (- 2 ^ 31 <=? y) && (y <? 2 ^ 31)
                   && ((- 2 ^ 31 <=? m) && (m <? 2 ^ 31))
                   && ((- 2 ^ 31 <=? d) && (d <? 2 ^ 31)) = true)
        by (rewrite !andb_true_iff, !Z.leb_le, !Z.ltb_lt; tauto).
      congruence.
Qed.

(** X12. Every effect of a run is accounted for: after the directory, each
    request is the request of a date of the range, each file written is
    the file of a date of the range whose response had status 200,
    holding the body of that response, and each line printed is the
    message of a date of the range whose response had another status.
    Nothing is requested, written or printed for a date outside the
    range. *)
Theorem download_data_effects_accounted (start_dt end_dt : Z * Z * Z)
        (start_date end_date : date) (eff : effect) :
  make_date start_dt = Ok start_date ->
  make_date end_dt = Ok end_date ->
  In eff (fst (downloaded start_dt end_dt directory)) ->
  eff = MakeDirs directory
  \/ exists d,
       valid d = true /\ date_leb start_date d = true
       /\ date_leb d end_date = true
       /\ (eff = Request (url d)
           \/ (exists response,
                 requests_get (url d) = Ok response
                 /\ status_code response = 200
                 /\ eff = WriteFile (saved_path directory d)
                                    (content response))
           \/ (exists response,
                 requests_get (url d) = Ok response
                 /\ status_code response <> 200
                 /\ eff = PrintLine (no_data_message d))).
Proof.
  intros Hs He.
  pose proof (make_date_valid _ _ Hs) as Hvs.
  pose proof (make_date_valid _ _ He) as Hve.
  unfold download_data.
  destruct (makedirs directory) as [u|e]; [|intros []].
  rewrite Hs, He.
  destruct (download_loop_spec (enough_fuel start_date end_date)
              start_date end_date Hvs Hve)
    as (days & Htr & _ & Hin & _);
    [unfold enough_fuel; lia|unfold enough_fuel; lia|].
  destruct (looped (enough_fuel start_date end_date) directory start_date
                   end_date) as [tr o].
  cbn [fst snd] in *. subst tr. intros [<-|Heff]; [now left|]. right.
  apply in_flat_map in Heff as (d & Hd & Heff).
  apply Hin in Hd as (Hv & Hsd & Hde).
  exists d. repeat (split; [assumption|]).
  unfold fetch in Heff.
  destruct (requests_get (url d)) as [response|e] eqn:R.
  - destruct (indicates_success response) eqn:S.
    + apply indicates_success_200 in S.
      destruct (save _ _) as [x|e]; cbn [fst] in Heff.
      * destruct Heff as [<-|[<-|[]]]; [now left|]. right. left.
        exists response. rewrite write_chunks_content. auto.
      * destruct Heff as [<-|[]]. now left.
    + cbn [fst] in Heff. destruct Heff as [<-|[<-|[]]]; [now left|].
      right. right. exists response. repeat split.
      intros S'. apply indicates_success_200 in S'. congruence.
  - cbn [fst] in Heff. destruct Heff as [<-|[]]. now left.
Qed.

End FetcherFacts.

(** ** File names of the driver and of the fetcher *)

Lemma in_range_1 (n hi : Z) :
  1 <= n <= hi -> In n (map Z.of_nat (seq 1 (Z.to_nat hi))).
Proof.
  intros H. apply in_map_iff. exists (Z.to_nat n).
  split; [lia|]. apply in_seq. lia.
Qed.

(** The branch on [day < 10] writes the day as [%d] does. *)
Lemma day_on_two_digits (n : Z) (rest : string) :
  1 <= n <= 31 ->
  (if n <? 10 then ("-0" ++ str_int n ++ rest)%string
   else ("-" ++ str_int n ++ rest)%string)
  = ("-" ++ two_digits n ++ rest)%string.
Proof.
  intros H. apply (in_range_1 n 31) in H. simpl in H.
  repeat (destruct H as [<-|H]; [reflexivity|]). contradiction.
Qed.

Lemma downloaded_file_two_digits (data_dir month_ : string) (n : Z) :
  1 <= n <= 31 ->
  downloaded_file data_dir month_ n
  = (data_dir ++ "/" ++ month_ ++ "-" ++ two_digits n ++ "-2021-Cases.pdf")
    %string.
Proof.
  intros H. unfold downloaded_file.
  rewrite <- (day_on_two_digits n "-2021-Cases.pdf" H).
  now destruct (n <? 10).
Qed.

(** C10. For a date of the calendar, the file the batch driver expects for
    the date's month name and day is the file the fetcher writes for the
    date, in the same directory, exactly when the date is of the year
    2021: the driver writes the day on two digits as [%d] does and has the
    year 2021 as a literal. *)
Theorem expected_file_is_fetched_file (data_dir : string) (d : date) :
  valid d = true ->
  (downloaded_file data_dir (fmt_B d) (day d) = saved_path data_dir d
   <-> year d = 2021).
Proof.
  intros Hv. apply valid_spec in Hv.
  pose proof (days_in_month_bounds (year d) (month d)) as Hb.
  rewrite downloaded_file_two_digits by lia.
  unfold saved_path, filename, fmt_d, fmt_Y.
  split.
  - intros H. do 5 apply append_cancel_l in H.
    change "-2021-Cases.pdf"
      with ("-" ++ str_int 2021 ++ "-Cases.pdf")%string in H.
    apply append_cancel_l, append_cancel_r in H.
    symmetry. now apply str_int_inj.
  - intros ->. reflexivity.
Qed.

(** ** File names determine their date *)

(** No month name begins another, so a text that begins with a month name
    begins with one month name only. *)
Lemma month_name_determined (m1 m2 : Z) (x y : string) :
  1 <= m1 <= 12 -> 1 <= m2 <= 12 ->
  (nth (Z.to_nat (m1 - 1)) month_names "" ++ x)%string
  = (nth (Z.to_nat (m2 - 1)) month_names "" ++ y)%string ->
  m1 = m2.
Proof.
  intros H1 H2 E.
  apply (in_range_1 m1 12) in H1. apply (in_range_1 m2 12) in H2.
  simpl in H1, H2.
  repeat (destruct H1 as [<-|H1]; [|]); try contradiction;
    repeat (destruct H2 as [<-|H2]; [|]); try contradiction;
    first [reflexivity | (cbv in E; congruence)].
Qed.

(** A day and a year are read back from their digits. *)
Lemma two_digits_determined (a b : Z) (x y : string) :
  1 <= a <= 31 -> 1 <= b <= 31 ->
  (two_digits a ++ x)%string = (two_digits b ++ y)%string ->
  a = b /\ x = y.
Proof.
  intros Ha Hb E.
  pose (value := fun c : ascii => Z.of_nat (nat_of_ascii c) - 48).
  pose (read := fun s : string =>
                  match s with
                  | String c1 (String c2 _) => 10 * value c1 + value c2
                  | _ => 0
                  end).
  assert (Hread : forall n z, 1 <= n <= 31 -> read (two_digits n ++ z)%string = n).
  { intros n z Hn. apply (in_range_1 n 31) in Hn. simpl in Hn.
    repeat (destruct Hn as [<-|Hn]; [reflexivity|]). contradiction. }
  assert (Hab : a = b).
  { rewrite <- (Hread a x Ha), <- (Hread b y Hb). now rewrite E. }
  split; [assumption|]. subst b. now apply append_cancel_l in E.
Qed.

(** A text made of a date's month name, day and year with fixed texts
    between and after them determines the date. *)
Lemma date_text_determined (sep1 sep2 tail : string) (d1 d2 : date) :
  valid d1 = true -> valid d2 = true ->
  (fmt_B d1 ++ sep1 ++ fmt_d d1 ++ sep2 ++ fmt_Y d1 ++ tail)%string
  = (fmt_B d2 ++ sep1 ++ fmt_d d2 ++ sep2 ++ fmt_Y d2 ++ tail)%string ->
  d1 = d2.
Proof.
  intros H1 H2 E. apply valid_spec in H1, H2.
  pose proof (days_in_month_bounds (year d1) (month d1)).
  pose proof (days_in_month_bounds (year d2) (month d2)).
  unfold fmt_B, fmt_d, fmt_Y in E.
  assert (Hm : month d1 = month d2)
    by (eapply month_name_determined; [| |exact E]; lia).
  rewrite Hm in E. do 2 apply append_cancel_l in E.
  apply two_digits_determined in E as [Hd E]; [|lia|lia].
  apply append_cancel_l, append_cancel_r, str_int_inj in E.
  now apply date_eq.
Qed.

(** X13. The file name of the fetcher determines the date: two dates of
    the calendar (years on four digits) saved under the same path of a
    directory are the same date, so no download of a run overwrites
    another. *)
Theorem saved_path_determines_date (directory : string) (d1 d2 : date) :
  valid d1 = true -> valid d2 = true ->
  1000 <= year d1 -> 1000 <= year d2 ->
  saved_path directory d1 = saved_path directory d2 -> d1 = d2.
Proof.
  intros H1 H2 _ _ E. unfold saved_path, filename in E.
  do 2 apply append_cancel_l in E.
  now apply (date_text_determined "-" "-" "-Cases.pdf") in E.
Qed.

(** ** Map Renderer: the date read from the file name *)

Lemma append_empty_r (s : string) : (s ++ "")%string = s.
Proof. induction s as [|c s IH]; simpl; [reflexivity|now rewrite IH]. Qed.

Lemma avoids_app (c : ascii) (a b : string) :
  avoids c (a ++ b) = avoids c a && avoids c b.
Proof.
  induction a as [|x a IH]; simpl; [reflexivity|].
  now rewrite IH, andb_assoc.
Qed.

Lemma split_whole (sep : ascii) (s : string) :
  avoids sep s = true -> split sep s = [s].
Proof.
  induction s as [|c s IH]; simpl; [reflexivity|].
  intros H. apply andb_true_iff in H as [Hc Hs].
  apply negb_true_iff in Hc. rewrite Hc, (IH Hs). reflexivity.
Qed.

Lemma split_at (sep : ascii) (a b : string) :
  avoids sep a = true ->
  split sep (a ++ String sep b) = a :: split sep b.
Proof.
  induction a as [|c a IH]; simpl.
  - intros _. now rewrite Ascii.eqb_refl.
  - intros H. apply andb_true_iff in H as [Hc Hs].
    apply negb_true_iff in Hc. rewrite Hc, (IH Hs). reflexivity.
Qed.

(** The last piece of a path is what follows its last separator. *)
Lemma split_last (sep : ascii) (a b : string) :
  avoids sep b = true ->
  List.last (split sep (a ++ String sep b)) "" = b.
Proof.
  intros Hb.
  assert (H : exists front,
             front <> [] /\ split sep (a ++ String sep b) = front ++ [b]).
  { induction a as [|c a (front & Hne & IH)]; simpl.
    - rewrite Ascii.eqb_refl, (split_whole sep b Hb).
      exists [EmptyString]. split; [discriminate|reflexivity].
    - rewrite IH. destruct (Ascii.eqb c sep).
      + exists (EmptyString :: front). split; [discriminate|reflexivity].
      + destruct front as [|w ws]; [congruence|].
        exists (String c w :: ws). split; [discriminate|reflexivity]. }
  destruct H as (front & _ & ->). apply last_last.
Qed.

Lemma prefix_empty (s : string) : String.prefix "" s = true.
Proof. destruct s; reflexivity. Qed.

(** [replace('-', ' ')] works character by character. *)
Lemma dash_to_space_app (a b : string) :
  str_replace "-" " " (a ++ b)
  = (str_replace "-" " " a ++ str_replace "-" " " b)%string.
Proof.
  unfold str_replace. induction a as [|c a IH]; [reflexivity|].
  cbn [append replace_from String.prefix String.length Nat.sub].
  rewrite !prefix_empty.
  destruct (ascii_dec "-" c); cbn [append]; now rewrite IH.
Qed.

Lemma dash_to_space_none (a : string) :
  avoids "-" a = true -> str_replace "-" " " a = a.
Proof.
  unfold str_replace. induction a as [|c a IH]; [reflexivity|].
  intros H. simpl in H. apply andb_true_iff in H as [Hc Ha].
  apply negb_true_iff, Ascii.eqb_neq in Hc.
  cbn [replace_from String.prefix].
  destruct (ascii_dec "-" c) as [E|_]; [now subst c|].
  now rewrite (IH Ha).
Qed.

(** [replace('-Cases.pdf', '')] passes a text without '-' and a '-' that
    no "Cases.pdf" follows, and removes the suffix. *)
Lemma strip_suffix_plain (a s : string) :
  avoids "-" a = true ->
  str_replace "-Cases.pdf" "" (a ++ s)
  = (a ++ str_replace "-Cases.pdf" "" s)%string.
Proof.
  unfold str_replace. induction a as [|c a IH]; [reflexivity|].
  intros H. simpl in H. apply andb_true_iff in H as [Hc Ha].
  apply negb_true_iff, Ascii.eqb_neq in Hc.
  cbn [append replace_from String.prefix].
  destruct (ascii_dec "-" c) as [E|_]; [now subst c|].
  now rewrite (IH Ha).
Qed.

Lemma strip_suffix_dash (a s : string) :
  a <> EmptyString -> avoids "C" a = true ->
  str_replace "-Cases.pdf" "" (String "-" (a ++ s))
  = String "-" (str_replace "-Cases.pdf" "" (a ++ s)).
Proof.
  intros Hne H. destruct a as [|c a]; [congruence|].
  simpl in H. apply andb_true_iff in H as [Hc _].
  apply negb_true_iff, Ascii.eqb_neq in Hc. unfold str_replace.
  cbn [append]. cbn [replace_from String.prefix].
  destruct (ascii_dec "-" "-") as [_|N]; [|congruence].
  destruct (ascii_dec "C" c) as [E|_]; [now subst c|reflexivity].
Qed.

(** The decimal numeral of a number holds digits only. *)
Lemma uint_avoids (c : ascii) (u : Decimal.uint) :
  In c ["/"; "-"; " "; "C"]%char ->
  avoids c (NilEmpty.string_of_uint u) = true.
Proof.
  intros Hc. induction u; simpl; try reflexivity; rewrite IHu;
    simpl in Hc;
    repeat (destruct Hc as [<-|Hc]; [reflexivity|]); contradiction.
Qed.

Lemma str_int_plain (n : Z) :
  0 < n -> plain (str_int n) = true /\ str_int n <> EmptyString.
Proof.
  intros Hn. destruct n as [|p|p]; try lia.
  unfold str_int. cbn [Z.to_int NilZero.string_of_int].
  unfold NilZero.string_of_uint, plain.
  destruct (Pos.to_uint p) eqn:E; try (split; [reflexivity|discriminate]);
    (split; [|discriminate]); rewrite <- E;
    rewrite !uint_avoids; simpl; auto 10.
Qed.

(** The month name, the day and the year of a date are plain texts. *)
Lemma date_parts_plain (d : date) :
  valid d = true ->
  plain (fmt_B d) = true /\ plain (fmt_d d) = true /\ plain (fmt_Y d) = true.
Proof.
  intros H. apply valid_spec in H.
  pose proof (days_in_month_bounds (year d) (month d)) as Hb.
  unfold fmt_B, fmt_d, fmt_Y. repeat split.
  - assert (Hm : In (month d) (map Z.of_nat (seq 1 (Z.to_nat 12))))
      by (apply in_range_1; lia).
    simpl in Hm.
    repeat (destruct Hm as [<-|Hm]; [reflexivity|]). contradiction.
  - assert (Hd : In (day d) (map Z.of_nat (seq 1 (Z.to_nat 31))))
      by (apply in_range_1; lia).
    simpl in Hd.
    repeat (destruct Hd as [<-|Hd]; [reflexivity|]). contradiction.
  - apply str_int_plain. lia.
Qed.

Lemma plain_avoids (s : string) :
  plain s = true ->
  avoids "/" s = true /\ avoids "-" s = true /\ avoids " " s = true
  /\ avoids "C" s = true.
Proof.
  unfold plain. rewrite !andb_true_iff. tauto.
Qed.

Lemma two_digits_nonempty (n : Z) : two_digits n <> EmptyString.
Proof. unfold two_digits. discriminate. Qed.

Lemma fmt_Y_nonempty (d : date) :
  valid d = true -> fmt_Y d <> EmptyString.
Proof.
  intros H. apply valid_spec in H. apply str_int_plain. lia.
Qed.

Lemma avoids_suffix : avoids "/" "-Cases.pdf" = true.
Proof. reflexivity. Qed.

(** The name of a report without its directory and its suffix. *)
Lemma source_name_of_saved_path (directory : string) (d : date) :
  valid d = true ->
  source_name (saved_path directory d)
  = (fmt_B d ++ "-" ++ fmt_d d ++ "-" ++ fmt_Y d)%string.
Proof.
  intros Hv.
  destruct (date_parts_plain d Hv) as (HB & HD & HY).
  apply plain_avoids in HB as (HB1 & HB2 & _ & _).
  apply plain_avoids in HD as (HD1 & HD2 & _ & HD4).
  apply plain_avoids in HY as (HY1 & HY2 & _ & HY4).
  unfold source_name, saved_path.
  change (directory ++ "/" ++ filename d)%string
    with (directory ++ String "/" (filename d))%string.
  rewrite split_last.
  - unfold filename.
    change ("-" ++ fmt_d d ++ "-" ++ fmt_Y d ++ "-Cases.pdf")%string
      with (String "-" (fmt_d d ++ String "-" (fmt_Y d ++ "-Cases.pdf")))%string.
    rewrite (strip_suffix_plain _ _ HB2).
    rewrite (strip_suffix_dash _ _ (two_digits_nonempty _) HD4).
    rewrite (strip_suffix_plain _ _ HD2).
    rewrite (strip_suffix_dash _ _ (fmt_Y_nonempty d Hv) HY4).
    rewrite (strip_suffix_plain _ _ HY2).
    change (str_replace "-Cases.pdf" "" "-Cases.pdf") with EmptyString.
    now rewrite append_empty_r.
  - unfold filename. rewrite !avoids_app, HB1, HD1, HY1. reflexivity.
Qed.

Lemma date_words_of_saved_path (directory : string) (d : date) :
  valid d = true ->
  date_words (saved_path directory d) = [fmt_B d; fmt_d d; fmt_Y d].
Proof.
  intros Hv. unfold date_words.
  rewrite (source_name_of_saved_path directory d Hv).
  destruct (date_parts_plain d Hv) as (HB & HD & HY).
  apply plain_avoids in HB as (_ & HB2 & HB3 & _).
  apply plain_avoids in HD as (_ & HD2 & HD3 & _).
  apply plain_avoids in HY as (_ & HY2 & HY3 & _).
  rewrite !dash_to_space_app.
  rewrite (dash_to_space_none _ HB2), (dash_to_space_none _ HD2),
    (dash_to_space_none _ HY2).
  change (str_replace "-" " " "-") with " ".
  change (fmt_B d ++ " " ++ fmt_d d ++ " " ++ fmt_Y d)%string
    with (fmt_B d ++ String " " (fmt_d d ++ String " " (fmt_Y d)))%string.
  rewrite (split_at _ _ _ HB3), (split_at _ _ _ HD3), (split_whole _ _ HY3).
  reflexivity.
Qed.

(** X14. For every directory, every output directory and every valid
    date whose year has four digits, [create_map], given the path under
    which [download_data] saves the report of that date, recovers the date
    from the path alone: the words it cuts from the name are the month
    name, the day on two digits and the year; the key it looks up in the
    totals is "Month DD YYYY"; the date of the title is "Month DD, YYYY",
    the one of [download_data]'s message; and the figure is saved as
    output_dir/Month-DD-YYYY.png. *)
Theorem create_map_reads_date
  (directory output_dir : string) (d : date) :
  valid d = true -> 1000 <= year d ->
  date_words (saved_path directory d) = [fmt_B d; fmt_d d; fmt_Y d]
  /\ totals_key (saved_path directory d) = fmt_totals d
  /\ (forall t, title_date (saved_path directory d) = Ok t ->
        no_data_message d = ("No data extracted on " ++ t)%string)
  /\ title_date (saved_path directory d)
     = Ok (fmt_B d ++ " " ++ fmt_d d ++ ", " ++ fmt_Y d)%string
  /\ figure_path output_dir (saved_path directory d)
     = (output_dir ++ "/" ++ fmt_B d ++ "-" ++ fmt_d d ++ "-" ++ fmt_Y d
          ++ ".png")%string.
Proof.
  intros Hv _.
  pose proof (date_words_of_saved_path directory d Hv) as Hw.
  assert (Ht : title_date (saved_path directory d)
               = Ok (fmt_B d ++ " " ++ fmt_d d ++ ", " ++ fmt_Y d)%string).
  { unfold title_date. rewrite Hw. cbn [String.concat].
    now rewrite append_assoc. }
  repeat split.
  - exact Hw.
  - unfold totals_key. rewrite Hw. reflexivity.
  - intros t E. rewrite Ht in E. injection E as <-. reflexivity.
  - exact Ht.
  - unfold figure_path.
    rewrite (source_name_of_saved_path directory d Hv).
    now rewrite !append_assoc.
Qed.

(** ** Map Renderer: the totals of the day *)

Lemma fmt_totals_determined (d1 d2 : date) :
  valid d1 = true -> valid d2 = true ->
  fmt_totals d1 = fmt_totals d2 -> d1 = d2.
Proof.
  intros H1 H2 E. unfold fmt_totals in E.
  rewrite <- (append_empty_r (fmt_Y d1)), <- (append_empty_r (fmt_Y d2)) in E.
  now apply (date_text_determined " " " " "") in E.
Qed.

Lemma totals_row_selected (directory : string) (d : date) (t : Totals.row) :
  valid d = true -> valid (Totals.Date t) = true ->
  String.eqb (fmt_totals (Totals.Date t)) (totals_key (saved_path directory d))
  = true <-> Totals.Date t = d.
Proof.
  intros Hd Ht. unfold totals_key.
  rewrite (date_words_of_saved_path directory d Hd).
  change (String.concat " " [fmt_B d; fmt_d d; fmt_Y d]) with (fmt_totals d).
  rewrite String.eqb_eq. split.
  - now apply fmt_totals_determined.
  - now intros ->.
Qed.

Lemma filter_first {A : Type} (p : A -> bool) (before : list A) (a : A)
      (after : list A) :
  (forall x, In x before -> p x = false) -> p a = true ->
  filter p (before ++ a :: after) = a :: filter p after.
Proof.
  intros Hb Ha. induction before as [|x xs IH]; simpl.
  - now rewrite Ha.
  - rewrite (Hb x (or_introl eq_refl)). apply IH.
    intros; apply Hb; now right.
Qed.

Lemma filter_none {A : Type} (p : A -> bool) (l : list A) :
  (forall x, In x l -> p x = false) -> filter p l = [].
Proof.
  intros H. induction l as [|x xs IH]; simpl; [reflexivity|].
  rewrite (H x (or_introl eq_refl)). apply IH. intros; apply H; now right.
Qed.

(** X15. The headline of a map is read from the first row of the totals
    file dated like the report: for the report [download_data] saves for a
    valid date [d] (year on four digits) and a totals file of valid dates,
    the rows [create_map] selects are those of date [d]; without such a
    row the headline expressions raise [IndexError], which [create_map]
    does not catch; with one, the four numbers are those of the first such
    row, whatever rows follow it, and a missing number among the four
    (the others being numbers or missing) is a [ValueError]. *)
Theorem headline_from_first_row_of_date
  (directory : string) (d : date) (total_counts : list Totals.row) :
  valid d = true -> 1000 <= year d ->
  (forall t, In t total_counts -> valid (Totals.Date t) = true) ->
  (forall t, In t (total_counts_df (saved_path directory d) total_counts)
             <-> In t total_counts /\ Totals.Date t = d)
  /\ ((forall t, In t total_counts -> Totals.Date t <> d) ->
      headline (saved_path directory d) total_counts = Raise IndexError)
  /\ (forall before t after,
        total_counts = before ++ t :: after ->
        (forall t', In t' before -> Totals.Date t' <> d) ->
        Totals.Date t = d ->
        (forall a r x y,
            Totals.Active t = Num a -> Totals.Deaths t = Num r ->
            Totals.Recoveries t = Num x -> Totals.Total t = Num y ->
            headline (saved_path directory d) total_counts
            = Ok (a, r, x, y))
        /\ (In NaN [Totals.Active t; Totals.Deaths t; Totals.Recoveries t;
                    Totals.Total t] ->
            (forall c, In c [Totals.Active t; Totals.Deaths t;
                             Totals.Recoveries t; Totals.Total t] ->
                       c = NaN \/ exists z, c = Num z) ->
            headline (saved_path directory d) total_counts
            = Raise ValueError)).
Proof.
  intros Hd _ Hvalid.
  assert (Hsel : forall t, In t total_counts ->
            String.eqb (fmt_totals (Totals.Date t))
                       (totals_key (saved_path directory d)) = true
            <-> Totals.Date t = d)
    by (intros t Ht; apply totals_row_selected; auto).
  split; [|split].
  - intros t. unfold total_counts_df. rewrite filter_In. split.
    + intros [Hin E]. split; [assumption|]. now apply Hsel.
    + intros [Hin E]. split; [assumption|]. now apply Hsel.
  - intros Hnone. unfold headline, total_counts_df.
    rewrite filter_none; [reflexivity|].
    intros t Ht. apply not_true_is_false. intros E.
    apply (Hnone t Ht). now apply Hsel.
  - intros before t after -> Hbefore Ht.
    assert (Hfirst : total_counts_df (saved_path directory d)
                                     (before ++ t :: after)
                     = t :: total_counts_df (saved_path directory d) after).
    { unfold total_counts_df. apply filter_first.
      - intros x Hx. apply not_true_is_false. intros E.
        apply (Hbefore x Hx). apply Hsel; [|assumption].
        apply in_or_app; now left.
      - apply Hsel; [|assumption]. apply in_or_app; right; now left. }
    split.
    + intros a r x y Ha Hr Hx Hy. unfold headline.
      rewrite Hfirst, Ha, Hr, Hx, Hy. reflexivity.
    + intros Hnan _. unfold headline. rewrite Hfirst.
      simpl in Hnan.
      destruct (Totals.Active t) as [s| |]; simpl;
        try reflexivity.
      destruct (Totals.Deaths t) as [s| |]; simpl;
        try reflexivity.
      destruct (Totals.Recoveries t) as [s| |]; simpl;
        try reflexivity.
      destruct (Totals.Total t) as [s| |]; simpl;
        try reflexivity.
      repeat (destruct Hnan as [Hnan|Hnan]; [discriminate|]).
      contradiction.
Qed.

(** ** Map Renderer: the annotations of the five subdivisions *)

Section AnnotationFacts.

Variable Geometry : Type.
Variable Point : Type.
Variable floatify : string -> option (option Z).
Variable read_file : string -> result (list (Feature Geometry)).
Variable representative_point : Geometry -> list Point.

(** The rows a boundary row has in the joined frame. *)
Lemma rows_named_block (name : string) (q : QcRow Geometry Point)
      (ms : list CaseRow) :
  rows_named name
    match ms with
    | [] => [unmatched q]
    | m :: l => map (matched q) (m :: l)
    end
  = if String.eqb (qc_Barangay q) name
    then match ms with
         | [] => [unmatched q]
         | m :: l => map (matched q) (m :: l)
         end
    else [].
Proof.
  unfold rows_named.
  destruct ms as [|m ms];
    [simpl; unfold joined_name; simpl; now destruct (String.eqb _ _)|].
  generalize (m :: ms). intros l.
  induction l as [|x l IH]; simpl.
  - now destruct (String.eqb _ _).
  - unfold joined_name at 1. simpl.
    destruct (String.eqb (qc_Barangay q) name) eqn:E; now rewrite IH.
Qed.

Lemma rows_named_merge (name : string) (qs : list (QcRow Geometry Point))
      (cs : list CaseRow) :
  rows_named name (merge_left qs cs)
  = merge_left (filter (fun q => String.eqb (qc_Barangay q) name) qs) cs.
Proof.
  unfold merge_left. induction qs as [|q qs IH]; [reflexivity|].
  cbn [flat_map filter]. unfold rows_named in *. rewrite filter_app, IH.
  pose proof (rows_named_block name q
                (filter (key_match (qc_Barangay q)) cs)) as Hb.
  unfold rows_named in Hb. rewrite Hb.
  destruct (String.eqb (qc_Barangay q) name); reflexivity.
Qed.

(** The boundary rows of a name are the filtered features of that name. *)
Lemma qc_rows_named (name : string) (fs : list (Feature Geometry))
      (qs : list (QcRow Geometry Point)) :
  qc_rows representative_point fs = Ok qs ->
  map boundary (filter (fun q => String.eqb (qc_Barangay q) name) qs)
  = filter (fun f => String.eqb (boundary_name f) name) fs
  /\ forall q, In q (filter (fun q => String.eqb (qc_Barangay q) name) qs) ->
               qc_Barangay q = name.
Proof.
  intros H. apply qc_rows_inv in H as [Hmap Hname]. split.
  - rewrite <- Hmap, filter_map_swap. f_equal.
    apply filter_ext_in. intros q Hq. now rewrite (Hname q Hq).
  - intros q Hq. apply filter_In in Hq as [_ E]. now apply String.eqb_eq.
Qed.

Lemma sum_app (a b : list Z) :
  fold_right Z.add 0 (a ++ b) = fold_right Z.add 0 a + fold_right Z.add 0 b.
Proof. induction a as [|x a IH]; simpl; [reflexivity|]. rewrite IH. lia. Qed.

(** The sum of a count over the rows of one boundary row. *)
Lemma block_sum (c : count_column) (q : QcRow Geometry Point)
      (rs : list CaseRow) :
  fold_right Z.add 0
    (map (fun j => summand (joined_count c j))
         match map (clean floatify) rs with
         | [] => [unmatched q]
         | m :: l => map (matched q) (m :: l)
         end)
  = fold_right Z.add 0
      (map (fun r => summand (coerced floatify (get_count c r))) rs).
Proof.
  destruct rs as [|r rs]; [now destruct c|].
  change (map (clean floatify) (r :: rs))
    with (clean floatify r :: map (clean floatify) rs).
  cbv iota.
  change (clean floatify r :: map (clean floatify) rs)
    with (map (clean floatify) (r :: rs)).
  generalize (r :: rs). intros l.
  induction l as [|x l IH]; simpl; [reflexivity|].
  now rewrite joined_count_matched, IH.
Qed.

(** X16. The numbers [create_map] annotates Fairview, Batasan Hills, Holy
    Spirit and Pasong Tamo with are sums: on the frame [preprocess]
    returns for a report whose counts are whole numbers float64 holds
    exactly, the sum of a count over the rows of a name is the sum of that
    count over the case records whose normalized name it is (missing
    counts as zero), once for every filtered feature of the boundary file
    bearing the name, as long as that total is itself held exactly.  It
    is zero for a name that is not reported or not in the boundary
    file. *)
Theorem barangay_sum_of_preprocess
  (covid_data : list CaseRow) (location : string)
  (map_df : list (Feature Geometry)) (df : list (JoinedRow Geometry Point))
  (name : string) (c : count_column) :
  read_file location = Ok map_df ->
  preprocess floatify read_file representative_point covid_data location
    = Ok df ->
  (forall r, In r covid_data -> exact_count floatify (get_count c r) = true) ->
  Z.of_nat
    (List.length (filter (fun f => String.eqb (boundary_name f) name)
                         (filter in_quezon_city map_df)))
  * fold_right Z.add 0
      (map (fun r => summand (coerced floatify (get_count c r)))
           (reports_of name covid_data))
  <= 2 ^ 53 ->
  barangay_sum name c df
  = Z.of_nat
      (List.length (filter (fun f => String.eqb (boundary_name f) name)
                           (filter in_quezon_city map_df)))
    * fold_right Z.add 0
        (map (fun r => summand (coerced floatify (get_count c r)))
             (reports_of name covid_data)).
Proof.
  intros Hr Hpre _ _.
  apply preprocess_ok_inv in Hpre as (_ & map_df' & qs & Hr' & Hqs & ->).
  rewrite Hr in Hr'. injection Hr' as <-.
  destruct (qc_rows_named name _ _ Hqs) as [Hmap Hname].
  unfold barangay_sum. rewrite rows_named_merge.
  rewrite <- Hmap, length_map.
  revert Hname.
  generalize (filter (fun q : QcRow Geometry Point =>
                        String.eqb (qc_Barangay q) name) qs).
  intros l Hname. unfold merge_left.
  induction l as [|q l IH]; [reflexivity|].
  cbn [flat_map]. rewrite map_app, sum_app, IH
    by (intros; apply Hname; now right).
  rewrite (Hname q (or_introl eq_refl)), matches_of_clean, block_sum.
  cbn [List.length]. lia.
Qed.

(** X17. The numbers [create_map] annotates Commonwealth with are first
    values, and the expression can fail: on the frame [preprocess]
    returns for a report whose counts are whole numbers float64 holds
    exactly, it raises [IndexError] when no filtered feature of the
    boundary file bears the name (Commonwealth, or Constitution Hills,
    which the boundary side renames), as when the filter leaves no feature
    at all; it raises [ValueError] when the name is on the boundary side
    and no case record bears it, the count being missing; otherwise it is
    the count of the first case record of that name, zero for a missing
    count. *)
Theorem first_value_of_preprocess
  (covid_data : list CaseRow) (location : string)
  (map_df : list (Feature Geometry)) (df : list (JoinedRow Geometry Point))
  (name : string) (c : count_column) :
  read_file location = Ok map_df ->
  preprocess floatify read_file representative_point covid_data location
    = Ok df ->
  (forall r, In r covid_data -> exact_count floatify (get_count c r) = true) ->
  first_value name c df
  = match filter (fun f => String.eqb (boundary_name f) name)
                 (filter in_quezon_city map_df) with
    | [] => Raise IndexError
    | _ :: _ =>
        match reports_of name covid_data with
        | [] => Raise ValueError
        | r :: _ => Ok (summand (coerced floatify (get_count c r)))
        end
    end.
Proof.
  intros Hr Hpre _.
  apply preprocess_ok_inv in Hpre as (Hp & map_df' & qs & Hr' & Hqs & ->).
  rewrite Hr in Hr'. injection Hr' as <-.
  destruct (qc_rows_named name _ _ Hqs) as [Hmap Hname].
  unfold first_value. rewrite rows_named_merge, <- Hmap.
  destruct (filter (fun q : QcRow Geometry Point =>
                      String.eqb (qc_Barangay q) name) qs) as [|q l];
    [reflexivity|].
  specialize (Hname q (or_introl eq_refl)).
  unfold merge_left. cbn [flat_map map].
  rewrite Hname, matches_of_clean.
  assert (Hin : forall r, In r (reports_of name covid_data) ->
                          In r covid_data)
    by (intros r Hin; unfold reports_of in Hin;
        now apply filter_In in Hin as [Hin _]).
  destruct (reports_of name covid_data) as [|r rs]; [now destruct c|].
  cbn [map app]. rewrite joined_count_matched.
  rewrite forallb_forall in Hp. specialize (Hp r (Hin r (or_introl eq_refl))).
  unfold counts_parse in Hp. rewrite forallb_forall in Hp.
  destruct (coerced_number floatify _ (Hp c (in_features c))) as [z ->].
  reflexivity.
Qed.

End AnnotationFacts.


(** ** Batch Driver: exceptions and the order of the days *)

Section BatchMore.

Variable Geometry : Type.
Variable Point : Type.
Variable read_pdf : string -> result (list DataFrame).
Variable floatify : string -> option (option Z).
Variable read_file : string -> result (list (Feature Geometry)).
Variable representative_point : Geometry -> list Point.
Variable create_map :
  list (JoinedRow Geometry Point) -> string -> result unit.
Variable data_dir : string.
Variable shapefiles_location : string.

Abbreviation run_day := (process_day read_pdf floatify read_file representative_point
                             create_map shapefiles_location).
Abbreviation files_run := (process_files read_pdf floatify read_file
                                     representative_point create_map
                                     shapefiles_location).
Abbreviation passes := (day_passes read_pdf floatify read_file
                               representative_point create_map
                               shapefiles_location).
Abbreviation made := (day_is_made read_pdf floatify read_file
                              representative_point create_map
                              shapefiles_location).
Abbreviation batch := (batch_process read_pdf floatify read_file
                                 representative_point create_map data_dir
                                 shapefiles_location).

(** The two loops of the driver are one loop over the expected files. *)
Lemma process_days_files (month_ : string) (days : list Z) :
  process_days read_pdf floatify read_file representative_point create_map
               data_dir shapefiles_location month_ days
  = files_run (map (downloaded_file data_dir month_) days).
Proof.
  induction days as [|d days IH]; simpl; [reflexivity|]. now rewrite IH.
Qed.

Lemma process_files_app (a b : list string) :
  files_run (a ++ b)
  = match files_run a with
    | (done, Ok _) => let (later, r) := files_run b in (done ++ later, r)
    | (done, Raise e) => (done, Raise e)
    end.
Proof.
  induction a as [|file a IH]; simpl.
  - now destruct (files_run b).
  - destruct run_day as [u|e].
    + rewrite IH. destruct (files_run a) as [done [u'|e]];
        [now destruct (files_run b)|reflexivity].
    + destruct e; try reflexivity. exact IH.
Qed.

Lemma batch_process_files (dt : list (string * Z)) :
  batch dt = files_run (expected_files data_dir dt).
Proof.
  induction dt as [|[month_ n] rest IH]; [reflexivity|].
  cbn [batch_process fst snd]. unfold expected_files. cbn [flat_map fst snd].
  rewrite process_files_app, process_days_files, IH. reflexivity.
Qed.

Lemma process_files_all_pass (files : list string) :
  forallb passes files = true ->
  files_run files = (filter made files, Ok tt).
Proof.
  induction files as [|file files IH]; simpl; [reflexivity|].
  unfold day_passes, day_is_made. intros H.
  apply andb_true_iff in H as [Hf Hrest]. rewrite (IH Hrest).
  destruct run_day as [u|e]; [reflexivity|].
  destruct e; try discriminate. reflexivity.
Qed.

Lemma process_files_stop (before : list string) (file : string)
      (after : list string) (e : exn) :
  forallb passes before = true ->
  run_day file = Raise e -> e <> FileNotFoundError ->
  files_run (before ++ file :: after) = (filter made before, Raise e).
Proof.
  intros Hb He Hne. rewrite process_files_app, (process_files_all_pass _ Hb).
  simpl. rewrite He. destruct e; try congruence; now rewrite app_nil_r.
Qed.

Lemma process_files_end (files : list string) :
  snd (files_run files) = Ok tt <-> forallb passes files = true.
Proof.
  split.
  - induction files as [|file files IH]; simpl; [reflexivity|].
    unfold day_passes. destruct run_day as [u|e].
    + destruct (files_run files) as [done r]. exact IH.
    + destruct e; simpl; try discriminate. exact IH.
  - intros H. now rewrite (process_files_all_pass _ H).
Qed.

Lemma process_files_never_missing (files : list string) :
  snd (files_run files) <> Raise FileNotFoundError.
Proof.
  induction files as [|file files IH]; simpl; [discriminate|].
  destruct run_day as [u|e] eqn:E.
  - destruct (files_run files) as [done r]. exact IH.
  - destruct e; simpl; try discriminate. exact IH.
Qed.

Lemma process_files_made (files : list string) :
  incl (fst (files_run files)) (filter made files).
Proof.
  induction files as [|file files IH]; simpl; [apply incl_refl|].
  unfold day_is_made. destruct run_day as [u|e]; simpl.
  - destruct (files_run files) as [done r]. simpl in *.
    intros x [<-|Hx]; [now left|right; now apply IH].
  - destruct e; simpl; try (intros x []). exact IH.
Qed.

(** X18. [batch_process] returns normally exactly when no expected file
    ends its day with an exception other than [FileNotFoundError]; the
    maps made are then those of the expected files whose day ended without
    any exception, in the order of the two loops.  Whatever the files, the
    exception that leaves the driver is never [FileNotFoundError]. *)
Theorem batch_process_returns_iff (dt : list (string * Z)) :
  (snd (batch dt) = Ok tt
   <-> forallb passes (expected_files data_dir dt) = true)
  /\ (snd (batch dt) = Ok tt ->
      fst (batch dt) = filter made (expected_files data_dir dt))
  /\ snd (batch dt) <> Raise FileNotFoundError.
Proof.
  rewrite batch_process_files. split; [|split].
  - apply process_files_end.
  - intros H. apply process_files_end in H.
    now rewrite (process_files_all_pass _ H).
  - apply process_files_never_missing.
Qed.

(** X19. An exception other than [FileNotFoundError] ends the whole batch
    at the first expected file that raises it: the maps of the earlier
    files stay made, the exception leaves the driver, and no later file,
    of this month or of a later one, is looked for. *)
Theorem batch_process_stops_at_first_error
  (dt : list (string * Z)) (before : list string) (file : string)
  (after : list string) (e : exn) :
  expected_files data_dir dt = before ++ file :: after ->
  forallb passes before = true ->
  run_day file = Raise e -> e <> FileNotFoundError ->
  batch dt = (filter made before, Raise e)
  /\ forall dt' after',
       expected_files data_dir dt' = before ++ file :: after' ->
       batch dt' = batch dt.
Proof.
  intros Hfiles Hb He Hne. rewrite batch_process_files, Hfiles.
  rewrite (process_files_stop before file after e Hb He Hne).
  split; [reflexivity|].
  intros dt' after' Hfiles'. rewrite batch_process_files, Hfiles'.
  apply (process_files_stop before file after' e Hb He Hne).
Qed.

Lemma process_files_bound (files : list string) :
  (List.length (fst (files_run files)) <= List.length files)%nat.
Proof.
  induction files as [|file files IH]; simpl; [lia|].
  destruct run_day as [u|e].
  - destruct (files_run files) as [done r]. simpl in *. lia.
  - destruct e; simpl; try lia; exact (Nat.le_trans _ _ _ IH (Nat.le_succ_diag_r _)).
Qed.

(** The files the two loops build, with their names written out. *)
Lemma expected_files_spec (dt : list (string * Z)) (file : string) :
  In file (expected_files data_dir dt)
  <-> exists month_ n day_,
        In (month_, n) dt /\ 1 <= day_ <= n
        /\ file = (data_dir ++ "/" ++ month_
                     ++ (if (day_ <? 10)%Z then "-0" else "-")
                     ++ str_int day_ ++ "-2021-Cases.pdf")%string.
Proof.
  assert (Hname : forall month_ day_,
            downloaded_file data_dir month_ day_
            = (data_dir ++ "/" ++ month_
                 ++ (if (day_ <? 10)%Z then "-0" else "-")
                 ++ str_int day_ ++ "-2021-Cases.pdf")%string).
  { intros month_ day_. unfold downloaded_file.
    now destruct (day_ <? 10). }
  unfold expected_files. rewrite in_flat_map. split.
  - intros ([month_ n] & Hr & Hf). simpl in Hf.
    apply in_map_iff in Hf as (day_ & <- & Hd).
    unfold range_from_1 in Hd. apply in_map_iff in Hd as (k & <- & Hk).
    apply in_seq in Hk. exists month_, n, (Z.of_nat k).
    split; [assumption|]. split; [lia|apply Hname].
  - intros (month_ & n & day_ & Hr & Hd & ->).
    exists (month_, n). split; [assumption|]. cbn [fst snd].
    rewrite <- Hname. apply in_map. unfold range_from_1.
    now apply in_range_1.
Qed.

(** The day of a file ends without an exception exactly when the three
    steps return. *)
Lemma process_day_ok (file : string) :
  run_day file = Ok tt
  <-> exists tables frame df,
        read_pdf file = Ok tables
        /\ extract_tables tables = Ok frame
        /\ preprocess_frame floatify read_file representative_point frame
                            shapefiles_location = Ok df
        /\ create_map df file = Ok tt.
Proof.
  unfold process_day, extract_table. split.
  - destruct (read_pdf file) as [tables|e]; [|discriminate]. simpl.
    destruct (extract_tables tables) as [frame|e] eqn:Hx; [|discriminate].
    simpl.
    destruct (preprocess_frame _ _ _ frame _) as [df|e] eqn:Hp;
      [|discriminate].
    simpl. intros H. exists tables, frame, df. auto.
  - intros (tables & frame & df & -> & Hx & Hp & Hc). simpl.
    rewrite Hx. simpl. rewrite Hp. simpl. exact Hc.
Qed.

(** C7 (amended). The driver goes through the days 1 .. day-count of each
    range, the file of a day being [data_dir/month-DD-2021-Cases.pdf].  A day
    that ends with [FileNotFoundError], as the day of a file that does not
    exist does, is skipped and the loop goes on.  When no day ends with
    another exception the driver returns normally, and the maps it has
    made are exactly those of the days of the ranges whose file was read,
    whose tables were extracted and preprocessed and whose map was drawn,
    each step without an exception. *)
Theorem batch_skips_missing_files (dt : list (string * Z)) :
  (forall month_ n day_ e,
     In (month_, n) dt -> 1 <= day_ <= n ->
     run_day (data_dir ++ "/" ++ month_
                ++ (if (day_ <? 10)%Z then "-0" else "-")
                ++ str_int day_ ++ "-2021-Cases.pdf")%string = Raise e ->
     e = FileNotFoundError) ->
  exists done,
    batch dt = (done, Ok tt)
    /\ (forall file,
          In file done
          <-> exists month_ n day_,
                In (month_, n) dt /\ 1 <= day_ <= n
                /\ file = (data_dir ++ "/" ++ month_
                             ++ (if (day_ <? 10)%Z then "-0" else "-")
                             ++ str_int day_ ++ "-2021-Cases.pdf")%string
                /\ exists tables frame df,
                     read_pdf file = Ok tables
                     /\ extract_tables tables = Ok frame
                     /\ preprocess_frame floatify read_file
                                         representative_point frame
                                         shapefiles_location = Ok df
                     /\ create_map df file = Ok tt)
    /\ (forall file,
          read_pdf file = Raise FileNotFoundError -> ~ In file done).
Proof.
  intros Hpass.
  assert (Hall : forallb passes (expected_files data_dir dt) = true).
  { apply forallb_forall. intros file Hin.
    apply expected_files_spec in Hin as (month_ & n & day_ & Hr & Hd & ->).
    unfold day_passes.
    destruct run_day as [u|e] eqn:E; [reflexivity|].
    now rewrite (Hpass _ _ _ _ Hr Hd E). }
  exists (filter made (expected_files data_dir dt)).
  split; [rewrite batch_process_files; now apply process_files_all_pass|].
  assert (Hmade : forall file, made file = true <-> run_day file = Ok tt).
  { intros file. unfold day_is_made. destruct run_day as [[]|e]; simpl;
      split; intros H; try reflexivity; discriminate. }
  split.
  - intros file. rewrite filter_In, expected_files_spec, Hmade,
      process_day_ok. split.
    + intros ((month_ & n & day_ & Hr & Hd & E) & Hsteps).
      exists month_, n, day_. auto.
    + intros (month_ & n & day_ & Hr & Hd & E & Hsteps). split; [|assumption].
      exists month_, n, day_. auto.
  - intros file Hmiss Hin. apply filter_In in Hin as [_ Hin].
    apply Hmade, process_day_ok in Hin as (tables & _ & _ & Hread & _).
    congruence.
Qed.

(** The days 1 .. n with one of them singled out. *)
Lemma range_from_1_split (n k : Z) :
  1 <= k <= n ->
  exists after,
    range_from_1 n = range_from_1 (k - 1) ++ k :: after.
Proof.
  intros H. unfold range_from_1.
  replace (Z.to_nat n)
    with ((Z.to_nat (k - 1)) + S (Z.to_nat (n - k)))%nat by lia.
  rewrite seq_app, map_app. cbn [seq map].
  replace (Z.of_nat (1 + Z.to_nat (k - 1))) with k by lia. eauto.
Qed.

Lemma process_day_no_boundary (file : string) (e : exn)
      (tables : list DataFrame) (frame : DataFrame) :
  read_file shapefiles_location = Raise e ->
  read_pdf file = Ok tables -> extract_tables tables = Ok frame ->
  (forall c, is_ok (numeric_column floatify frame c) = true) ->
  run_day file = Raise e.
Proof.
  intros Hr Hread Hx Hnum. unfold process_day, extract_table.
  rewrite Hread. simpl. rewrite Hx. simpl. unfold preprocess_frame.
  pose proof (Hnum ColActive) as Ha. pose proof (Hnum ColDied) as Hd.
  pose proof (Hnum ColRecovered) as Hrc. pose proof (Hnum ColTotal) as Ht.
  destruct (numeric_column floatify frame ColActive); [|discriminate].
  destruct (numeric_column floatify frame ColDied); [|discriminate].
  destruct (numeric_column floatify frame ColRecovered); [|discriminate].
  destruct (numeric_column floatify frame ColTotal); [|discriminate].
  simpl. now rewrite Hr.
Qed.

Lemma process_day_not_made (file : string) (e : exn) :
  read_file shapefiles_location = Raise e -> made file = false.
Proof.
  intros Hr. unfold day_is_made, process_day.
  destruct (extract_table read_pdf file) as [df|e']; [|reflexivity].
  simpl. unfold preprocess_frame.
  destruct (numeric_column floatify df ColActive); [|reflexivity].
  destruct (numeric_column floatify df ColDied); [|reflexivity].
  destruct (numeric_column floatify df ColRecovered); [|reflexivity].
  destruct (numeric_column floatify df ColTotal); [|reflexivity].
  simpl. now rewrite Hr.
Qed.

(** X20. A boundary file that cannot be read leaves no map: whatever the
    exception of its reader, no map is made.  When the exception is not
    [FileNotFoundError] (the reader of a missing boundary file raises its
    own [DataSourceError]), the batch ends with it at the first day of the
    first range whose report is read into a frame with the four count
    columns, all numbers, the days before it having no report. *)
Theorem batch_process_without_boundary_file
  (dt : list (string * Z)) (e : exn) :
  read_file shapefiles_location = Raise e ->
  fst (batch dt) = []
  /\ (e <> FileNotFoundError ->
      forall month_ n rest day_ tables frame,
        dt = (month_, n) :: rest -> 1 <= day_ <= n ->
        (forall k, 1 <= k < day_ ->
           read_pdf (downloaded_file data_dir month_ k)
           = Raise FileNotFoundError) ->
        read_pdf (downloaded_file data_dir month_ day_) = Ok tables ->
        extract_tables tables = Ok frame ->
        (forall c, is_ok (numeric_column floatify frame c) = true) ->
        batch dt = ([], Raise e)).
Proof.
  intros Hr.
  assert (Hnone : forall files, filter made files = []).
  { intros files. apply filter_none. intros file _.
    now apply (process_day_not_made file e). }
  split.
  - rewrite batch_process_files.
    pose proof (process_files_made (expected_files data_dir dt)) as H.
    rewrite Hnone in H. now apply incl_l_nil in H.
  - intros Hne month_ n rest day_ tables frame -> Hd Hmiss Hread Hx Hnum.
    rewrite batch_process_files. unfold expected_files. cbn [flat_map fst snd].
    destruct (range_from_1_split n day_ Hd) as (after & ->).
    rewrite map_app, <- app_assoc. cbn [map app].
    rewrite (process_files_stop _ _ _ e); [now rewrite Hnone| |
      now apply (process_day_no_boundary _ e tables frame)|assumption].
    apply forallb_forall. intros file Hin.
    apply in_map_iff in Hin as (k & <- & Hk).
    unfold range_from_1 in Hk. apply in_map_iff in Hk as (i & <- & Hi).
    apply in_seq in Hi. unfold day_passes, process_day, extract_table.
    rewrite Hmiss by lia. reflexivity.
Qed.

(** X21. Whatever the outcome of [batch_process], every map it has made is
    the map of a file [data_dir/month-DD-2021-Cases.pdf] for a day from 1
    to the day count of a range, a day that ended without an exception;
    it makes at most one map per such day, and none for a range whose day
    count is not positive. *)
Theorem batch_process_days (dt : list (string * Z)) :
  (forall file,
     In file (fst (batch dt)) ->
     exists month_ n day_,
       In (month_, n) dt /\ 1 <= day_ <= n
       /\ file = (data_dir ++ "/" ++ month_
                    ++ (if (day_ <? 10)%Z then "-0" else "-")
                    ++ str_int day_ ++ "-2021-Cases.pdf")%string
       /\ run_day file = Ok tt)
  /\ (List.length (fst (batch dt))
      <= list_sum (map (fun date_range => Z.to_nat (snd date_range)) dt))%nat
  /\ ((forall month_ n, In (month_, n) dt -> n <= 0) ->
      batch dt = ([], Ok tt)).
Proof.
  rewrite batch_process_files. split; [|split].
  - intros file Hin. apply process_files_made, filter_In in Hin as [Hin Hm].
    apply expected_files_spec in Hin as (month_ & n & day_ & Hr & Hd & E).
    exists month_, n, day_. repeat (split; [assumption|]).
    unfold day_is_made in Hm. now destruct run_day as [[]|e'].
  - eapply Nat.le_trans; [apply process_files_bound|].
    unfold expected_files. rewrite flat_map_length_sum.
    apply Nat.eq_le_incl. f_equal. apply map_ext. intros [month_ n]. simpl.
    unfold range_from_1. now rewrite !length_map, length_seq.
  - intros Hn.
    destruct (expected_files data_dir dt) as [|file files] eqn:E;
      [reflexivity|].
    assert (Hin : In file (expected_files data_dir dt))
      by (rewrite E; now left).
    apply expected_files_spec in Hin as (month_ & n & day_ & Hr & Hd & _).
    specialize (Hn _ _ Hr). lia.
Qed.

End BatchMore.

(** ** Runs on the sample inputs *)

(** *** Table Extractor *)

(** The extractor on the two-page report: the three rows between the
    header and the footer of each page, under the five labels. *)
Lemma extract_table_data_rows_witness :
  exists df,
    extract_table Sample.read_pdf "data/January-01-2021-Cases.pdf" = Ok df
    /\ columns df = [Str "Barangay"; Str "Active"; Str "Died";
                     Str "Recovered"; Str "Total"]
    /\ cells_under (Str "Barangay") (columns df) (rows df)
       = [Str "Bagumbayan"; Str "Pasong Putik"; Str "Nowhere"]
    /\ (List.length (rows df) + 2 * 2 = 4 + 3)%nat.
Proof.
  destruct (extract_table_data_rows Sample.read_pdf
              "data/January-01-2021-Cases.pdf"
              [Sample.page_1; Sample.page_2] eq_refl)
    as (df & Hdf & _ & _ & _ & Hcells & _ & Hlen).
  - discriminate.
  - intros t [<-|[<-|[]]]; discriminate.
  - intros t [<-|[<-|[]]]; reflexivity.
  - exists df. split; [exact Hdf|].
    assert (Hcols : columns df = [Str "Barangay"; Str "Active"; Str "Died";
                                  Str "Recovered"; Str "Total"])
      by (vm_compute in Hdf; now injection Hdf as <-).
    split; [exact Hcols|]. split.
    + apply Hcells. rewrite Hcols. now left.
    + apply Hlen. intros t [<-|[<-|[]]]; simpl; lia.
Defined.

(** A page with a header only between the two pages: eight rows in three
    tables, and three data rows, not 8 - 2 * 3. *)
Lemma header_only_page_counts_for_none :
  exists df,
    extract_table Trial.read_pdf "data/short.pdf" = Ok df
    /\ List.length (rows df) = 3%nat
    /\ (list_sum (map (fun t => List.length (rows t))
                      [Sample.page_1; Trial.header_only; Sample.page_2])
        - 2 * 3 = 2)%nat
    /\ extract_table Trial.read_pdf "data/January-03-2021-Cases.pdf"
       = Raise ValueError.
Proof.
  eexists. split; [reflexivity|]. repeat split.
Qed.

Lemma extract_table_short_tables_witness :
  exists df,
    extract_table Trial.read_pdf "data/short.pdf" = Ok df
    /\ In (Str "Died") (columns df)
    /\ List.length (rows df) = 3%nat.
Proof.
  destruct (extract_table_short_tables Trial.read_pdf "data/short.pdf"
              [Sample.page_1; Trial.header_only; Sample.page_2] eq_refl)
    as (df & Hdf & Hcols & Hlen & _).
  - discriminate.
  - intros t [<-|[<-|[<-|[]]]]; discriminate.
  - intros t [<-|[<-|[<-|[]]]]; reflexivity.
  - exists df. split; [exact Hdf|]. split; [|exact Hlen].
    apply (Hcols Trial.header_only); [right; left; reflexivity|].
    right; right; left; reflexivity.
Defined.

Lemma extract_table_keeps_columns_witness :
  exists df,
    extract_table Trial.read_pdf "data/short.pdf" = Ok df
    /\ cells_under (Str "Active") (columns df) (rows df)
       = [Str "12"; Str "7"; Str "2"].
Proof.
  destruct (extract_table_keeps_columns Trial.read_pdf "data/short.pdf"
              [Sample.page_1; Trial.header_only; Sample.page_2] eq_refl)
    as (df & Hdf & Hcells).
  - discriminate.
  - intros t [<-|[<-|[<-|[]]]]; discriminate.
  - intros t [<-|[<-|[<-|[]]]]; reflexivity.
  - exists df. split; [exact Hdf|]. apply Hcells.
    vm_compute in Hdf. injection Hdf as <-. right; left; reflexivity.
Defined.

Lemma extract_table_same_header_witness :
  extract_table Sample.read_pdf "data/January-01-2021-Cases.pdf"
  = Ok {| columns := [Str "Barangay"; Str "Active"; Str "Died";
                      Str "Recovered"; Str "Total"];
          rows := [ [Str "Bagumbayan"; Str "12"; Str "1"; Str "30";
                     Str "43"];
                    [Str "Pasong Putik"; Str "7"; NaN; Str "9"; Str "16"];
                    [Str "Nowhere"; Str "2"; Str "0"; Str "5"; Str "7"] ] |}.
Proof.
  apply (extract_table_same_header Sample.read_pdf
           "data/January-01-2021-Cases.pdf"
           [Sample.page_1; Sample.page_2]
           [Str "Barangay"; Str "Active"; Str "Died"; Str "Recovered";
            Str "Total"] eq_refl).
  - discriminate.
  - intros t [<-|[<-|[]]]; eexists; reflexivity.
Defined.

(** *** Preprocessor *)

(** Fairview is the name of two features of the boundary file: reported
    once it has two rows, and a second report adds two more. *)
Lemma preprocess_row_count_witness :
  exists df df',
    preprocess Sample.floatify Trial.read_twin Sample.representative_point
               [Trial.fairview; Trial.fairview] "shapefiles/twin.shp" = Ok df
    /\ preprocess Sample.floatify Trial.read_twin
                  Sample.representative_point
                  [Trial.fairview] "shapefiles/twin.shp" = Ok df'
    /\ List.length df' = 3%nat
    /\ List.length df = (List.length df' + 2)%nat.
Proof.
  destruct (preprocess_row_count unit (Z * Z) Sample.floatify Trial.read_twin
              Sample.representative_point [Trial.fairview; Trial.fairview]
              "shapefiles/twin.shp" Trial.twin_shp eq_refl eq_refl)
    as (df & Hdf & _ & _ & Hmore).
  - intros f [<-|[<-|[<-|[]]]] _; reflexivity.
  - exists df. eexists. split; [exact Hdf|]. split; [reflexivity|].
    split; [reflexivity|].
    apply (Hmore [Trial.fairview] Trial.fairview [] "Fairview");
      try reflexivity.
    discriminate.
Defined.

(** One subdivision on two rows of the report: four rows for three boundary
    subdivisions. *)
Lemma duplicate_report_adds_row :
  exists df,
    Sample.run_preprocess Sample.report_with_duplicate "shapefiles/qc.shp"
      = Ok df
    /\ List.length df = 4%nat
    /\ List.length (filter in_quezon_city Sample.qc_shp) = 3%nat.
Proof.
  eexists. split; [reflexivity|]. split; reflexivity.
Qed.

(** The count "abc" is no number, and the call raises. *)
Lemma unparsable_count_raises_witness :
  Sample.run_preprocess Sample.report_with_token "shapefiles/qc.shp"
  = Raise ValueError.
Proof.
  exact (proj1 (unparsable_count_raises unit (Z * Z) Sample.floatify
                  Sample.read_file Sample.representative_point
                  Sample.report_with_token "shapefiles/qc.shp")
               _ ColActive "abc" (or_introl eq_refl) eq_refl eq_refl).
Defined.

Lemma non_numeric_token_is_an_error :
  to_numeric Sample.floatify (Str "abc") = Raise ValueError
  /\ Sample.run_preprocess
       [Sample.case_row "Bagumbayan" (Str "12") (Str "abc") (Str "30")
                        (Str "43")]
       "shapefiles/qc.shp"
     = Raise ValueError.
Proof. split; reflexivity. Qed.



(** The record of "Nowhere" changes nothing, placed after the first record
    of the report. *)
Lemma unmatched_report_dropped_witness :
  Sample.run_preprocess Sample.report "shapefiles/qc.shp"
  = Sample.run_preprocess
      [ Sample.case_row "Bagumbayan" (Str "12") (Str "1") (Str "30")
                        (Str "43");
        Sample.case_row "Pasong Putik" (Str "7") NaN (Str "9") (Str "16") ]
      "shapefiles/qc.shp".
Proof.
  refine (proj1 (unmatched_report_dropped unit (Z * Z) Sample.floatify
                   Sample.read_file Sample.representative_point
                   [ Sample.case_row "Bagumbayan" (Str "12") (Str "1")
                                     (Str "30") (Str "43");
                     Sample.case_row "Pasong Putik" (Str "7") NaN (Str "9")
                                     (Str "16") ]
                   [] Sample.nowhere "shapefiles/qc.shp" Sample.qc_shp
                   eq_refl eq_refl _)).
  intros f [<-|[<-|[<-|[<-|[]]]]] _; discriminate.
Defined.

(** A boundary file without Quezon City: the empty frame. *)
Lemma empty_filter_gives_empty_frame_witness :
  Sample.run_preprocess Sample.report "shapefiles/other.shp" = Ok [].
Proof.
  exact (empty_filter_gives_empty_frame unit (Z * Z) Sample.floatify
           Sample.read_file Sample.representative_point Sample.report
           "shapefiles/other.shp" Sample.other_shp eq_refl eq_refl).
Defined.

Lemma empty_filter_is_no_error :
  filter in_quezon_city Sample.other_shp = []
  /\ Sample.run_preprocess Sample.report_with_duplicate
                           "shapefiles/other.shp" = Ok [].
Proof. split; reflexivity. Qed.


(** Bagumbayan on two rows of the report: two rows of the frame. *)
Lemma preprocess_rows_follow_boundary_witness :
  exists df,
    Sample.run_preprocess Sample.report_with_duplicate "shapefiles/qc.shp"
      = Ok df
    /\ map (fun j => boundary (qc j)) df
       = [ Sample.quezon_city "Bagumbayan"; Sample.quezon_city "Bagumbayan";
           Sample.quezon_city "Constitution Hills";
           Sample.quezon_city "Pasong Putik Proper" ].
Proof.
  eexists. split; [reflexivity|].
  exact (preprocess_rows_follow_boundary unit (Z * Z) Sample.floatify
           Sample.read_file Sample.representative_point
           Sample.report_with_duplicate "shapefiles/qc.shp" Sample.qc_shp _
           eq_refl eq_refl).
Defined.

(** Commonwealth is not reported: its row has no count. *)
Lemma count_missing_iff_unreported_witness :
  exists df j,
    Sample.run_preprocess Sample.report "shapefiles/qc.shp" = Ok df
    /\ nth_error df 1 = Some j
    /\ (joined_count ColActive j = NaN
        <-> reports_of (joined_name j) Sample.report = []).
Proof.
  eexists. eexists. split; [reflexivity|]. split; [reflexivity|].
  refine (proj1 (count_missing_iff_unreported unit (Z * Z) Sample.floatify
                   Sample.read_file Sample.representative_point
                   Sample.report "shapefiles/qc.shp" _ _ ColActive
                   eq_refl _)).
  right; left; reflexivity.
Defined.

(** *** Fetcher *)

(** Three days around the end of February 2021, the last of them on the
    server: three requests in order, two lines printed and one file
    written. *)
Lemma download_data_each_date_witness :
  download_data Sample.makedirs Sample.requests_get Sample.save
                (2021, 2, 27) (2021, 3, 1) "output"
  = ([ MakeDirs "output";
       Request "https://quezoncity.gov.ph/wp-content/uploads/2021/02/February-27-2021-Cases.pdf";
       PrintLine "No data extracted on February 27, 2021";
       Request "https://quezoncity.gov.ph/wp-content/uploads/2021/02/February-28-2021-Cases.pdf";
       PrintLine "No data extracted on February 28, 2021";
       Request "https://quezoncity.gov.ph/wp-content/uploads/2021/03/March-01-2021-Cases.pdf";
       WriteFile "output/March-01-2021-Cases.pdf" "%PDF" ],
     Returned).
Proof.
  destruct (download_data_each_date Sample.makedirs Sample.requests_get
              Sample.save "output" (2021, 2, 27) (2021, 3, 1) _ _
              eq_refl eq_refl eq_refl)
    as (days & Htr & _ & _ & _ & Hcases & _).
  destruct (Hcases Trial.mar_1) as (_ & Hwrite & _).
  destruct (Hwrite (mkResponse 200 "%PDF") eq_refl eq_refl) as [Hw _].
  specialize (Hw tt eq_refl). clear - Hw. vm_compute in Hw |- *.
  reflexivity.
Defined.

(** The server cannot be reached on 2 March: the run ends there, and
    3 March is neither requested nor reported. *)
Lemma failed_request_ends_the_run :
  download_data Sample.makedirs Trial.requests_get Sample.save
                (2021, 3, 1) (2021, 3, 3) "output"
  = ([ MakeDirs "output";
       Request "https://quezoncity.gov.ph/wp-content/uploads/2021/03/March-01-2021-Cases.pdf";
       WriteFile "output/March-01-2021-Cases.pdf" "%PDF";
       Request "https://quezoncity.gov.ph/wp-content/uploads/2021/03/March-02-2021-Cases.pdf" ],
     Raised (OtherError "ConnectionError")).
Proof. reflexivity. Qed.

(** The sample server answers every request, and the sample file system
    writes every file. *)
Lemma sample_fetch_returns (directory : string) (d : date) :
  snd (fetch Sample.requests_get Sample.save directory d) = Ok tt.
Proof.
  unfold fetch, Sample.requests_get.
  now destruct (String.eqb (url d) _).
Qed.

(** A range that ends on the last day of the calendar. *)
Lemma download_data_overflow_iff_witness :
  snd (download_data Sample.makedirs Sample.requests_get Sample.save
                     (9999, 12, 30) (9999, 12, 31) "data")
  = Raised OverflowError.
Proof.
  apply (proj1 (download_data_overflow_iff Sample.makedirs
                  Sample.requests_get Sample.save "data"
                  (9999, 12, 30) (9999, 12, 31) _ _ eq_refl eq_refl eq_refl
                  (fun d _ _ _ => sample_fetch_returns "data" d))).
  split; reflexivity.
Defined.

(** The report of 1 March is written, that of 2 March is not on the
    server. *)
Lemma download_data_effects_accounted_witness :
  exists d,
    valid d = true /\ date_leb Trial.mar_1 d = true
    /\ WriteFile "data/March-01-2021-Cases.pdf" "%PDF"
       = WriteFile (saved_path "data" d) "%PDF".
Proof.
  destruct (download_data_effects_accounted Sample.makedirs
              Sample.requests_get Sample.save "data"
              (2021, 3, 1) (2021, 3, 2) _ _
              (WriteFile "data/March-01-2021-Cases.pdf" "%PDF")
              eq_refl eq_refl)
    as [H|(d & Hv & Hs & _ & [H|[(r & _ & _ & H)|(r & _ & _ & H)]])].
  - right; right; left; reflexivity.
  - discriminate H.
  - discriminate H.
  - exists d. split; [exact Hv|]. split; [exact Hs|].
    apply (f_equal (fun eff => match eff with
                               | WriteFile path _ => path
                               | _ => EmptyString
                               end)) in H.
    cbv beta iota in H. now rewrite <- H.
  - discriminate H.
Defined.

Lemma saved_path_determines_date_witness : Trial.mar_1 = Trial.mar_1.
Proof.
  apply (saved_path_determines_date "data" Trial.mar_1 Trial.mar_1);
    [reflexivity|reflexivity|simpl; lia|simpl; lia|reflexivity].
Defined.

(** 5 January 2021: the driver's file is the fetcher's. *)
Lemma expected_file_is_fetched_file_witness :
  downloaded_file "data" "January" 5
  = saved_path "data" {| year := 2021; month := 1; day := 5 |}.
Proof.
  apply (expected_file_is_fetched_file "data"
           {| year := 2021; month := 1; day := 5 |} eq_refl).
  reflexivity.
Defined.

(** *** Map Renderer *)

Lemma create_map_reads_date_witness :
  date_words "data/January-05-2021-Cases.pdf" = ["January"; "05"; "2021"]
  /\ totals_key "data/January-05-2021-Cases.pdf" = "January 05 2021"
  /\ title_date "data/January-05-2021-Cases.pdf" = Ok "January 05, 2021"
  /\ figure_path "output" "data/January-05-2021-Cases.pdf"
     = "output/January-05-2021.png".
Proof.
  destruct (create_map_reads_date "data" "output" Trial.jan_5)
    as (Hw & Hk & _ & Ht & Hf); [reflexivity|simpl; lia|].
  repeat split; assumption.
Defined.

(** Two rows of the totals are dated 5 January: the first is read. *)
Lemma headline_from_first_row_of_date_witness :
  headline "data/January-05-2021-Cases.pdf" Trial.total_counts
  = Ok (975, 702, 24100, 25777).
Proof.
  destruct (headline_from_first_row_of_date "data" Trial.jan_5
              Trial.total_counts)
    as (_ & _ & H); [reflexivity|simpl; lia| |].
  - intros t [<-|[<-|[<-|[]]]]; reflexivity.
  - apply (H [Totals.mkRow Trial.jan_4 (Num 950) (Num 700) (Num 24000)
                           (Num 25650)]
             (Totals.mkRow Trial.jan_5 (Num 975) (Num 702) (Num 24100)
                           (Num 25777))
             [Totals.mkRow Trial.jan_5 (Num 0) (Num 0) (Num 0) (Num 0)]);
      try reflexivity.
    intros t' [<-|[]]. discriminate.
Defined.

(** Bagumbayan on two rows of the report: its counts are added. *)
Lemma barangay_sum_of_preprocess_witness :
  exists df,
    Sample.run_preprocess Sample.report_with_duplicate "shapefiles/qc.shp"
      = Ok df
    /\ barangay_sum "Bagumbayan" ColActive df = 24.
Proof.
  eexists. split; [reflexivity|].
  apply (barangay_sum_of_preprocess unit (Z * Z) Sample.floatify
           Sample.read_file Sample.representative_point
           Sample.report_with_duplicate "shapefiles/qc.shp" Sample.qc_shp _
           "Bagumbayan" ColActive eq_refl eq_refl).
  - intros r [<-|[<-|[<-|[<-|[]]]]]; reflexivity.
  - vm_compute. discriminate.
Defined.

(** The boundary file has Commonwealth (as Constitution Hills) and the
    report does not: the annotation fails. *)
Lemma first_value_of_preprocess_witness :
  exists df,
    Sample.run_preprocess Sample.report "shapefiles/qc.shp" = Ok df
    /\ first_value "Commonwealth" ColActive df = Raise ValueError.
Proof.
  eexists. split; [reflexivity|].
  apply (first_value_of_preprocess unit (Z * Z) Sample.floatify
           Sample.read_file Sample.representative_point
           Sample.report "shapefiles/qc.shp" Sample.qc_shp _
           "Commonwealth" ColActive eq_refl eq_refl).
  intros r [<-|[<-|[<-|[]]]]; reflexivity.
Defined.

(** *** Batch Driver *)

(** January 2021 with the fifth missing, asked for six days: the five maps
    of the other days are made. *)
Lemma batch_skips_missing_files_witness :
  Sample.run_batch [("January", 6)]
  = ([ "data/January-01-2021-Cases.pdf"; "data/January-02-2021-Cases.pdf";
       "data/January-03-2021-Cases.pdf"; "data/January-04-2021-Cases.pdf";
       "data/January-06-2021-Cases.pdf" ],
     Ok tt).
Proof.
  destruct (batch_skips_missing_files unit (Z * Z) Sample.read_pdf
              Sample.floatify Sample.read_file Sample.representative_point
              Sample.create_map "data" "shapefiles/qc.shp"
              [("January", 6)])
    as (done & Hb & _).
  - intros month_ n day_ e [[= <- <-]|[]] Hd Hr.
    assert (C : day_ = 1 \/ day_ = 2 \/ day_ = 3 \/ day_ = 4 \/ day_ = 5
                \/ day_ = 6) by lia.
    destruct C as [-> | [-> | [-> | [-> | [-> | ->]]]]]; vm_compute in Hr;
      first [discriminate Hr | now injection Hr as <-].
  - unfold Sample.run_batch. rewrite Hb. f_equal.
    apply (f_equal fst) in Hb. vm_compute in Hb. now symmetry.
Defined.

(** The days whose file exists are not all drawn: when the report of
    3 January holds no table the batch ends there with [ValueError],
    leaving the days 4 and 6 without a map; and when the renderer does not
    find the totals file, every day is skipped without a word. *)
Lemma existing_file_without_map :
  batch_process Trial.read_pdf Sample.floatify Sample.read_file
                Sample.representative_point Sample.create_map "data"
                "shapefiles/qc.shp" [("January", 6)]
  = ([ "data/January-01-2021-Cases.pdf"; "data/January-02-2021-Cases.pdf" ],
     Raise ValueError)
  /\ batch_process Sample.read_pdf Sample.floatify Sample.read_file
                   Sample.representative_point Trial.create_map "data"
                   "shapefiles/qc.shp" [("January", 6)]
     = ([], Ok tt)
  /\ filter Sample.file_exists (expected_files "data" [("January", 6)])
     = [ "data/January-01-2021-Cases.pdf"; "data/January-02-2021-Cases.pdf";
         "data/January-03-2021-Cases.pdf"; "data/January-04-2021-Cases.pdf";
         "data/January-06-2021-Cases.pdf" ].
Proof. repeat split. Qed.

(** The report of 3 January holds no table: the batch ends there, with the
    maps of the first two days. *)
Lemma batch_process_stops_at_first_error_witness :
  batch_process Trial.read_pdf Sample.floatify Sample.read_file
                Sample.representative_point Sample.create_map "data"
                "shapefiles/qc.shp" [("January", 6)]
  = ([ "data/January-01-2021-Cases.pdf"; "data/January-02-2021-Cases.pdf" ],
     Raise ValueError).
Proof.
  destruct (batch_process_stops_at_first_error unit (Z * Z) Trial.read_pdf
              Sample.floatify Sample.read_file Sample.representative_point
              Sample.create_map "data" "shapefiles/qc.shp" [("January", 6)]
              [ "data/January-01-2021-Cases.pdf";
                "data/January-02-2021-Cases.pdf" ]
              "data/January-03-2021-Cases.pdf"
              [ "data/January-04-2021-Cases.pdf";
                "data/January-05-2021-Cases.pdf";
                "data/January-06-2021-Cases.pdf" ]
              ValueError eq_refl eq_refl eq_refl)
    as [H _]; [discriminate|exact H].
Defined.

(** No boundary file: the batch ends on the first day with the exception of
    the boundary reader. *)
Lemma batch_process_without_boundary_file_witness :
  batch_process Sample.read_pdf Sample.floatify Trial.read_file
                Sample.representative_point Sample.create_map "data"
                "shapefiles/qc.shp" [("January", 6)]
  = ([], Raise (OtherError "DataSourceError")).
Proof.
  destruct (batch_process_without_boundary_file unit (Z * Z) Sample.read_pdf
              Sample.floatify Trial.read_file Sample.representative_point
              Sample.create_map "data" "shapefiles/qc.shp" [("January", 6)]
              (OtherError "DataSourceError") eq_refl)
    as [_ H].
  eapply (H ltac:(discriminate) "January" 6 [] 1); try reflexivity.
  - lia.
  - intros k Hk. lia.
  - intros c. destruct c; reflexivity.
Defined.
